(** * Querymind: the agent control loop, its tool dispatcher and the scoped
      database session

    A shallow embedding of [Querymind/tools.py], [Querymind/agent.py],
    [Querymind/logging.py] and of the session persistence of [app.py].
    Python exceptions are an explicit [result]; the libraries the program
    calls are interfaces: the SQLite engine ([Engine]), the markup of the
    rich console ([Console]), the character tables of the interpreter
    ([Unicode]) and the coercions of the tool framework ([Validation]).  The
    calls made on the [sqlite3] API are recorded in the world so that commit,
    rollback and release can be stated; Python lists that are passed by
    reference live in a store of list objects. *)

From Stdlib Require Import ZArith String Ascii List Lia.
From stdpp Require Import base option list gmap strings pretty.

Open Scope string_scope.
Open Scope Z_scope.
Open Scope list_scope.

(** ** Python values, exceptions and text rendering *)

(** Exceptions derived from Python's [Exception].  [SqliteError] stands for
    [sqlite3.Error] and its subclasses, [ValidationError] for the schema
    validation error of the tool framework, [ModelError] for whatever the chat
    model raises, [MarkupError] for the error of the rich console on a text
    whose markup it cannot render.  [KeyboardInterrupt] and the other
    [BaseException]s that an [except Exception] clause does not catch are
    outside the embedding. *)
Inductive exn : Type :=
| FileNotFoundError (msg : string)
| SqliteError (msg : string)
| IndexError (msg : string)
| KeyError (key : string)
| ValidationError (msg : string)
| RuntimeError (msg : string)
| ModelError (msg : string)
| MarkupError (msg : string).

Inductive result (A : Type) : Type :=
| Ret (a : A)
| Raise (e : exn).
Arguments Ret {A} a.
Arguments Raise {A} e.

(** [isinstance(e, FileNotFoundError)] *)
Definition is_FileNotFoundError (e : exn) : bool :=
  match e with FileNotFoundError _ => true | _ => false end.

Definition LF : ascii := Eval cbv in ascii_of_nat 10.
Definition CR : ascii := Eval cbv in ascii_of_nat 13.
Definition TAB : ascii := Eval cbv in ascii_of_nat 9.
Definition DEL : ascii := Eval cbv in ascii_of_nat 127.
Definition dquote : ascii := Eval cbv in ascii_of_nat 34.
Definition squote : ascii := "'"%char.
Definition backslash : ascii := "\"%char.

Definition newline : string := String LF EmptyString.

Fixpoint contains_char (c : ascii) (s : string) : bool :=
  match s with
  | EmptyString => false
  | String d s' => Ascii.eqb c d || contains_char c s'
  end.

Definition hex_digit (n : N) : ascii :=
  match String.get (N.to_nat n) "0123456789abcdef" with
  | Some c => c
  | None => "0"%char
  end.

(** The lower-case hexadecimal digits of [n], on [width] places. *)
Fixpoint hex_digits (width : nat) (n : N) : string :=
  match width with
  | O => EmptyString
  | S width' =>
      hex_digits width' (n / 16)%N +:+ String (hex_digit (n mod 16)%N) EmptyString
  end.

(** What the program uses of the character tables of the interpreter:
    [str.isprintable] of one character outside ASCII, given by its code
    point. *)
Class Unicode : Type := {
  isprintable : N -> bool;
}.

(** A Python [str] is held as its UTF-8 bytes.  A byte below 128 is an ASCII
    character, a byte from 128 to 191 continues a character, and a byte from
    192 starts a character of two, three or four bytes. *)
Definition is_continuation (c : ascii) : bool :=
  let n := N_of_ascii c in ((128 <=? n) && (n <? 192))%N.

(** The six payload bits of the [i]-th byte of [s]. *)
Definition payload (i : nat) (s : string) : N :=
  match String.get i s with
  | Some b => (N_of_ascii b mod 64)%N
  | None => 0%N
  end.

(** The code point of the character that starts with the byte [c] and goes on
    with the first bytes of [s]. *)
Definition code_point (c : ascii) (s : string) : N :=
  let n := N_of_ascii c in
  (if n <? 224 then (n - 192) * 64 + payload 0 s
   else if n <? 240 then (n - 224) * 4096 + payload 0 s * 64 + payload 1 s
   else (n - 240) * 262144 + payload 0 s * 4096 + payload 1 s * 64 + payload 2 s)%N.

(** The escape [repr] writes for a character that is not printable. *)
Definition escape_code_point (cp : N) : string :=
  if (cp <? 256)%N then "\x" +:+ hex_digits 2 cp
  else if (cp <? 65536)%N then "\u" +:+ hex_digits 4 cp
  else "\U" +:+ hex_digits 8 cp.

(** One ASCII character of [repr(str)], for the quote character in use. *)
Definition repr_char (quote c : ascii) : string :=
  if Ascii.eqb c backslash then "\\"
  else if Ascii.eqb c quote then String backslash (String quote EmptyString)
  else if Ascii.eqb c LF then "\n"
  else if Ascii.eqb c CR then "\r"
  else if Ascii.eqb c TAB then "\t"
  else if (N_of_ascii c <? 32)%N || Ascii.eqb c DEL then "\x" +:+ hex_digits 2 (N_of_ascii c)
  else String c EmptyString.

Section Repr.
Context {U : Unicode}.

(** The characters of [repr(str)].  A character outside ASCII is kept as it
    is when it is printable and escaped when it is not; [escaped] tells
    whether the character whose bytes are being read has been escaped, so that
    the bytes that continue it are dropped. *)
Fixpoint repr_chars (quote : ascii) (escaped : bool) (s : string) : string :=
  match s with
  | EmptyString => EmptyString
  | String c s' =>
      if (N_of_ascii c <? 128)%N then repr_char quote c +:+ repr_chars quote false s'
      else if is_continuation c then
        (if escaped then EmptyString else String c EmptyString)
        +:+ repr_chars quote escaped s'
      else if isprintable (code_point c s') then
        String c EmptyString +:+ repr_chars quote false s'
      else escape_code_point (code_point c s') +:+ repr_chars quote true s'
  end.

(** [repr(s)] of a Python [str]: single quotes, unless the text holds a single
    quote and no double quote. *)
Definition str_repr (s : string) : string :=
  let quote := if contains_char squote s && negb (contains_char dquote s)
               then dquote else squote in
  String quote (repr_chars quote false s) +:+ String quote EmptyString.

End Repr.

(** [str(n)] of a Python [int]. *)
Definition int_str (n : Z) : string := pretty n.

(** [str(e)] of an exception built from one string. *)
Definition exn_str {U : Unicode} (e : exn) : string :=
  match e with
  | KeyError key => str_repr key
  | FileNotFoundError msg | SqliteError msg | IndexError msg
  | ValidationError msg | RuntimeError msg | ModelError msg | MarkupError msg => msg
  end.

(** A cell of a fetched row as [sqlite3] hands it to Python.  A REAL or BLOB
    cell is carried by the text [repr] prints for it. *)
Inductive sql_value : Type :=
| SqlNull
| SqlInt (n : Z)
| SqlText (s : string)
| SqlOther (repr : string).

Definition row : Type := list sql_value.

Section Rendering.
Context {U : Unicode}.

Definition value_repr (v : sql_value) : string :=
  match v with
  | SqlNull => "None"
  | SqlInt n => int_str n
  | SqlText s => str_repr s
  | SqlOther r => r
  end.

(** [str(t)] of a tuple of cells. *)
Definition tuple_str (r : row) : string :=
  match r with
  | [v] => "(" +:+ value_repr v +:+ ",)"
  | _ => "(" +:+ String.concat ", " (map value_repr r) +:+ ")"
  end.

(** [str(l)] of a list of cells. *)
Definition list_str (l : list sql_value) : string :=
  "[" +:+ String.concat ", " (map value_repr l) +:+ "]".

(** ["\n".join([str(row) for row in rows])] *)
Definition rows_str (rows : list row) : string :=
  String.concat newline (map tuple_str rows).

End Rendering.

(** [[row[0] for row in rows]]; an empty row raises [IndexError]. *)
Fixpoint first_column (rows : list row) : result (list sql_value) :=
  match rows with
  | [] => Ret []
  | [] :: _ => Raise (IndexError "tuple index out of range")
  | (v :: _) :: rows' =>
      match first_column rows' with
      | Ret vs => Ret (v :: vs)
      | Raise e => Raise e
      end
  end.

(** ** The console of rich (logging.py) *)

(** What the program uses of rich: [console.log] renders the text it is given
    as console markup.  [markup_error text] is [None] when rich renders the
    text and the message of the [MarkupError] it raises when it does not, as
    on a closing tag that closes nothing. *)
Class Console : Type := {
  markup_error : string -> option string;
}.

Section Logging.
Context {C : Console}.

(** [log(content)]; what the console shows is not recorded. *)
Definition log (content : string) : result unit :=
  match markup_error content with
  | None => Ret tt
  | Some msg => Raise (MarkupError msg)
  end.

(** [log_panel(title, content, border_style)].  The content of the panel is
    rendered as markup like a logged text.  The titles the program passes are
    constants that hold no bracket, which rich renders as they are. *)
Definition log_panel (title content : string) : result unit :=
  log content.

End Logging.

(** ** The SQLite engine as an interface *)

(** What the program uses of [sqlite3]: a database file has a content, a
    connection opened on it has a state, and a statement runs on a
    connection.  [cursor.execute] raises, or it returns and leaves a result
    set from which [cursor.fetchall] takes the rows or raises in its turn
    (SQLite computes the rows after the first while they are fetched).  The
    connection that [db_execute] returns is the one after the statement has
    run to its end or to its error.  [db_close] gives the content the file is
    left with, which is without the changes of a transaction that was not
    committed.  A statement acts on the connection it runs on: statements that
    reach other files ([ATTACH], [VACUUM INTO]) are outside the embedding. *)
Class Engine : Type := {
  database : Type;
  connection : Type;
  db_open : database -> connection;
  db_execute : connection -> string -> result (result (list row)) * connection;
  db_commit : connection -> result unit * connection;
  db_rollback : connection -> connection;
  db_close : connection -> database;
}.

(** The calls made on the [sqlite3] API, in the order they are made. *)
Inductive sqlite_call : Type :=
| CallConnect (path : string)
| CallCursor
| CallExecute (sql : string)
| CallFetchall
| CallCommit
| CallRollback
| CallCursorClose
| CallConnectionClose.

(** The block under a [with with_sql_cursor(...) as cursor:]: a program over
    the cursor that executes statements, fetches rows, and ends with a value or
    an exception. *)
Inductive cursor_prog (A : Type) : Type :=
| Return (a : A)
| Throw (e : exn)
| Execute (sql : string) (k : cursor_prog A)
| Fetchall (k : list row -> cursor_prog A).
Arguments Return {A} a.
Arguments Throw {A} e.
Arguments Execute {A} sql k.
Arguments Fetchall {A} k.

Section Session.
Context {E : Engine} {C : Console} {U : Unicode}.

Inductive fs_entry : Type :=
| Directory
| DbFile (d : database).

(** The process-wide configuration, the file system and the log of engine
    calls. *)
Record world : Type := {
  DATABASE_PATH : option string;
  files : gmap string fs_entry;
  sqlite_calls : list sqlite_call;
}.

Definition log_calls (cs : list sqlite_call) (w : world) : world :=
  {| DATABASE_PATH := DATABASE_PATH w;
     files := files w;
     sqlite_calls := sqlite_calls w ++ cs |}.

Definition store_file (p : string) (d : database) (w : world) : world :=
  {| DATABASE_PATH := DATABASE_PATH w;
     files := <[p := DbFile d]> (files w);
     sqlite_calls := sqlite_calls w |}.

(** What a tool call adds to the log of engine calls. *)
Definition calls_added (w w' : world) (cs : list sqlite_call) : Prop :=
  sqlite_calls w' = sqlite_calls w ++ cs.

(** Runs the block on an open connection; [pending] is the result set of
    the last executed statement that [fetchall] has not taken yet: the rows,
    or the exception that fetching them raises. *)
Fixpoint run_cursor {A} (p : cursor_prog A) (c : connection) (pending : result (list row))
  : result A * connection * list sqlite_call :=
  match p with
  | Return a => (Ret a, c, [])
  | Throw e => (Raise e, c, [])
  | Execute sql k =>
      match db_execute c sql with
      | (Ret fetched, c') =>
          let '(r, c'', cs) := run_cursor k c' fetched in
          (r, c'', CallExecute sql :: cs)
      | (Raise e, c') => (Raise e, c', [CallExecute sql])
      end
  | Fetchall k =>
      match pending with
      | Ret rows =>
          let '(r, c', cs) := run_cursor (k rows) c (Ret []) in
          (r, c', CallFetchall :: cs)
      | Raise e => (Raise e, c, [CallFetchall])
      end
  end.

(** The [finally] clause: [cur.close(); conn.close()]. *)
Definition release (p : string) (c : connection) (w : world) : world :=
  log_calls [CallCursorClose; CallConnectionClose] (store_file p (db_close c) w).

(** [with_sql_cursor(readonly)] around a block (tools.py, lines 54-88). *)
Definition with_sql_cursor {A} (readonly : bool) (body : cursor_prog A) (w : world)
  : result A * world :=
  match DATABASE_PATH w with
  | None => (Raise (FileNotFoundError "Database file not found: None"), w)
  | Some p =>
      match files w !! p with
      | None => (Raise (FileNotFoundError ("Database file not found: " +:+ p)), w)
      | Some Directory =>
          (Raise (SqliteError "unable to open database file"),
           log_calls [CallConnect p] w)
      | Some (DbFile d) =>
          let w1 := log_calls [CallConnect p; CallCursor] w in
          let '(r, c, cs) := run_cursor body (db_open d) (Ret []) in
          let w2 := log_calls cs w1 in
          match r with
          | Ret a =>
              if readonly then (Ret a, release p c w2)
              else
                match db_commit c with
                | (Ret _, c') => (Ret a, release p c' (log_calls [CallCommit] w2))
                | (Raise e, c') =>
                    (Raise e,
                     release p (db_rollback c') (log_calls [CallCommit; CallRollback] w2))
                end
          | Raise e =>
              if readonly then (Raise e, release p c w2)
              else (Raise e, release p (db_rollback c) (log_calls [CallRollback] w2))
          end
      end
  end.

(** ** The four tools (tools.py, lines 91-211) *)

Definition NO_DATABASE : string :=
  "Error: No database has been uploaded yet. Please upload a SQLite database file first.".

Definition LIST_TABLES_SQL : string :=
  "SELECT name FROM sqlite_master WHERE type='table' AND name NOT LIKE 'sqlite_%';".

Definition sample_sql (table_name : string) (row_sample_size : Z) : string :=
  "SELECT * FROM " +:+ table_name +:+ " LIMIT " +:+ int_str row_sample_size +:+ ";".

Definition describe_sql (table_name : string) : string :=
  "PRAGMA table_info('" +:+ table_name +:+ "');".

(** The two [except] clauses of a tool: the exception is logged in red and
    turned into the text the tool returns.  An exception of [log] inside the
    handler leaves the tool. *)
Definition tool_failure (prefix : string) (e : exn) (w : world) : result string * world :=
  if is_FileNotFoundError e then
    match log ("[red]Database file not found: " +:+ exn_str e +:+ "[/red]") with
    | Ret _ => (Ret NO_DATABASE, w)
    | Raise e' => (Raise e', w)
    end
  else
    match log ("[red]" +:+ prefix +:+ exn_str e +:+ "[/red]") with
    | Ret _ => (Ret (prefix +:+ exn_str e), w)
    | Raise e' => (Raise e', w)
    end.

(** Each tool logs a panel before its [try]; an exception of [log_panel]
    leaves the tool before the session is opened. *)
Definition list_tables (reasoning : string) (w : world) : result string * world :=
  match log_panel "List Tables Tool" ("Reasoning: " +:+ reasoning) with
  | Raise e => (Raise e, w)
  | Ret _ =>
      match with_sql_cursor true
              (Execute LIST_TABLES_SQL
                 (Fetchall (fun rows =>
                    match first_column rows with
                    | Ret tables => Return tables
                    | Raise e => Throw e
                    end))) w with
      | (Ret tables, w') => (Ret (list_str tables), w')
      | (Raise e, w') => tool_failure "Error listing tables: " e w'
      end
  end.

Definition sample_table (reasoning table_name : string) (row_sample_size : Z) (w : world)
  : result string * world :=
  match log_panel "Sample Table Tool"
          ("Table: " +:+ table_name +:+ newline +:+ "Rows: " +:+ int_str row_sample_size
           +:+ newline +:+ "Reasoning: " +:+ reasoning) with
  | Raise e => (Raise e, w)
  | Ret _ =>
      match with_sql_cursor true
              (Execute (sample_sql table_name row_sample_size)
                 (Fetchall (fun rows => Return rows))) w with
      | (Ret rows, w') => (Ret (rows_str rows), w')
      | (Raise e, w') => tool_failure "Error sampling table: " e w'
      end
  end.

Definition describe_table (reasoning table_name : string) (w : world)
  : result string * world :=
  match log_panel "Describe Table Tool"
          ("Table: " +:+ table_name +:+ newline +:+ "Reasoning: " +:+ reasoning) with
  | Raise e => (Raise e, w)
  | Ret _ =>
      match with_sql_cursor true
              (Execute (describe_sql table_name)
                 (Fetchall (fun rows => Return rows))) w with
      | (Ret rows, w') => (Ret (rows_str rows), w')
      | (Raise e, w') => tool_failure "Error describing table: " e w'
      end
  end.

Definition execute_sql (reasoning sql_query : string) (w : world) : result string * world :=
  match log_panel "Execute SQL Tool"
          ("Query: " +:+ sql_query +:+ newline +:+ "Reasoning: " +:+ reasoning) with
  | Raise e => (Raise e, w)
  | Ret _ =>
      match with_sql_cursor true
              (Execute sql_query
                 (Fetchall (fun rows => Return rows))) w with
      | (Ret rows, w') => (Ret (rows_str rows), w')
      | (Raise e, w') => tool_failure "Error running query: " e w'
      end
  end.

End Session.

(** ** The tool dispatcher (tools.py, lines 27-51) *)

(** A JSON value of a tool call's argument mapping. *)
Inductive arg_value : Type :=
| ArgStr (s : string)
| ArgInt (n : Z)
| ArgBool (b : bool)
| ArgNull.

(** [ToolCall]: the dict with keys [name], [args] and [id]. *)
Record ToolCall : Type := {
  tc_name : string;
  tc_args : gmap string arg_value;
  tc_id : string;
}.

(** What the chat model returns: text and zero or more tool-call requests. *)
Record response : Type := {
  content : string;
  tool_calls : list ToolCall;
}.

Inductive message : Type :=
| SystemMessage (text : string)
| HumanMessage (text : string)
| AIMessage (r : response)
| ToolMessage (text : string) (tool_call_id : string).

(** The tool objects built by the [@tool] decorator. *)
Inductive tool : Type :=
| list_tables_tool
| sample_table_tool
| describe_table_tool
| execute_sql_tool.

Definition tool_name (t : tool) : string :=
  match t with
  | list_tables_tool => "list_tables"
  | sample_table_tool => "sample_table"
  | describe_table_tool => "describe_table"
  | execute_sql_tool => "execute_sql"
  end.

Definition get_available_tools : list tool :=
  [list_tables_tool; sample_table_tool; describe_table_tool; execute_sql_tool].

(** [{tool.name: tool for tool in get_available_tools()}] *)
Definition tools_by_name : gmap string tool :=
  foldl (fun m t => <[tool_name t := t]> m) ∅ get_available_tools.

(** A required [str] argument of the schema derived from the signature. *)
Definition str_arg (args : gmap string arg_value) (name : string) : result string :=
  match args !! name with
  | Some (ArgStr s) => Ret s
  | Some _ => Raise (ValidationError (name +:+ ": Input should be a valid string"))
  | None => Raise (ValidationError (name +:+ ": Field required"))
  end.

(** What the program uses of the validation of the tool framework: the
    integer that a JSON value is read as where the signature asks for an
    [int] (an integer as itself, and also the spellings the framework
    coerces, such as a string of digits), or [None] when it rejects the
    value. *)
Class Validation : Type := {
  int_of_json : arg_value -> option Z;
}.

(** A required [int] argument. *)
Definition int_arg {V : Validation} (args : gmap string arg_value) (name : string)
  : result Z :=
  match args !! name with
  | Some v =>
      match int_of_json v with
      | Some n => Ret n
      | None => Raise (ValidationError (name +:+ ": Input should be a valid integer"))
      end
  | None => Raise (ValidationError (name +:+ ": Field required"))
  end.

Definition bind {A B} (r : result A) (k : A -> result B) : result B :=
  match r with
  | Ret a => k a
  | Raise e => Raise e
  end.

Notation "'let!' x ':=' r 'in' k" := (bind r (fun x => k))
  (at level 10, x name, r at level 100, k at level 200).

(** The typed arguments a tool body is called with, once the framework has
    validated the mapping against the tool's signature. *)
Inductive tool_args : Type :=
| ListTablesArgs (reasoning : string)
| SampleTableArgs (reasoning table_name : string) (row_sample_size : Z)
| DescribeTableArgs (reasoning table_name : string)
| ExecuteSqlArgs (reasoning sql_query : string).

Definition validate_args {V : Validation} (t : tool) (args : gmap string arg_value)
  : result tool_args :=
  match t with
  | list_tables_tool =>
      let! reasoning := str_arg args "reasoning" in
      Ret (ListTablesArgs reasoning)
  | sample_table_tool =>
      let! reasoning := str_arg args "reasoning" in
      let! table_name := str_arg args "table_name" in
      let! row_sample_size := int_arg args "row_sample_size" in
      Ret (SampleTableArgs reasoning table_name row_sample_size)
  | describe_table_tool =>
      let! reasoning := str_arg args "reasoning" in
      let! table_name := str_arg args "table_name" in
      Ret (DescribeTableArgs reasoning table_name)
  | execute_sql_tool =>
      let! reasoning := str_arg args "reasoning" in
      let! sql_query := str_arg args "sql_query" in
      Ret (ExecuteSqlArgs reasoning sql_query)
  end.

(** The content of the panel a tool logs before its [try]. *)
Definition tool_panel (a : tool_args) : string :=
  match a with
  | ListTablesArgs reasoning => "Reasoning: " +:+ reasoning
  | SampleTableArgs reasoning table_name row_sample_size =>
      "Table: " +:+ table_name +:+ newline +:+ "Rows: " +:+ int_str row_sample_size
      +:+ newline +:+ "Reasoning: " +:+ reasoning
  | DescribeTableArgs reasoning table_name =>
      "Table: " +:+ table_name +:+ newline +:+ "Reasoning: " +:+ reasoning
  | ExecuteSqlArgs reasoning sql_query =>
      "Query: " +:+ sql_query +:+ newline +:+ "Reasoning: " +:+ reasoning
  end.

(** The statement a tool hands to [cursor.execute]. *)
Definition tool_statement (a : tool_args) : string :=
  match a with
  | ListTablesArgs _ => LIST_TABLES_SQL
  | SampleTableArgs _ table_name row_sample_size => sample_sql table_name row_sample_size
  | DescribeTableArgs _ table_name => describe_sql table_name
  | ExecuteSqlArgs _ sql_query => sql_query
  end.

(** The text a tool puts before [str(e)] in its [except Exception] clause. *)
Definition tool_error_prefix (a : tool_args) : string :=
  match a with
  | ListTablesArgs _ => "Error listing tables: "
  | SampleTableArgs _ _ _ => "Error sampling table: "
  | DescribeTableArgs _ _ => "Error describing table: "
  | ExecuteSqlArgs _ _ => "Error running query: "
  end.

(** The text a tool logs in its [except Exception] clause for the message
    [msg] of the exception. *)
Definition tool_error_log (a : tool_args) (msg : string) : string :=
  "[red]" +:+ tool_error_prefix a +:+ msg +:+ "[/red]".

(** The text a tool logs in its [except FileNotFoundError] clause. *)
Definition no_database_log (msg : string) : string :=
  "[red]Database file not found: " +:+ msg +:+ "[/red]".

(** The line a tool logs for the exception [e] of its session. *)
Definition failure_log {U : Unicode} (a : tool_args) (e : exn) : string :=
  if is_FileNotFoundError e then no_database_log (exn_str e)
  else tool_error_log a (exn_str e).

Section Dispatcher.
Context {E : Engine} {C : Console} {U : Unicode} {V : Validation}.

Definition run_tool (a : tool_args) (w : world) : result string * world :=
  match a with
  | ListTablesArgs reasoning => list_tables reasoning w
  | SampleTableArgs reasoning table_name row_sample_size =>
      sample_table reasoning table_name row_sample_size w
  | DescribeTableArgs reasoning table_name => describe_table reasoning table_name w
  | ExecuteSqlArgs reasoning sql_query => execute_sql reasoning sql_query w
  end.

(** [tool.invoke(args)]: validate the mapping, then call the body; an
    exception of the body leaves [invoke]. *)
Definition tool_invoke (t : tool) (args : gmap string arg_value) (w : world)
  : result string * world :=
  match validate_args t args with
  | Ret a => run_tool a w
  | Raise e => (Raise e, w)
  end.

(** [call_tool(tool_call)]; the lookup [tools_by_name[name]] raises
    [KeyError] on a name that is not in the dict. *)
Definition call_tool (tool_call : ToolCall) (w : world) : result message * world :=
  match tools_by_name !! tc_name tool_call with
  | None => (Raise (KeyError (tc_name tool_call)), w)
  | Some t =>
      match tool_invoke t (tc_args tool_call) w with
      | (Ret text, w') => (Ret (ToolMessage text (tc_id tool_call)), w')
      | (Raise e, w') => (Raise e, w')
      end
  end.

End Dispatcher.

(** ** The conversation loop (agent.py, lines 93-115) *)

(** Python lists are objects: a list is known by its location in a store. *)
Definition loc : Type := positive.

(** [l.copy()]: a new list object with the same elements. *)
Definition list_copy (l : loc) (h : gmap loc (list message)) : loc * gmap loc (list message) :=
  let l' := fresh (dom h) in
  (l', <[l' := h !!! l]> h).

(** [l.append(x)] *)
Definition list_append (l : loc) (x : message) (h : gmap loc (list message))
  : gmap loc (list message) :=
  <[l := h !!! l ++ [x]]> h.

Definition MAX_ITERATIONS_MESSAGE : string :=
  "Maximum number of iterations reached. Please try again with a different query.".

(** [reply] is the tool-result message of request [tool_call]: a
    [ToolMessage] tagged with the identifier of the request. *)
Definition answers (tool_call : ToolCall) (reply : message) : Prop :=
  exists text, reply = ToolMessage text (tc_id tool_call).

(** The record of a run of model invocations that starts when the message
    list is [current]: each invocation reads the list as it stands, and
    between an invocation that returned [r] and the next one the list grows by
    the assistant message [r] and one reply per request of [r], in order. *)
Inductive paired : list message -> list (list message * result response) -> Prop :=
| paired_nil current : paired current []
| paired_end current x : paired current [(current, x)]
| paired_next current r replies rest :
    Forall2 answers (tool_calls r) replies ->
    paired (current ++ AIMessage r :: replies) rest ->
    paired current ((current, Ret r) :: rest).

Section Agent.
Context {E : Engine} {C : Console} {U : Unicode} {V : Validation}.
(** The chat model: a state and an [invoke] that reads the message list and
    returns a response or raises. *)
Context {Model : Type} (llm_invoke : Model -> list message -> result response * Model).

(** Everything a turn can read or change: the store of list objects, the
    database world, the model, and the record of the model's invocations
    (the messages passed and what came back), oldest first. *)
Record machine : Type := {
  heap : gmap loc (list message);
  env : world;
  llm : Model;
  invocations : list (list message * result response);
}.

Definition set_heap (h : gmap loc (list message)) (m : machine) : machine :=
  {| heap := h; env := env m; llm := llm m; invocations := invocations m |}.

Definition set_env (w : world) (m : machine) : machine :=
  {| heap := heap m; env := w; llm := llm m; invocations := invocations m |}.

(** [response = llm.invoke(messages)] *)
Definition invoke_model (messages : loc) (m : machine) : result response * machine :=
  let input := heap m !!! messages in
  let '(r, s) := llm_invoke (llm m) input in
  (r, {| heap := heap m; env := env m; llm := s;
         invocations := invocations m ++ [(input, r)] |}).

(** The [for tool_call in response.tool_calls] loop. *)
Fixpoint dispatch_calls (calls : list ToolCall) (messages : loc) (m : machine)
  : result unit * machine :=
  match calls with
  | [] => (Ret tt, m)
  | tool_call :: calls' =>
      match call_tool tool_call (env m) with
      | (Ret reply, w) =>
          dispatch_calls calls' messages
            (set_heap (list_append messages reply (heap m)) (set_env w m))
      | (Raise e, w) => (Raise e, set_env w m)
      end
  end.

(** How one pass through the body of the [while] loop ends: the turn is over
    (a [return] or an exception), or the loop goes on to
    [n_iterations += 1]. *)
Inductive pass : Type :=
| Finished (r : result string) (m : machine)
| Continue (m : machine).

(** The body of the [while] loop (agent.py, lines 98-111). *)
Definition loop_body (messages : loc) (m : machine) : pass :=
  match invoke_model messages m with
  | (Raise e, m1) => Finished (Raise e) m1
  | (Ret r, m1) =>
      let m2 := set_heap (list_append messages (AIMessage r) (heap m1)) m1 in
      match tool_calls r with
      | [] => Finished (Ret (content r)) m2
      | calls =>
          match dispatch_calls calls messages m2 with
          | (Ret _, m3) => Continue m3
          | (Raise e, m3) => Finished (Raise e) m3
          end
      end
  end.

(** The [while n_iterations < max_iterations] loop and the [raise] after it;
    [remaining] is [max_iterations - n_iterations]. *)
Fixpoint ask_loop (remaining : nat) (messages : loc) (m : machine)
  : result string * machine :=
  match remaining with
  | O => (Raise (RuntimeError MAX_ITERATIONS_MESSAGE), m)
  | S remaining' =>
      match loop_body messages m with
      | Finished r m' => (r, m')
      | Continue m' => ask_loop remaining' messages m'
      end
  end.

(** [messages = history.copy(); messages.append(HumanMessage(content=query))] *)
Definition ask_start (query : string) (history : loc) (m : machine) : loc * machine :=
  let '(messages, h) := list_copy history (heap m) in
  (messages, set_heap (list_append messages (HumanMessage query) h) m).

(** [ask(query, history, llm, max_iterations)] (agent.py, lines 91-115);
    returns, besides the outcome, the location of the private list
    [messages], if the call got as far as making it: the panel of the request
    is logged first, and an exception of [log_panel] leaves [ask] before the
    history is copied. *)
Definition ask (query : string) (history : loc) (max_iterations : Z) (m : machine)
  : result string * option loc * machine :=
  match log_panel "User Request" ("Query: " +:+ query) with
  | Raise e => (Raise e, None, m)
  | Ret _ =>
      let '(messages, m0) := ask_start query history m in
      let '(r, m') := ask_loop (Z.to_nat max_iterations) messages m0 in
      (r, Some messages, m')
  end.

(** The machine after [n] passes that all went on to the next iteration. *)
Fixpoint after_passes (n : nat) (messages : loc) (m : machine) : option machine :=
  match n with
  | O => Some m
  | S n' =>
      match loop_body messages m with
      | Continue m' => after_passes n' messages m'
      | Finished _ _ => None
      end
  end.

End Agent.

(** ** Session persistence (app.py, lines 126-189) *)

(** One element of the list that [save_session] serialises:
    [{"type": msg.__class__.__name__, "content": msg.content}]. *)
Record serialized_message : Type := {
  msg_type : string;
  msg_content : string;
}.

(** [msg.__class__.__name__] *)
Definition class_name (msg : message) : string :=
  match msg with
  | SystemMessage _ => "SystemMessage"
  | HumanMessage _ => "HumanMessage"
  | AIMessage _ => "AIMessage"
  | ToolMessage _ _ => "ToolMessage"
  end.

(** [msg.content] *)
Definition message_content (msg : message) : string :=
  match msg with
  | SystemMessage text | HumanMessage text | ToolMessage text _ => text
  | AIMessage r => content r
  end.

(** [isinstance(msg, SystemMessage)] *)
Definition is_SystemMessage (msg : message) : bool :=
  match msg with SystemMessage _ => true | _ => false end.

(** The number of characters that [json.dumps] writes for one character of a
    string, by the first byte of the character ([ensure_ascii] is on): two for
    a quote, a backslash and the five short escapes, six for another control
    character and for a character outside ASCII up to U+FFFF, twelve for a
    character above (a surrogate pair); the bytes that continue a character
    add nothing. *)
Definition json_char_length (c : ascii) : Z :=
  let n := Z.of_N (N_of_ascii c) in
  if (n =? 34) || (n =? 92) then 2
  else if (n =? 8) || (n =? 9) || (n =? 10) || (n =? 12) || (n =? 13) then 2
  else if n <? 32 then 6
  else if n <? 127 then 1
  else if n =? 127 then 6
  else if n <? 192 then 0
  else if n <? 240 then 6
  else 12.

(** The length of a string as [json.dumps] writes it, quotes included. *)
Fixpoint json_string_length (s : string) : Z :=
  match s with
  | EmptyString => 2
  | String c s' => json_char_length c + json_string_length s'
  end.

(** The length of [{"type": ..., "content": ...}]. *)
Definition json_entry_length (msg : serialized_message) : Z :=
  9 + json_string_length (msg_type msg) + 13 + json_string_length (msg_content msg) + 1.

(** The length of the text [json.dumps(serialized_messages)]: the entries
    between brackets, separated by a comma and a blank.  The text is ASCII,
    so that this is also its length in bytes. *)
Definition json_length (messages : list serialized_message) : Z :=
  match messages with
  | [] => 2
  | msg :: messages' =>
      2 + json_entry_length msg
      + fold_right (fun msg' n => 2 + json_entry_length msg' + n) 0 messages'
  end.

(** The most bytes a column of type [TEXT] holds (app.py, lines 113-115). *)
Definition TEXT_LIMIT : Z := 65535.

(** What [st.session_state] holds for the persistence functions:
    [is_guest] and [user.get("user_id")]. *)
Record session_state : Type := {
  is_guest : bool;
  user_id : option string;
}.

Section Persistence.
(** The system prompt carries the day's date, the conversation column holds
    JSON text written by [json.dumps] and read by [json.loads], and new
    sessions are stamped with the current time. *)
Context (SYSTEM_PROMPT : string).
Context {json_text : Type}.
Context (json_dumps : list serialized_message -> json_text).
Context (json_loads : json_text -> list serialized_message).
Context (current_time : string).

(** [create_history()] (agent.py, lines 85-92) *)
Definition create_history : list message := [SystemMessage SYSTEM_PROMPT].

(** A row of the [sessions] table. *)
Record session_row : Type := {
  row_session_id : Z;
  row_user_id : string;
  row_title : string;
  row_created_at : string;
  row_conversation_json : json_text;
}.

(** The conversations database: whether a connection can be made, the rows
    of [sessions], and the next AUTO_INCREMENT value. *)
Record conversations_db : Type := {
  reachable : bool;
  sessions : list session_row;
  auto_increment : Z;
}.

Definition owned_by (session_id : Z) (user : string) (r : session_row) : bool :=
  (row_session_id r =? session_id) && String.eqb (row_user_id r) user.

Definition serialize (messages : list message) : list serialized_message :=
  map (fun msg => {| msg_type := class_name msg; msg_content := message_content msg |})
      (List.filter (fun msg => negb (is_SystemMessage msg)) messages).

(** A text that the server does not store in a column of type [TEXT]: it
    turns the statement down with a [mysql.connector.Error] (the server runs in
    its default strict mode), the transaction is rolled back and the
    [except Error] clause of the caller returns [None]. *)
Definition too_long (bytes : Z) : bool := TEXT_LIMIT <? bytes.

(** [save_session(session_id, title, messages)]: [None] for a guest, for a
    user without id and when the database raises; otherwise the id of the
    inserted or updated session.  The server checks the length of a text when
    it writes a row: an [UPDATE] that finds no row writes nothing and raises
    nothing.  The title of a new session is [Chat@] and the time stamp, and
    the user ids are those of the users table; both fit their columns. *)
Definition save_session (session_id : option Z) (title : string) (messages : list message)
    (st : session_state) (db : conversations_db) : option Z * conversations_db :=
  if is_guest st then (None, db)
  else
    match user_id st with
    | None => (None, db)
    | Some user =>
        let serialized_messages := serialize messages in
        if negb (reachable db) then (None, db)
        else
          match session_id with
          | None =>
              let title := "Chat@" +:+ current_time in
              let new_row := {| row_session_id := auto_increment db;
                                row_user_id := user;
                                row_title := title;
                                row_created_at := current_time;
                                row_conversation_json := json_dumps serialized_messages |} in
              if too_long (json_length serialized_messages) then (None, db)
              else
                (Some (auto_increment db),
                 {| reachable := reachable db;
                    sessions := sessions db ++ [new_row];
                    auto_increment := auto_increment db + 1 |})
          | Some sid =>
              let update r :=
                if owned_by sid user r
                then {| row_session_id := row_session_id r;
                        row_user_id := row_user_id r;
                        row_title := title;
                        row_created_at := row_created_at r;
                        row_conversation_json := json_dumps serialized_messages |}
                else r in
              if existsb (owned_by sid user) (sessions db)
                 && (too_long (Z.of_nat (String.length title))
                     || too_long (json_length serialized_messages))
              then (None, db)
              else
                (Some sid,
                 {| reachable := reachable db;
                    sessions := map update (sessions db);
                    auto_increment := auto_increment db |})
          end
    end.

(** The [for msg in messages] loop of [load_session]. *)
Fixpoint restore (history : list message) (messages : list serialized_message)
  : list message :=
  match messages with
  | [] => history
  | msg :: messages' =>
      if String.eqb (msg_type msg) "HumanMessage"
      then restore (history ++ [HumanMessage (msg_content msg)]) messages'
      else if String.eqb (msg_type msg) "AIMessage"
      then restore (history ++ [AIMessage {| content := msg_content msg; tool_calls := [] |}])
                   messages'
      else restore history messages'
  end.

(** [load_session(session_id)] *)
Definition load_session (session_id : option Z) (st : session_state) (db : conversations_db)
  : list message :=
  if is_guest st then create_history
  else
    match user_id st with
    | None => create_history
    | Some user =>
        if negb (reachable db) then create_history
        else
          match session_id with
          | None => create_history
          | Some sid =>
              match find (owned_by sid user) (sessions db) with
              | Some r => restore create_history (json_loads (row_conversation_json r))
              | None => create_history
              end
          end
    end.

End Persistence.

(** The user and assistant turns of a history, in order, with their text. *)
Inductive speaker : Type := User | Assistant.

Fixpoint chat_text (messages : list message) : list (speaker * string) :=
  match messages with
  | [] => []
  | HumanMessage text :: messages' => (User, text) :: chat_text messages'
  | AIMessage r :: messages' => (Assistant, content r) :: chat_text messages'
  | _ :: messages' => chat_text messages'
  end.

(** ** A reference engine

    An engine for the examples.  It answers the statement of [list_tables],
    the statement form of [sample_table], [SELECT 1] and [DELETE FROM] a
    table the way SQLite does; every other statement is outside of it and is
    turned down.  A database is its catalogue ([sqlite_master]) with the rows
    of each table.  A connection holds the content of the file and the
    content as the statements of the open transaction have left it: a commit
    writes the second over the first, a rollback and a close without a commit
    drop it, as [sqlite3] does with the changes of a [DELETE]. *)

Record master_entry : Type := {
  m_type : string;
  m_name : string;
  m_rows : list row;
}.

Definition ascii_lower (c : ascii) : ascii :=
  let n := N_of_ascii c in
  if ((65 <=? n) && (n <=? 90))%N then ascii_of_N (n + 32) else c.

(** SQLite's [LIKE] without [ESCAPE]: [%] matches any run of characters, [_]
    matches any one character, any other character matches itself without
    regard to ASCII case. *)
Fixpoint like_match (pattern subject : list ascii) : bool :=
  match pattern with
  | [] => match subject with [] => true | _ => false end
  | p :: pattern' =>
      if Ascii.eqb p "%"%char then
        (fix from (s : list ascii) : bool :=
           like_match pattern' s ||
           match s with
           | [] => false
           | _ :: s' => from s'
           end) subject
      else
        match subject with
        | [] => false
        | c :: subject' =>
            (Ascii.eqb p "_"%char || Ascii.eqb (ascii_lower p) (ascii_lower c))
            && like_match pattern' subject'
        end
  end.

Definition sqlite_like (pattern subject : string) : bool :=
  like_match (list_ascii_of_string pattern) (list_ascii_of_string subject).

(** The rows of
    [SELECT name FROM sqlite_master WHERE type='table' AND name NOT LIKE 'sqlite_%';] *)
Definition catalogue_rows (d : list master_entry) : list row :=
  map (fun e => [SqlText (m_name e)])
      (List.filter (fun e => String.eqb (m_type e) "table"
                        && negb (sqlite_like "sqlite_%" (m_name e))) d).

Fixpoint strip_prefix (p s : string) : option string :=
  match p, s with
  | EmptyString, _ => Some s
  | String a p', String b s' => if Ascii.eqb a b then strip_prefix p' s' else None
  | String _ _, EmptyString => None
  end.

Definition is_digit (c : ascii) : bool :=
  let n := N_of_ascii c in ((48 <=? n) && (n <=? 57))%N.

Definition is_ident_char (c : ascii) : bool :=
  let n := N_of_ascii (ascii_lower c) in
  ((97 <=? n) && (n <=? 122))%N || is_digit c || Ascii.eqb c "_"%char.

(** The longest run of identifier characters at the head, and the rest. *)
Fixpoint span_ident (s : string) : string * string :=
  match s with
  | EmptyString => (EmptyString, EmptyString)
  | String c s' =>
      if is_ident_char c
      then let '(name, rest) := span_ident s' in (String c name, rest)
      else (EmptyString, s)
  end.

Fixpoint digits_value (acc : Z) (s : string) : option Z :=
  match s with
  | EmptyString => Some acc
  | String c s' =>
      if is_digit c
      then digits_value (10 * acc + Z.of_N (N_of_ascii c - 48)) s'
      else None
  end.

Fixpoint span_digits (s : string) : string * string :=
  match s with
  | EmptyString => (EmptyString, EmptyString)
  | String c s' =>
      if is_digit c
      then let '(ds, rest) := span_digits s' in (String c ds, rest)
      else (EmptyString, s)
  end.

(** A decimal integer followed by the closing semicolon. *)
Definition parse_limit (s : string) : option Z :=
  let '(negative, s1) :=
    match strip_prefix "-" s with
    | Some s1 => (true, s1)
    | None => (false, s)
    end in
  let '(ds, rest) := span_digits s1 in
  match ds with
  | EmptyString => None
  | String _ _ =>
      if String.eqb rest ";"
      then match digits_value 0 ds with
           | Some n => Some (if negative then - n else n)
           | None => None
           end
      else None
  end.

(** A run of identifier characters that does not start with a digit. *)
Definition is_name (s : string) : bool :=
  match s with
  | EmptyString => false
  | String c _ => negb (is_digit c)
  end.

(** [SELECT * FROM <name> LIMIT <integer>;], where the name may be followed
    by an alias: [SELECT * FROM <name> <alias> LIMIT <integer>;].  Names are
    read as names; SQL keywords in the place of a name are not covered. *)
Definition parse_select_limit (sql : string) : option (string * Z) :=
  match strip_prefix "SELECT * FROM " sql with
  | None => None
  | Some rest =>
      let '(name, after_name) := span_ident rest in
      if is_name name then
        let limit_clause :=
          match strip_prefix " LIMIT " after_name with
          | Some limit => Some limit
          | None =>
              match strip_prefix " " after_name with
              | Some from_alias =>
                  let '(alias, after_alias) := span_ident from_alias in
                  if is_name alias then strip_prefix " LIMIT " after_alias else None
              | None => None
              end
          end in
        match limit_clause with
        | Some limit =>
            match parse_limit limit with
            | Some n => Some (name, n)
            | None => None
            end
        | None => None
        end
      else None
  end.

Definition lower (s : string) : string :=
  string_of_list_ascii (map ascii_lower (list_ascii_of_string s)).

(** Table and view names are matched without regard to ASCII case. *)
Definition find_table (name : string) (d : list master_entry) : option master_entry :=
  find (fun e => (String.eqb (m_type e) "table" || String.eqb (m_type e) "view")
                 && String.eqb (lower (m_name e)) (lower name)) d.

(** [DELETE FROM <name>;] *)
Definition parse_delete (sql : string) : option string :=
  match strip_prefix "DELETE FROM " sql with
  | None => None
  | Some rest =>
      let '(name, after_name) := span_ident rest in
      if is_name name && String.eqb after_name ";" then Some name else None
  end.

(** The catalogue after all rows of the table [name] have been deleted. *)
Definition delete_rows (name : string) (d : list master_entry) : list master_entry :=
  map (fun e => if String.eqb (m_type e) "table" && String.eqb (lower (m_name e)) (lower name)
                then {| m_type := m_type e; m_name := m_name e; m_rows := [] |}
                else e) d.

Definition mini_execute (d : list master_entry) (sql : string)
  : result (result (list row)) * list master_entry :=
  if String.eqb sql LIST_TABLES_SQL then (Ret (Ret (catalogue_rows d)), d)
  else if String.eqb sql "SELECT 1" then (Ret (Ret [[SqlInt 1]]), d)
  else
    match parse_select_limit sql with
    | Some (name, n) =>
        match find_table name d with
        | Some e =>
            (Ret (Ret (if n <? 0 then m_rows e else take (Z.to_nat n) (m_rows e))), d)
        | None => (Raise (SqliteError ("no such table: " +:+ name)), d)
        end
    | None =>
        match parse_delete sql with
        | Some name =>
            match find_table name d with
            | Some e =>
                if String.eqb (m_type e) "table"
                then (Ret (Ret []), delete_rows name d)
                else (Raise (SqliteError ("cannot modify " +:+ m_name e
                                          +:+ " because it is a view")), d)
            | None => (Raise (SqliteError ("no such table: " +:+ name)), d)
            end
        | None => (Raise (SqliteError "statement outside the reference engine"), d)
        end
    end.

(** The content of the file, and the content inside the open transaction. *)
Record mini_connection : Type := {
  on_disk : list master_entry;
  in_transaction : list master_entry;
}.

Definition mini_sqlite : Engine := {|
  database := list master_entry;
  connection := mini_connection;
  db_open := fun d => {| on_disk := d; in_transaction := d |};
  db_execute := fun c sql =>
    let '(r, d) := mini_execute (in_transaction c) sql in
    (r, {| on_disk := on_disk c; in_transaction := d |});
  db_commit := fun c =>
    (Ret tt, {| on_disk := in_transaction c; in_transaction := in_transaction c |});
  db_rollback := fun c => {| on_disk := on_disk c; in_transaction := on_disk c |};
  db_close := fun c => on_disk c;
|}.

(** ** A reference console

    The tags of console markup as rich reads them, for the examples: a tag is
    a bracket, one of the characters [a-z#/@], and the text up to the next
    closing bracket with no opening bracket before it; an odd number of
    backslashes before the bracket makes it plain text.  A closing tag [[/]]
    closes the tag opened last, a closing tag [[/name]] the last open tag of
    that name, and rich raises when there is none.  Names are compared
    without the blanks around them and without regard to ASCII case; the
    styles that rich knows under several names and the tags that carry a
    handler are outside of this reference. *)

(** One tag: the position of its bracket, counted in characters, and the
    text between the brackets. *)
Definition markup_tag : Type := (Z * string)%type.

(** The state of the scan: in plain text after [run] backslashes; right
    after a bracket at [position] that came after [run] backslashes; or inside
    a tag, with its text so far and the backslashes at the end of it. *)
Inductive scan_state : Type :=
| InText (run : nat)
| AfterBracket (position : Z) (run : nat)
| InTag (position : Z) (run : nat) (text : string) (trailing : nat).

Definition is_tag_start (c : ascii) : bool :=
  let n := N_of_ascii c in
  ((97 <=? n) && (n <=? 122))%N || contains_char c "#/@".

(** The scan after a character that is no part of a tag. *)
Definition scan_text (c : ascii) (position : Z) (run : nat) : scan_state :=
  if Ascii.eqb c backslash then InText (S run)
  else if Ascii.eqb c "["%char then AfterBracket position 0
  else InText 0.

Definition scan_step (st : scan_state) (c : ascii) (position : Z)
  : scan_state * list markup_tag :=
  match st with
  | InText run =>
      if Ascii.eqb c "["%char then (AfterBracket position run, [])
      else (scan_text c position run, [])
  | AfterBracket start run =>
      if is_tag_start c then (InTag start run (String c EmptyString) 0, [])
      else (scan_text c position 0, [])
  | InTag start run text trailing =>
      if Ascii.eqb c "]"%char then
        (InText 0, if Nat.even run then [(start, text)] else [])
      else if Ascii.eqb c "["%char then (AfterBracket position trailing, [])
      else
        (InTag start run (text +:+ String c EmptyString)
           (if Ascii.eqb c backslash then S trailing else 0), [])
  end.

(** The tags of a text, in order. *)
Fixpoint scan_tags (s : string) (st : scan_state) (position : Z) : list markup_tag :=
  match s with
  | EmptyString => []
  | String c s' =>
      if is_continuation c then scan_tags s' (fst (scan_step st c position)) position
      else
        let '(st', tags) := scan_step st c position in
        tags ++ scan_tags s' st' (position + 1)
  end.

Definition is_blank (c : ascii) : bool :=
  let n := N_of_ascii c in ((n =? 32) || ((9 <=? n) && (n <=? 13)))%N.

Fixpoint strip_left (s : string) : string :=
  match s with
  | String c s' => if is_blank c then strip_left s' else s
  | EmptyString => EmptyString
  end.

Definition reverse_string (s : string) : string :=
  string_of_list_ascii (rev (list_ascii_of_string s)).

(** [s.strip()] for the blanks of ASCII. *)
Definition strip (s : string) : string :=
  reverse_string (strip_left (reverse_string (strip_left s))).

(** The name of a tag: the text before the first [=]. *)
Fixpoint tag_name (text : string) : string :=
  match text with
  | EmptyString => EmptyString
  | String c text' => if Ascii.eqb c "="%char then EmptyString else String c (tag_name text')
  end.

(** The stack of open tags, newest first, without the newest entry of the
    given name. *)
Fixpoint pop_style (name : string) (stack : list string) : option (list string) :=
  match stack with
  | [] => None
  | top :: stack' =>
      if String.eqb top name then Some stack'
      else option_map (cons top) (pop_style name stack')
  end.

(** The loop of [render] over the tags. *)
Fixpoint render_tags (tags : list markup_tag) (stack : list string) : option string :=
  match tags with
  | [] => None
  | (position, text) :: tags' =>
      match tag_name text with
      | String "/" closed =>
          match strip closed with
          | EmptyString =>
              match stack with
              | [] => Some ("closing tag '[/]' at position " +:+ int_str position
                            +:+ " has nothing to close")
              | _ :: stack' => render_tags tags' stack'
              end
          | name =>
              match pop_style (lower name) stack with
              | Some stack' => render_tags tags' stack'
              | None => Some ("closing tag '[" +:+ text +:+ "]' at position "
                              +:+ int_str position +:+ " doesn't match any open tag")
              end
          end
      | name => render_tags tags' (lower (strip name) :: stack)
      end
  end.

Definition mini_rich : Console := {|
  markup_error := fun text => render_tags (scan_tags text (InText 0) 0) [];
|}.

(** ** Reference tables and coercions

    For the examples: the characters up to U+00FF, of which the controls, the
    no-break space and the soft hyphen are not printable, with every
    character above taken as printable; and the integers, the booleans and
    the strings of decimal digits read as an [int], with every other value
    turned down, though the framework reads some more spellings. *)
Definition mini_unicode : Unicode := {|
  isprintable := fun cp => negb ((cp <=? 160) || (cp =? 173))%N;
|}.

Definition mini_validation : Validation := {|
  int_of_json := fun v =>
    match v with
    | ArgInt n => Some n
    | ArgBool b => Some (if b then 1 else 0)
    | ArgStr (String c s) => digits_value 0 (String c s)
    | _ => None
    end;
|}.

(** ** Sample data *)

(** A database with one user table of one row, a user table whose name holds
    a space, a user table whose name starts with the letters of the engine's
    reserved prefix but not with the prefix itself, and one internal table. *)
Definition shop : list master_entry :=
  [ {| m_type := "table"; m_name := "users";
       m_rows := [[SqlInt 1; SqlText "ann"]] |};
    {| m_type := "table"; m_name := "daily sales";
       m_rows := [[SqlInt 1; SqlInt 3]] |};
    {| m_type := "table"; m_name := "sqlite3_import_log";
       m_rows := [[SqlText "2024-01-01"]] |};
    {| m_type := "table"; m_name := "sqlite_sequence";
       m_rows := [[SqlText "users"; SqlInt 1]] |};
    {| m_type := "index"; m_name := "users_by_name"; m_rows := [] |} ].

Definition shop_world : world (E := mini_sqlite) :=
  {| DATABASE_PATH := Some "data/shop.db";
     files := {[ "data/shop.db" := DbFile (E := mini_sqlite) shop ]};
     sqlite_calls := [] |}.

(** A database file that holds only the engine's own table. *)
Definition empty_world : world (E := mini_sqlite) :=
  {| DATABASE_PATH := Some "data/empty.db";
     files := {[ "data/empty.db" :=
                 DbFile (E := mini_sqlite)
                   [ {| m_type := "table"; m_name := "sqlite_sequence"; m_rows := [] |} ] ]};
     sqlite_calls := [] |}.

(** No upload yet: [Config.Path.DATABASE_PATH] is [None]. *)
Definition fresh_world : world (E := mini_sqlite) :=
  {| DATABASE_PATH := None; files := ∅; sqlite_calls := [] |}.

Definition list_tables_call (id : string) : ToolCall :=
  {| tc_name := "list_tables";
     tc_args := {[ "reasoning" := ArgStr "see what is there" ]};
     tc_id := id |}.

Definition plot_call (id : string) : ToolCall :=
  {| tc_name := "plot_chart";
     tc_args := {[ "reasoning" := ArgStr "the user asked for a plot" ]};
     tc_id := id |}.

(** A model stub that asks for [list_tables] on every invocation. *)
Definition stub_always_lists (s : unit) (messages : list message) : result response * unit :=
  (Ret {| content := EmptyString; tool_calls := [list_tables_call "call_1"] |}, tt).

(** A model stub that asks for a tool that is not registered, every time. *)
Definition stub_always_plots (s : unit) (messages : list message) : result response * unit :=
  (Ret {| content := EmptyString; tool_calls := [plot_call "call_1"] |}, tt).

(** A model stub that asks for [list_tables] while its counter is positive and
    then answers. *)
Definition stub_counts_down (s : nat) (messages : list message) : result response * nat :=
  match s with
  | O => (Ret {| content := "There is one table, users."; tool_calls := [] |}, O)
  | S s' =>
      (Ret {| content := EmptyString; tool_calls := [list_tables_call "call_1"] |}, s')
  end.

Definition start_machine {Model : Type} (s : Model) : machine (E := mini_sqlite) (Model := Model) :=
  {| heap := {[ 1%positive := [SystemMessage "You are QueryMind."] ]};
     env := shop_world;
     llm := s;
     invocations := [] |}.

(** A block that deletes the rows of the table [users]. *)
Definition delete_users_block : cursor_prog unit :=
  Execute "DELETE FROM users;" (Return tt).

(** The database [shop] without the rows of [users]. *)
Definition shop_without_users : list master_entry := delete_rows "users" shop.

Definition count_users_args : tool_args :=
  ExecuteSqlArgs "show the users" "SELECT * FROM users LIMIT 5;".

(** A guest, and a signed-in user. *)
Definition guest : session_state := {| is_guest := true; user_id := None |}.
Definition ann : session_state := {| is_guest := false; user_id := Some "QM1" |}.

(** A conversations database with no session yet; the conversation column
    holds the serialised list itself. *)
Definition no_sessions : conversations_db (json_text := list serialized_message) :=
  {| reachable := true; sessions := []; auto_increment := 1 |}.

Definition short_conversation : list message :=
  [ SystemMessage "You are QueryMind.";
    HumanMessage "How many users are there?";
    AIMessage {| content := "There is one user."; tool_calls := [] |} ].

(** ** Session management of the web application (app.py, lines 191-212) *)

(** The keys of [st.session_state] that session management reads and
    writes.  A key can be absent; [current_session_id] can be present and
    hold [None]. *)
Record chat_state : Type := {
  account : session_state;
  st_current_session_id : option (option Z);
  st_session_title : option string;
  st_messages : option (list message);
}.

Section SessionManagement.
Context (SYSTEM_PROMPT : string).
Context {json_text : Type}.
Context (json_dumps : list serialized_message -> json_text).
Context (current_time : string).

(** [delete_session(session_id)]: deletes the rows of the session that the
    user owns; when the deleted session is the current one, a new empty
    session is saved and becomes the current one. *)
Definition delete_session (session_id : Z) (st : chat_state)
    (db : conversations_db (json_text := json_text))
  : chat_state * conversations_db (json_text := json_text) :=
  if is_guest (account st) then (st, db)
  else
    match user_id (account st) with
    | None => (st, db)
    | Some user =>
        if negb (reachable db) then (st, db)
        else
          let db1 := {| reachable := reachable db;
                        sessions := List.filter (fun r => negb (owned_by session_id user r))
                                      (sessions db);
                        auto_increment := auto_increment db |} in
          match st_current_session_id st with
          | Some (Some current) =>
              if current =? session_id then
                let '(new_session_id, db2) :=
                  save_session json_dumps current_time None EmptyString
                    (create_history SYSTEM_PROMPT) (account st) db1 in
                ({| account := account st;
                    st_current_session_id := Some new_session_id;
                    st_session_title := Some ("Chat@" +:+ current_time);
                    st_messages := Some (create_history SYSTEM_PROMPT) |}, db2)
              else (st, db1)
          | _ => (st, db1)
          end
    end.

End SessionManagement.

(** ** Uploading a database (app.py, lines 265-283) *)

(** How [save_uploaded_file] ends: it returns the path, it returns [None],
    an exception that its [except (sqlite3.Error, OSError)] clause does not
    catch leaves it, or [file_path.unlink()] raises inside the handler. *)
Inductive upload_outcome : Type :=
| Accepted (file_path : string)
| Rejected
| Escaped (e : exn)
| UnlinkFailed.

(** [isinstance(e, (sqlite3.Error, OSError))] *)
Definition is_upload_error (e : exn) : bool :=
  match e with
  | SqliteError _ | FileNotFoundError _ => true
  | _ => false
  end.

Section Upload.
Context {E : Engine}.

(** [Config.Path.UPLOADED_DB_DIR] and the [/] of [pathlib]. *)
Context (UPLOADED_DB_DIR : string) (path_join : string -> string -> string).

Definition set_database_path (p : option string) (w : world) : world :=
  {| DATABASE_PATH := p; files := files w; sqlite_calls := sqlite_calls w |}.

Definition remove_file (p : string) (w : world) : world :=
  {| DATABASE_PATH := DATABASE_PATH w;
     files := delete p (files w);
     sqlite_calls := sqlite_calls w |}.

(** The [except] clause: a caught exception removes the file and gives
    [None]. *)
Definition reject_upload (file_path : string) (e : exn) (w : world)
  : upload_outcome * world :=
  if is_upload_error e then (Rejected, remove_file file_path w)
  else (Escaped e, w).

(** [save_uploaded_file(uploaded_file)], for the name and the content of the
    upload.  Writing onto a directory raises [OSError], and so does the
    [unlink] of the handler.  The connection of the check is used as a context
    manager, which commits or rolls back and does not close.  The reset of the
    cached model in [st.session_state] is left out. *)
Definition save_uploaded_file (name : string) (content : database) (w : world)
  : upload_outcome * world :=
  let file_path := path_join UPLOADED_DB_DIR name in
  match files w !! file_path with
  | Some Directory => (UnlinkFailed, w)
  | _ =>
      let w1 := log_calls [CallConnect file_path; CallCursor; CallExecute "SELECT 1"]
                  (store_file file_path content w) in
      match db_execute (db_open content) "SELECT 1" with
      | (Ret _, c) =>
          match db_commit c with
          | (Ret _, _) =>
              (Accepted file_path,
               set_database_path (Some file_path) (log_calls [CallCommit] w1))
          | (Raise e, _) => reject_upload file_path e (log_calls [CallCommit] w1)
          end
      | (Raise e, _) => reject_upload file_path e (log_calls [CallRollback] w1)
      end
  end.

End Upload.

(** ** User accounts (auth.py, lines 121-246) *)

(** A row of the [users] table. *)
Record user_row : Type := {
  u_user_id : string;
  u_name : string;
  u_username : string;
  u_email : string;
  u_password : string;
}.

(** The users database: whether a connection can be made, and the rows. *)
Record users_db : Type := {
  users_reachable : bool;
  users : list user_row;
}.

(** The outcome of a function that lets [mysql.connector.Error] through. *)
Inductive db_result (A : Type) : Type :=
| DbOk (a : A)
| DbError.
Arguments DbOk {A} a.
Arguments DbError {A}.

(** [int(re.match(r"QM(\d+)", uid).group(1))] when the pattern matches at
    the start of [uid]: the longest run of decimal digits after [QM].  The
    digits are the ASCII digits; the decimal digits of other scripts, which
    [\d] and [int] also read, are outside the embedding. *)
Definition qm_number (uid : string) : option Z :=
  match strip_prefix "QM" uid with
  | Some rest =>
      match span_digits rest with
      | (EmptyString, _) => None
      | (ds, _) => digits_value 0 ds
      end
  | None => None
  end.

(** [[int(...) for uid in user_ids if re.match(...)]] *)
Definition qm_numbers (user_ids : list string) : list Z :=
  omap qm_number user_ids.

(** [i in numbers] *)
Definition in_numbers (i : Z) (numbers : list Z) : bool :=
  existsb (Z.eqb i) numbers.

(** [max(numbers)] of a list that is not empty. *)
Definition max_number (numbers : list Z) : Z :=
  match numbers with
  | [] => 0
  | n :: rest => fold_left Z.max rest n
  end.

(** The choice of [get_next_user_id] from the stored ids. *)
Definition next_user_id (user_ids : list string) : string :=
  match user_ids with
  | [] => "QM1"
  | _ =>
      match qm_numbers user_ids with
      | [] => "QM1"
      | numbers =>
          let max_num := max_number numbers in
          match find (fun i => negb (in_numbers i numbers))
                     (seqZ 1 (max_num + 1)) with
          | Some i => "QM" +:+ int_str i
          | None => "QM" +:+ int_str (max_num + 1)
          end
      end
  end.

(** [get_next_user_id()] *)
Definition get_next_user_id (db : users_db) : db_result string :=
  if users_reachable db then DbOk (next_user_id (map u_user_id (users db)))
  else DbError.

(** [len(s)] of a Python [str] held as UTF-8: the bytes that start a
    character. *)
Fixpoint py_len (s : string) : Z :=
  match s with
  | EmptyString => 0
  | String c s' =>
      let n := N_of_ascii c in
      (if ((128 <=? n) && (n <? 192))%N then 0 else 1) + py_len s'
  end.

Definition is_upper (c : ascii) : bool :=
  let n := N_of_ascii c in ((65 <=? n) && (n <=? 90))%N.

Definition is_lower (c : ascii) : bool :=
  let n := N_of_ascii c in ((97 <=? n) && (n <=? 122))%N.

(** A character of the class [[@#$%^&+=]]. *)
Definition is_special (c : ascii) : bool :=
  contains_char c "@#$%^&+=".

(** [re.search(class, s)] for a one-character class. *)
Fixpoint has_char (class : ascii -> bool) (s : string) : bool :=
  match s with
  | EmptyString => false
  | String c s' => class c || has_char class s'
  end.

Section Accounts.
(** [str.strip] and [str.lower], the salted hash of [bcrypt], which is
    taken to return for every password, and whether the server turns the new
    row down with a [mysql.connector.Error]: a conflict with the PRIMARY KEY
    and UNIQUE constraints of the table under the collation of the server,
    or a value that does not fit its column. *)
Context (py_strip py_lower : string -> string).
Context (hashpw : string -> string -> string).
Context (conflicts : user_row -> list user_row -> bool).

(** [register_user(name, username, email, password)], with the salt that
    [bcrypt.gensalt()] draws. *)
Definition register_user (name username email password salt : string) (db : users_db)
  : bool * users_db :=
  if negb (String.eqb (py_strip name) EmptyString) then
    if negb (String.eqb email EmptyString) && contains_char "@"%char email
       && contains_char "."%char email then
      if 8 <=? py_len password then
        if has_char is_upper password then
          if has_char is_lower password then
            if has_char is_digit password then
              if has_char is_special password then
                if users_reachable db then
                  let hashed_password := hashpw password salt in
                  match get_next_user_id db with
                  | DbOk new_id =>
                      let new_row := {| u_user_id := new_id;
                                        u_name := py_strip name;
                                        u_username := username;
                                        u_email := py_lower email;
                                        u_password := hashed_password |} in
                      if conflicts new_row (users db) then (false, db)
                      else (true, {| users_reachable := users_reachable db;
                                     users := users db ++ [new_row] |})
                  | DbError => (false, db)
                  end
                else (false, db)
              else (false, db)
            else (false, db)
          else (false, db)
        else (false, db)
      else (false, db)
    else (false, db)
  else (false, db).

End Accounts.

(** [delete_user(user_id)]: the user's row and then, in a second
    transaction on the other database, the user's sessions. *)
Definition delete_user {json_text : Type} (user : string) (udb : users_db)
    (cdb : conversations_db (json_text := json_text))
  : bool * users_db * conversations_db (json_text := json_text) :=
  if users_reachable udb then
    let udb' := {| users_reachable := users_reachable udb;
                   users := List.filter (fun u => negb (String.eqb (u_user_id u) user))
                              (users udb) |} in
    if reachable cdb then
      (true, udb',
       {| reachable := reachable cdb;
          sessions := List.filter (fun r => negb (String.eqb (row_user_id r) user))
                        (sessions cdb);
          auto_increment := auto_increment cdb |})
    else (false, udb', cdb)
  else (false, udb, cdb).

(** ** The command line (main.py, lines 21-62) *)

(** What the command line prints. *)
Inductive cli_output : Type :=
| PrintUsage
| PrintNotFound (path : string)
| PrintConnected (path : string)
| PrintGoodbye
| PrintProcessing
| PrintResponse (text : string)
| PrintError (text : string).

(** How the command line ends: [sys.exit(1)], the [break] of the loop, or
    the [EOFError] of [input()] when there is no line left. *)
Inductive cli_end : Type :=
| ExitFailure
| LoopLeft
| EndOfInput.

(** [query.lower() in ('exit', 'quit')]; a line that holds a character
    outside ASCII never lowers to one of the two words, so that lowering the
    ASCII letters decides the test. *)
Definition is_exit_word (query : string) : bool :=
  String.eqb (lower query) "exit" || String.eqb (lower query) "quit".

Section CommandLine.
Context {E : Engine} {C : Console} {U : Unicode} {V : Validation}.
Context {Model : Type} (llm_invoke : Model -> list message -> result response * Model).
Context (SYSTEM_PROMPT : string).

(** The [while True] loop over the lines that [input()] returns. *)
Fixpoint main_loop (inputs : list string) (history : loc) (m : machine)
  : cli_end * list cli_output * machine :=
  match inputs with
  | [] => (EndOfInput, [], m)
  | query :: inputs' =>
      if is_exit_word query then (LoopLeft, [PrintGoodbye], m)
      else
        let '(r, _, m1) := ask llm_invoke query history 10 m in
        let line := match r with
                    | Ret text => PrintResponse text
                    | Raise e => PrintError (exn_str e)
                    end in
        let '(e, printed, m2) := main_loop inputs' history m1 in
        (e, PrintProcessing :: line :: printed, m2)
  end.

(** [main()], for the argument vector and the lines of the terminal. *)
Definition main (argv inputs : list string) (m : machine)
  : cli_end * list cli_output * machine :=
  match argv with
  | _ :: path :: _ =>
      match files (env m) !! path with
      | None => (ExitFailure, [PrintNotFound path], m)
      | Some _ =>
          let history := fresh (dom (heap m)) in
          let m1 :=
            {| heap := <[history := create_history SYSTEM_PROMPT]> (heap m);
               env := set_database_path (Some path) (env m);
               llm := llm m;
               invocations := invocations m |} in
          let '(e, printed, m2) := main_loop inputs history m1 in
          (e, PrintConnected path :: printed, m2)
      end
  | _ => (ExitFailure, [PrintUsage], m)
  end.

End CommandLine.

(** ** Vocabulary for the statements about the tools and the loop *)

(** A message that the loop appends after the user message: an assistant
    message or a tool-result message. *)
Definition from_turn (msg : message) : Prop :=
  match msg with
  | AIMessage _ | ToolMessage _ _ => True
  | _ => False
  end.

(** A message that [load_session] builds: a user message, or an assistant
    message without tool-call requests. *)
Definition restored (msg : message) : Prop :=
  match msg with
  | HumanMessage _ => True
  | AIMessage r => tool_calls r = []
  | _ => False
  end.

(** There is no database to open: no path is configured, or no file is at
    the configured path; [shown] is the path as the message of the
    [FileNotFoundError] shows it. *)
Definition no_database {E : Engine} (w : world) (shown : string) : Prop :=
  (DATABASE_PATH w = None /\ shown = "None") \/
  (DATABASE_PATH w = Some shown /\ files w !! shown = None).

(** What a turn may do to the world: the configured path stays, and the
    engine calls that are added hold no commit and no rollback. *)
Definition world_frame {E : Engine} (w w' : world) : Prop :=
  DATABASE_PATH w' = DATABASE_PATH w /\
  exists cs, calls_added w w' cs /\
             Forall (fun call => call <> CallCommit /\ call <> CallRollback) cs.

(** The [sessions] table keeps its PRIMARY KEY: no two rows share an id, and
    every id lies below the next AUTO_INCREMENT value. *)
Definition sessions_table_ok {json_text : Type}
    (db : conversations_db (json_text := json_text)) : Prop :=
  NoDup (map row_session_id (sessions db)) /\
  Forall (fun r => row_session_id r < auto_increment db) (sessions db).

Definition join_with_slash (dir name : string) : string := dir +:+ "/" +:+ name.

(** A world with nothing uploaded yet and a directory for the uploads. *)
Definition upload_world : world (E := mini_sqlite) :=
  {| DATABASE_PATH := None;
     files := {[ "uploads" := Directory (E := mini_sqlite) ]};
     sqlite_calls := [] |}.

(** A request to sample the table whose name has a space. *)
Definition daily_sales_args : tool_args :=
  SampleTableArgs "look at the rows" "daily sales" 3.

(** A model stub that asks for [list_tables] while its counter is positive
    and then fails. *)
Definition stub_fails_later (s : nat) (messages : list message) : result response * nat :=
  match s with
  | O => (Raise (ModelError "rate limit exceeded"), O)
  | S s' =>
      (Ret {| content := EmptyString; tool_calls := [list_tables_call "call_1"] |}, s')
  end.

(** A second signed-in user, and a conversations database that holds one
    session of each of the two users. *)
Definition bob : session_state := {| is_guest := false; user_id := Some "QM2" |}.

Definition two_sessions : conversations_db (json_text := list serialized_message) :=
  {| reachable := true;
     sessions :=
       [ {| row_session_id := 1; row_user_id := "QM1"; row_title := "Users";
            row_created_at := "01-01-24 [10:00]";
            row_conversation_json := serialize short_conversation |};
         {| row_session_id := 2; row_user_id := "QM2"; row_title := "Sales";
            row_created_at := "01-01-24 [11:00]";
            row_conversation_json := serialize short_conversation |} ];
     auto_increment := 3 |}.

(** The same database while the server cannot be reached. *)
Definition two_sessions_down : conversations_db (json_text := list serialized_message) :=
  {| reachable := false;
     sessions := sessions two_sessions;
     auto_increment := auto_increment two_sessions |}.

(** The page of the first user, on her stored session. *)
Definition anns_page : chat_state :=
  {| account := ann;
     st_current_session_id := Some (Some 1);
     st_session_title := Some "Users";
     st_messages := Some short_conversation |}.

(** A users table in which the id [QM3] has been given up. *)
Definition registered_users : users_db :=
  {| users_reachable := true;
     users :=
       [ {| u_user_id := "QM1"; u_name := "Ann"; u_username := "ann";
            u_email := "ann@example.org"; u_password := "$2b$12$hash-of-ann" |};
         {| u_user_id := "QM2"; u_name := "Bob"; u_username := "bob";
            u_email := "bob@example.org"; u_password := "$2b$12$hash-of-bob" |};
         {| u_user_id := "QM4"; u_name := "Eve"; u_username := "eve";
            u_email := "eve@example.org"; u_password := "$2b$12$hash-of-eve" |} ] |}.

(** The argument vector and the terminal lines of a short session of the
    command line. *)
Definition cli_argv : list string := ["main.py"; "data/shop.db"].
Definition cli_lines : list string := ["which tables exist"; "Exit"; "never read"].

(** ** Properties of the scoped database session *)

Section SessionFacts.
Context {E : Engine}.

Lemma sqlite_calls_release p c w :
  sqlite_calls (release p c w) = sqlite_calls w ++ [CallCursorClose; CallConnectionClose].
Proof. reflexivity. Qed.

Lemma sqlite_calls_log cs w : sqlite_calls (log_calls cs w) = sqlite_calls w ++ cs.
Proof. reflexivity. Qed.

Lemma files_release p c w : files (release p c w) !! p = Some (DbFile (db_close c)).
Proof. apply lookup_insert_eq. Qed.

(** The block makes no other calls than [execute] and [fetchall]. *)
Lemma run_cursor_calls {A} (body : cursor_prog A) c pending r c' cs :
  run_cursor body c pending = (r, c', cs) ->
  Forall (fun call => (exists sql, call = CallExecute sql) \/ call = CallFetchall) cs.
Proof.
  revert c pending r c' cs.
  induction body as [a | e | sql k IH | k IH]; intros c pending r c' cs Hrun; simpl in Hrun.
  - inversion Hrun; subst. constructor.
  - inversion Hrun; subst. constructor.
  - destruct (db_execute c sql) as [[fetched | e] c1].
    + destruct (run_cursor k c1 fetched) as [[r1 c2] cs1] eqn:Hk.
      inversion Hrun; subst. constructor; [left; eauto | eapply IH; eauto].
    + inversion Hrun; subst. constructor; [left; eauto | constructor].
  - destruct pending as [rows | e].
    + destruct (run_cursor (k rows) c (Ret [])) as [[r1 c1] cs1] eqn:Hk.
      inversion Hrun; subst. constructor; [now right | eapply IH; eauto].
    + inversion Hrun; subst. constructor; [now right | constructor].
Qed.

(** C6.  Once the database path is set and its target exists, the session
    either fails to connect, and then holds no connection and no cursor, or
    it logs connect, cursor, the calls of the block, the transaction calls
    and, last on every exit path, the two closes, and the file is left with
    what the engine gives on closing the connection it ends with.  With
    [readonly = False] the transaction calls are a commit when the block
    ends normally (followed by a rollback if the commit itself raises) and a
    rollback, before the exception propagates, when the block raises, and
    the connection that is closed is the one the engine returns from that
    commit or rollback; with [readonly = True] there are none, and the
    connection is closed as the block left it. *)
Theorem with_sql_cursor_contract {A} (readonly : bool) (body : cursor_prog A)
    (w : world) (p : string) (entry : fs_entry) :
  DATABASE_PATH w = Some p ->
  files w !! p = Some entry ->
  match entry with
  | Directory =>
      exists e, with_sql_cursor readonly body w = (Raise e, log_calls [CallConnect p] w)
  | DbFile d =>
      exists r w' r_body c cs tx c_end,
        with_sql_cursor readonly body w = (r, w') /\
        run_cursor body (db_open d) (Ret []) = (r_body, c, cs) /\
        sqlite_calls w' =
          sqlite_calls w ++ [CallConnect p; CallCursor] ++ cs ++ tx
                         ++ [CallCursorClose; CallConnectionClose] /\
        files w' !! p = Some (DbFile (db_close c_end)) /\
        DATABASE_PATH w' = Some p /\
        (readonly = true -> tx = [] /\ r = r_body /\ c_end = c) /\
        (readonly = false -> forall a, r_body = Ret a ->
           (exists u, db_commit c = (Ret u, c_end) /\ tx = [CallCommit] /\ r = Ret a) \/
           (exists e c', db_commit c = (Raise e, c') /\ c_end = db_rollback c' /\
                         tx = [CallCommit; CallRollback] /\ r = Raise e)) /\
        (readonly = false -> forall e, r_body = Raise e ->
           tx = [CallRollback] /\ r = Raise e /\ c_end = db_rollback c)
  end.
Proof.
  intros Hpath Hfile. unfold with_sql_cursor. rewrite Hpath, Hfile.
  destruct entry as [ | d]; [eauto | ].
  destruct (run_cursor body (db_open d) (Ret [])) as [[r_body c] cs] eqn:Hrun.
  destruct r_body as [a | e], readonly.
  - eexists _, _, _, _, _, [], c. repeat split; try discriminate.
    + rewrite sqlite_calls_release, !sqlite_calls_log, <- !app_assoc. reflexivity.
    + apply files_release.
    + assumption.
  - destruct (db_commit c) as [[u | e] c'] eqn:Hcommit.
    + eexists _, _, _, _, _, [CallCommit], c'. repeat split; try discriminate.
      * rewrite sqlite_calls_release, !sqlite_calls_log, <- !app_assoc. reflexivity.
      * apply files_release.
      * assumption.
      * intros _ a' Ha. inversion Ha; subst. left. exists u. repeat split. assumption.
    + eexists _, _, _, _, _, [CallCommit; CallRollback], (db_rollback c').
      repeat split; try discriminate.
      * rewrite sqlite_calls_release, !sqlite_calls_log, <- !app_assoc. reflexivity.
      * apply files_release.
      * assumption.
      * intros _ a' Ha. right. exists e, c'. repeat split. assumption.
  - eexists _, _, _, _, _, [], c. repeat split; try discriminate.
    + rewrite sqlite_calls_release, !sqlite_calls_log, <- !app_assoc. reflexivity.
    + apply files_release.
    + assumption.
  - eexists _, _, _, _, _, [CallRollback], (db_rollback c). repeat split; try discriminate.
    + rewrite sqlite_calls_release, !sqlite_calls_log, <- !app_assoc. reflexivity.
    + apply files_release.
    + assumption.
    + congruence.
Qed.

End SessionFacts.

(** ** Properties of the four tools *)

Section ToolFacts.
Context {E : Engine} {C : Console} {U : Unicode}.

(** The precondition of the session: with no path configured, or no file at
    the path, it raises [FileNotFoundError] before any engine call. *)
Lemma with_sql_cursor_no_database {A} readonly (body : cursor_prog A) w shown :
  no_database w shown ->
  with_sql_cursor readonly body w
  = (Raise (FileNotFoundError ("Database file not found: " +:+ shown)), w).
Proof.
  intros [[Hnone ->] | [Hpath Hfile]]; unfold with_sql_cursor.
  - rewrite Hnone. reflexivity.
  - rewrite Hpath, Hfile. reflexivity.
Qed.

Lemma world_frame_refl (w : world) : world_frame w w.
Proof.
  split; [reflexivity | ]. exists []. split; [ | constructor].
  unfold calls_added. rewrite app_nil_r. reflexivity.
Qed.

Lemma world_frame_trans (w1 w2 w3 : world) :
  world_frame w1 w2 -> world_frame w2 w3 -> world_frame w1 w3.
Proof.
  intros (Hp1 & cs1 & Hc1 & Hn1) (Hp2 & cs2 & Hc2 & Hn2). split; [congruence | ].
  exists (cs1 ++ cs2). split; [ | apply Forall_app; auto].
  unfold calls_added in *. rewrite Hc2, Hc1, app_assoc. reflexivity.
Qed.

(** A session with [readonly = True] never sets the configured path, and
    its calls hold no commit and no rollback, whatever its block. *)
Lemma with_sql_cursor_readonly_frame {A} (body : cursor_prog A) (w : world) :
  world_frame w (with_sql_cursor true body w).2.
Proof.
  unfold with_sql_cursor.
  destruct (DATABASE_PATH w) as [p | ] eqn:Hpath; [ | apply world_frame_refl].
  destruct (files w !! p) as [[ | d] | ]; [ | | apply world_frame_refl].
  - split; [reflexivity | ]. exists [CallConnect p].
    split; [reflexivity | repeat constructor; discriminate].
  - destruct (run_cursor body (db_open d) (Ret [])) as [[r c] cs] eqn:Hrun.
    apply run_cursor_calls in Hrun.
    assert (Hframe : world_frame w
              (release p c (log_calls cs (log_calls [CallConnect p; CallCursor] w)))).
    { split; [reflexivity | ].
      exists ([CallConnect p; CallCursor] ++ cs ++ [CallCursorClose; CallConnectionClose]).
      split.
      - unfold calls_added.
        rewrite sqlite_calls_release, !sqlite_calls_log, <- !app_assoc. reflexivity.
      - apply Forall_app. split; [repeat constructor; discriminate | ].
        apply Forall_app. split; [ | repeat constructor; discriminate].
        eapply Forall_impl; [exact Hrun | ].
        intros call [[sql ->] | ->]; split; discriminate. }
    destruct r; exact Hframe.
Qed.

Lemma log_accepted text : markup_error text = None -> log text = Ret tt.
Proof. unfold log. intros ->. reflexivity. Qed.

Lemma log_rejected text msg :
  markup_error text = Some msg -> log text = Raise (MarkupError msg).
Proof. unfold log. intros ->. reflexivity. Qed.

Ltac unfold_tools :=
  unfold list_tables, sample_table, describe_table, execute_sql, log_panel.

(** A panel that rich cannot render ends the tool before the session. *)
Lemma run_tool_panel_rejected (a : tool_args) (w : world) msg :
  markup_error (tool_panel a) = Some msg ->
  run_tool a w = (Raise (MarkupError msg), w).
Proof.
  intros Hpanel. apply log_rejected in Hpanel.
  destruct a; simpl in *; unfold_tools; rewrite Hpanel; reflexivity.
Qed.

(** The two [except] clauses: the text, or the exception of [log]. *)
Lemma tool_failure_outcome (a : tool_args) (e : exn) (w : world) :
  tool_failure (tool_error_prefix a) e w
  = match markup_error (failure_log a e) with
    | None =>
        (Ret (if is_FileNotFoundError e then NO_DATABASE
              else tool_error_prefix a +:+ exn_str e), w)
    | Some msg => (Raise (MarkupError msg), w)
    end.
Proof.
  unfold tool_failure, failure_log, log, no_database_log, tool_error_log.
  destruct (is_FileNotFoundError e);
    match goal with |- context [markup_error ?t] => destruct (markup_error t) end;
    reflexivity.
Qed.

(** A tool whose panel is rendered is its session on some block, with the
    result rendered and an exception handed to the [except] clauses. *)
Lemma run_tool_session (a : tool_args) (w : world) :
  markup_error (tool_panel a) = None ->
  exists (A : Type) (body : cursor_prog A) (render : A -> string),
    run_tool a w
    = match with_sql_cursor true body w with
      | (Ret x, w') => (Ret (render x), w')
      | (Raise e, w') => tool_failure (tool_error_prefix a) e w'
      end.
Proof.
  intros Hpanel. apply log_accepted in Hpanel.
  destruct a; simpl in *; unfold_tools; rewrite Hpanel; eexists _, _, _; reflexivity.
Qed.

(** What a tool can change in the world. *)
Lemma run_tool_frame (a : tool_args) (w : world) :
  world_frame w (run_tool a w).2.
Proof.
  destruct (markup_error (tool_panel a)) as [msg | ] eqn:Hpanel.
  - rewrite (run_tool_panel_rejected a w msg Hpanel). apply world_frame_refl.
  - destruct (run_tool_session a w Hpanel) as (A & body & render & ->).
    pose proof (with_sql_cursor_readonly_frame body w) as Hframe.
    destruct (with_sql_cursor true body w) as [[x | e] w']; [exact Hframe | ].
    rewrite tool_failure_outcome.
    destruct (markup_error (failure_log a e)); exact Hframe.
Qed.

(** The only exception that leaves a tool is the [MarkupError] of rich, on
    the panel or on the line the tool logs for the exception of its
    session. *)
Lemma run_tool_raises (a : tool_args) (w w' : world) (e : exn) :
  run_tool a w = (Raise e, w') ->
  exists msg,
    e = MarkupError msg /\
    ((markup_error (tool_panel a) = Some msg /\ w' = w) \/
     (markup_error (tool_panel a) = None /\
      exists err, markup_error (failure_log a err) = Some msg)).
Proof.
  destruct (markup_error (tool_panel a)) as [msg | ] eqn:Hpanel.
  - rewrite (run_tool_panel_rejected a w msg Hpanel).
    intros Hrun; inversion Hrun; subst. exists msg. auto.
  - destruct (run_tool_session a w Hpanel) as (A & body & render & ->).
    destruct (with_sql_cursor true body w) as [[x | err] w1]; [discriminate | ].
    rewrite tool_failure_outcome.
    destruct (markup_error (failure_log a err)) as [msg | ] eqn:Hlog; [ | discriminate].
    intros Hrun; inversion Hrun; subst. exists msg. split; [reflexivity | ].
    right. split; [reflexivity | ]. exists err. assumption.
Qed.

(** With no database to open, a tool whose panel is rendered logs the
    missing file and answers with the no-database text. *)
Lemma run_tool_no_database (a : tool_args) (w : world) (shown : string) :
  no_database w shown ->
  markup_error (tool_panel a) = None ->
  run_tool a w
  = match markup_error (no_database_log ("Database file not found: " +:+ shown)) with
    | None => (Ret NO_DATABASE, w)
    | Some msg => (Raise (MarkupError msg), w)
    end.
Proof.
  intros Hno Hpanel. apply log_accepted in Hpanel.
  destruct a; simpl in *; unfold_tools; rewrite Hpanel;
    rewrite (with_sql_cursor_no_database _ _ _ _ Hno);
    unfold tool_failure, log, no_database_log; cbn [is_FileNotFoundError exn_str];
    match goal with |- context [markup_error ?t] => destruct (markup_error t) end;
    reflexivity.
Qed.

(** C5, as the code has it.  With no database path configured, or no file
    at the configured path, each of the four tools logs its panel and the
    line for the missing file, and when rich renders both it returns the same
    no-database text and leaves the world as it is; when rich cannot render
    the panel, or the line, the tool raises the [MarkupError] of rich instead,
    the world again as it is.  The no-database text is none of the texts a
    tool builds from an exception of the engine. *)
Theorem no_database_result (a : tool_args) (w : world) (shown : string) :
  no_database w shown ->
  (markup_error (tool_panel a) = None ->
   markup_error (no_database_log ("Database file not found: " +:+ shown)) = None ->
   run_tool a w = (Ret NO_DATABASE, w)) /\
  (forall msg,
     markup_error (tool_panel a) = Some msg \/
     (markup_error (tool_panel a) = None /\
      markup_error (no_database_log ("Database file not found: " +:+ shown)) = Some msg) ->
     run_tool a w = (Raise (MarkupError msg), w)) /\
  (forall e : exn, NO_DATABASE <> tool_error_prefix a +:+ exn_str e).
Proof.
  intros Hno. split; [ | split].
  - intros Hpanel Hline. rewrite (run_tool_no_database a w shown Hno Hpanel), Hline.
    reflexivity.
  - intros msg [Hpanel | [Hpanel Hline]].
    + apply run_tool_panel_rejected. assumption.
    + rewrite (run_tool_no_database a w shown Hno Hpanel), Hline. reflexivity.
  - intros e. destruct a; unfold NO_DATABASE; simpl; discriminate.
Qed.

(** What a tool does when the engine runs its statement and hands out the
    rows: for the three tools that render rows. *)
Lemma run_tool_rows (a : tool_args) (w : world) p d rows c :
  (forall reasoning, a <> ListTablesArgs reasoning) ->
  markup_error (tool_panel a) = None ->
  DATABASE_PATH w = Some p ->
  files w !! p = Some (DbFile d) ->
  db_execute (db_open d) (tool_statement a) = (Ret (Ret rows), c) ->
  (run_tool a w).1 = Ret (rows_str rows) /\
  calls_added w (run_tool a w).2
    [CallConnect p; CallCursor; CallExecute (tool_statement a); CallFetchall;
     CallCursorClose; CallConnectionClose] /\
  files (run_tool a w).2 !! p = Some (DbFile (db_close c)).
Proof.
  intros Hrows Hpanel Hpath Hfile Hexec. apply log_accepted in Hpanel.
  unfold calls_added.
  destruct a as [reasoning | | | ]; [destruct (Hrows reasoning eq_refl) | | | ];
    simpl in *; unfold_tools; rewrite Hpanel; unfold with_sql_cursor;
    rewrite Hpath, Hfile; simpl; rewrite Hexec; simpl;
    (split; [reflexivity | split; [rewrite <- !app_assoc; reflexivity | ]]);
    apply lookup_insert_eq.
Qed.

(** C1, as the code has it.  None of the four tools commits, [execute_sql]
    included: every tool opens the session with the default
    [readonly = True], so whatever the arguments and the state of the
    database, the calls a tool adds hold neither a commit nor a rollback.
    When rich renders the panel of [execute_sql] and the engine runs the
    statement and hands out its rows, the tool returns the rendered rows, the
    session goes from [fetchall] straight to the two closes, and the file is
    left with what the engine gives on closing the connection without a
    commit. *)
Theorem tools_never_commit (a : tool_args) (w : world) :
  (exists cs, calls_added w (run_tool a w).2 cs /\
              Forall (fun call => call <> CallCommit /\ call <> CallRollback) cs) /\
  (forall reasoning sql_query p d rows c,
     a = ExecuteSqlArgs reasoning sql_query ->
     markup_error (tool_panel a) = None ->
     DATABASE_PATH w = Some p ->
     files w !! p = Some (DbFile d) ->
     db_execute (db_open d) sql_query = (Ret (Ret rows), c) ->
     (run_tool a w).1 = Ret (rows_str rows) /\
     calls_added w (run_tool a w).2
       [CallConnect p; CallCursor; CallExecute sql_query; CallFetchall;
        CallCursorClose; CallConnectionClose] /\
     files (run_tool a w).2 !! p = Some (DbFile (db_close c))).
Proof.
  split.
  - apply run_tool_frame.
  - intros reasoning sql_query p d rows c -> Hpanel Hpath Hfile Hexec.
    apply (run_tool_rows (ExecuteSqlArgs reasoning sql_query) w p d rows c);
      try assumption.
    discriminate.
Qed.

(** X1.  When the engine raises on the statement of a tool, or while the
    rows are fetched, and rich renders the panel and the red line of the
    error, the tool returns its error prefix followed by the engine's
    message, and the session has closed the cursor and the connection: after
    the [execute] when this one raised, after the [fetchall] when that one
    raised. *)
Theorem tool_reports_engine_error (a : tool_args) (w : world) p d msg c :
  markup_error (tool_panel a) = None ->
  markup_error (tool_error_log a msg) = None ->
  DATABASE_PATH w = Some p ->
  files w !! p = Some (DbFile d) ->
  (db_execute (db_open d) (tool_statement a) = (Raise (SqliteError msg), c) ->
   (run_tool a w).1 = Ret (tool_error_prefix a +:+ msg) /\
   calls_added w (run_tool a w).2
     [CallConnect p; CallCursor; CallExecute (tool_statement a);
      CallCursorClose; CallConnectionClose] /\
   files (run_tool a w).2 !! p = Some (DbFile (db_close c))) /\
  (db_execute (db_open d) (tool_statement a) = (Ret (Raise (SqliteError msg)), c) ->
   (run_tool a w).1 = Ret (tool_error_prefix a +:+ msg) /\
   calls_added w (run_tool a w).2
     [CallConnect p; CallCursor; CallExecute (tool_statement a); CallFetchall;
      CallCursorClose; CallConnectionClose] /\
   files (run_tool a w).2 !! p = Some (DbFile (db_close c))).
Proof.
  intros Hpanel Hline Hpath Hfile. apply log_accepted in Hpanel, Hline.
  unfold calls_added, tool_error_log in *.
  split; intros Hexec;
    destruct a; simpl in *; unfold_tools; rewrite Hpanel; unfold with_sql_cursor;
    rewrite Hpath, Hfile; simpl; rewrite Hexec; simpl;
    unfold tool_failure; simpl; rewrite Hline; simpl;
    (split; [reflexivity | split; [rewrite <- !app_assoc; reflexivity | ]]);
    apply lookup_insert_eq.
Qed.

End ToolFacts.

(** ** Properties of the dispatcher *)

Section DispatcherFacts.
Context {E : Engine} {C : Console} {U : Unicode} {V : Validation}.

(** The registry holds the four tools under their names. *)
Lemma tools_by_name_lookup name t :
  tools_by_name !! name = Some t <-> name = tool_name t.
Proof.
  split.
  - unfold tools_by_name, get_available_tools. simpl.
    rewrite !lookup_insert, lookup_empty.
    repeat case_decide; intros Heq; inversion Heq; subst; simpl; congruence.
  - intros ->. destruct t; vm_compute; reflexivity.
Qed.

(** C2, as the code has it.  A request whose name is not in the registry
    makes [call_tool] raise [KeyError], and arguments that the validation
    turns down make it raise the validation error; nothing is changed.  For a
    request that names a registered tool with arguments that pass the
    validation, [call_tool] returns the text of the tool body as a
    tool-result message tagged with the identifier of the request, unless the
    tool raises, and the one exception that leaves the tool is the
    [MarkupError] of rich: on the panel built from the arguments, before
    anything else is done, or on the line the tool logs for the exception of
    its database session. *)
Theorem call_tool_result (tool_call : ToolCall) (w : world) :
  (tools_by_name !! tc_name tool_call = None ->
   call_tool tool_call w = (Raise (KeyError (tc_name tool_call)), w)) /\
  (forall t e,
     tools_by_name !! tc_name tool_call = Some t ->
     validate_args t (tc_args tool_call) = Raise e ->
     call_tool tool_call w = (Raise e, w)) /\
  (forall t a,
     tools_by_name !! tc_name tool_call = Some t ->
     validate_args t (tc_args tool_call) = Ret a ->
     (exists text w',
        run_tool a w = (Ret text, w') /\
        call_tool tool_call w = (Ret (ToolMessage text (tc_id tool_call)), w')) \/
     (exists msg w',
        call_tool tool_call w = (Raise (MarkupError msg), w') /\
        ((markup_error (tool_panel a) = Some msg /\ w' = w) \/
         (markup_error (tool_panel a) = None /\
          exists err, markup_error (failure_log a err) = Some msg)))).
Proof.
  unfold call_tool, tool_invoke. split; [ | split].
  - intros ->. reflexivity.
  - intros t e -> ->. reflexivity.
  - intros t a -> ->. destruct (run_tool a w) as [[text | e] w'] eqn:Hrun.
    + left. eauto.
    + right. apply run_tool_raises in Hrun as (msg & -> & Hcause). eauto.
Qed.

Lemma call_tool_answers tool_call w reply w' :
  call_tool tool_call w = (Ret reply, w') -> answers tool_call reply.
Proof.
  unfold call_tool, tool_invoke.
  destruct (tools_by_name !! tc_name tool_call) as [t | ]; [ | discriminate].
  destruct (validate_args t (tc_args tool_call)) as [a | e]; [ | discriminate].
  destruct (run_tool a w) as [[text | e] w1]; [ | discriminate].
  intros H; inversion H; subst. exists text; reflexivity.
Qed.

(** What a call of the dispatcher can change in the world. *)
Lemma call_tool_world_frame (tool_call : ToolCall) (w : world) :
  world_frame w (call_tool tool_call w).2.
Proof.
  unfold call_tool, tool_invoke.
  destruct (tools_by_name !! tc_name tool_call) as [t | ]; [ | apply world_frame_refl].
  destruct (validate_args t (tc_args tool_call)) as [a | e]; [ | apply world_frame_refl].
  pose proof (run_tool_frame a w) as Hframe.
  destruct (run_tool a w) as [[text | e] w']; exact Hframe.
Qed.

(** X2.  With no database configured, or no file at the configured path, a
    request for a registered tool with valid arguments, whose panel and
    missing-file line rich renders, is answered by the dispatcher with the
    no-database text as a tool-result message tagged with the identifier of
    the request: the failure does not reach the loop. *)
Theorem call_tool_without_database (tool_call : ToolCall) (w : world) t a shown :
  tools_by_name !! tc_name tool_call = Some t ->
  validate_args t (tc_args tool_call) = Ret a ->
  no_database w shown ->
  markup_error (tool_panel a) = None ->
  markup_error (no_database_log ("Database file not found: " +:+ shown)) = None ->
  call_tool tool_call w = (Ret (ToolMessage NO_DATABASE (tc_id tool_call)), w).
Proof.
  intros Hname Hargs Hno Hpanel Hline. unfold call_tool, tool_invoke.
  rewrite Hname, Hargs, (run_tool_no_database a w shown Hno Hpanel), Hline. reflexivity.
Qed.

End DispatcherFacts.

(** ** Properties of the conversation loop *)

Section AgentFacts.
Context {E : Engine} {C : Console} {U : Unicode} {V : Validation}.
Context {Model : Type} (llm_invoke : Model -> list message -> result response * Model).

Local Abbreviation machine := (machine (E := E) (Model := Model)).

Lemma lookup_list_append_ne (l l' : loc) x (h : gmap loc (list message)) :
  l' <> l -> list_append l x h !! l' = h !! l'.
Proof. intros Hne. unfold list_append. apply lookup_insert_ne. congruence. Qed.

Lemma lookup_total_list_append (l : loc) x (h : gmap loc (list message)) :
  list_append l x h !!! l = h !!! l ++ [x].
Proof. unfold list_append. apply lookup_total_insert_eq. Qed.

(** The [for] loop touches only the private list and the database world: it
    appends to [messages] one reply per request it got through, in order. *)
Lemma dispatch_calls_spec calls messages (m : machine) r m' :
  dispatch_calls calls messages m = (r, m') ->
  invocations m' = invocations m /\
  llm m' = llm m /\
  (forall l, l <> messages -> heap m' !! l = heap m !! l) /\
  exists replies,
    heap m' !!! messages = heap m !!! messages ++ replies /\
    (forall u, r = Ret u -> Forall2 answers calls replies).
Proof.
  revert m. induction calls as [ | tool_call calls IH]; intros m Hrun; simpl in Hrun.
  - inversion Hrun; subst. repeat split; try reflexivity.
    exists []. rewrite app_nil_r. split; [reflexivity | constructor].
  - destruct (call_tool tool_call (env m)) as [[reply | e] w] eqn:Hcall.
    + apply IH in Hrun as (Hinv & Hllm & Hframe & replies & Hheap & Hans). simpl in *.
      repeat split; try assumption.
      * intros l Hl. rewrite Hframe by assumption. apply lookup_list_append_ne; assumption.
      * exists (reply :: replies). split.
        -- rewrite Hheap, lookup_total_list_append, <- app_assoc. reflexivity.
        -- intros u Hu. constructor; [eapply call_tool_answers; eauto | eauto].
    + inversion Hrun; subst. simpl. repeat split; try reflexivity.
      exists []. rewrite app_nil_r. split; [reflexivity | discriminate].
Qed.

(** A pass that goes on to the next iteration: the model was invoked once on
    the list as it stood and returned requests, and the list grew by the
    assistant message and one reply per request. *)
Lemma loop_body_continue messages (m m' : machine) :
  loop_body llm_invoke messages m = Continue m' ->
  exists r replies,
    invocations m' = invocations m ++ [(heap m !!! messages, Ret r)] /\
    heap m' !!! messages = heap m !!! messages ++ AIMessage r :: replies /\
    Forall2 answers (tool_calls r) replies /\
    (forall l, l <> messages -> heap m' !! l = heap m !! l).
Proof.
  unfold loop_body, invoke_model.
  destruct (llm_invoke (llm m) (heap m !!! messages)) as [[r | e] s]; [ | discriminate].
  destruct (tool_calls r) as [ | tool_call calls] eqn:Hcalls; [discriminate | ].
  match goal with
  | |- context [dispatch_calls ?cs ?l ?m0] =>
      destruct (dispatch_calls cs l m0) as [[u | e] m3] eqn:Hdispatch
  end; [ | discriminate].
  intros Hpass; inversion Hpass; subst m3.
  apply dispatch_calls_spec in Hdispatch as (Hinv & _ & Hframe & replies & Hheap & Hans).
  simpl in *. exists r, replies. repeat split.
  - assumption.
  - rewrite Hheap, lookup_total_list_append, <- app_assoc. reflexivity.
  - rewrite Hcalls. eauto.
  - intros l Hl. rewrite Hframe by assumption. apply lookup_list_append_ne; assumption.
Qed.

(** A pass that ends the turn: the model was invoked once. *)
Lemma loop_body_finished messages (m m' : machine) res :
  loop_body llm_invoke messages m = Finished res m' ->
  (exists x, invocations m' = invocations m ++ [(heap m !!! messages, x)]) /\
  (forall l, l <> messages -> heap m' !! l = heap m !! l).
Proof.
  unfold loop_body, invoke_model.
  destruct (llm_invoke (llm m) (heap m !!! messages)) as [[r | e] s].
  - destruct (tool_calls r) as [ | tool_call calls] eqn:Hcalls.
    + intros Hpass; inversion Hpass; subst; simpl. split; [eauto | ].
      intros l Hl. apply lookup_list_append_ne; assumption.
    + match goal with
      | |- context [dispatch_calls ?cs ?l ?m0] =>
          destruct (dispatch_calls cs l m0) as [[u | e] m3] eqn:Hdispatch
      end; [discriminate | ].
      intros Hpass; inversion Hpass; subst.
      apply dispatch_calls_spec in Hdispatch as (Hinv & _ & Hframe & _).
      simpl in *. split; [eauto | ].
      intros l Hl. rewrite Hframe by assumption. apply lookup_list_append_ne; assumption.
  - intros Hpass; inversion Hpass; subst; simpl. split; [eauto | reflexivity].
Qed.

(** The loop changes no list object but [messages], and its invocations are
    paired. *)
Lemma ask_loop_spec remaining messages (m : machine) r m' :
  ask_loop llm_invoke remaining messages m = (r, m') ->
  (forall l, l <> messages -> heap m' !! l = heap m !! l) /\
  exists added,
    invocations m' = invocations m ++ added /\
    paired (heap m !!! messages) added /\
    (length added <= remaining)%nat.
Proof.
  revert m. induction remaining as [ | remaining IH]; intros m Hrun; simpl in Hrun.
  - inversion Hrun; subst. split; [reflexivity | ].
    exists []. rewrite app_nil_r. repeat split; [constructor | simpl; lia].
  - destruct (loop_body llm_invoke messages m) as [res m1 | m1] eqn:Hpass.
    + inversion Hrun; subst.
      apply loop_body_finished in Hpass as [[x Hinv] Hframe].
      split; [assumption | ].
      exists [(heap m !!! messages, x)]. repeat split; [assumption | constructor | simpl; lia].
    + apply loop_body_continue in Hpass as (r1 & replies & Hinv & Hheap & Hans & Hframe).
      apply IH in Hrun as (Hframe' & added & Hinv' & Hpaired & Hlen).
      split.
      * intros l Hl. rewrite Hframe', Hframe by assumption. reflexivity.
      * exists ((heap m !!! messages, Ret r1) :: added). repeat split.
        -- rewrite Hinv', Hinv, <- app_assoc. reflexivity.
        -- econstructor; [eassumption | ]. rewrite <- Hheap. assumption.
        -- simpl; lia.
Qed.

(** Reading two neighbours off a paired record. *)
Lemma paired_neighbours current added i input1 r1 input2 x :
  paired current added ->
  added !! i = Some (input1, Ret r1) ->
  added !! S i = Some (input2, x) ->
  exists replies,
    input2 = input1 ++ AIMessage r1 :: replies /\
    Forall2 answers (tool_calls r1) replies.
Proof.
  intros Hpaired. revert i. induction Hpaired as [current | current y | current r replies rest Hans Hrest IH];
    intros i H1 H2.
  - discriminate.
  - destruct i; discriminate.
  - destruct i as [ | i]; simpl in *.
    + inversion H1; subst. inversion Hrest; subst; simpl in H2; try discriminate;
        inversion H2; subst; eauto.
    + eapply IH; eauto.
Qed.

Lemma ask_start_spec query history (m : machine) messages m0 :
  ask_start query history m = (messages, m0) ->
  heap m !! messages = None /\
  heap m0 !!! messages = heap m !!! history ++ [HumanMessage query] /\
  invocations m0 = invocations m /\
  (forall l, l <> messages -> heap m0 !! l = heap m !! l).
Proof.
  unfold ask_start, list_copy. intros Hstart; inversion Hstart; subst; clear Hstart.
  set (messages := fresh (dom (heap m))).
  assert (Hfresh : heap m !! messages = None)
    by (apply not_elem_of_dom, is_fresh).
  simpl. repeat split.
  - assumption.
  - rewrite lookup_total_list_append, lookup_total_insert_eq. reflexivity.
  - intros l Hl. rewrite lookup_list_append_ne by assumption.
    apply lookup_insert_ne. congruence.
Qed.

(** The two ways [ask] starts: the panel of the request is not rendered and
    nothing is done, or it is and the loop runs on a private list. *)
Lemma ask_cases query history max_iterations (m : machine) :
  (exists msg,
     markup_error ("Query: " +:+ query) = Some msg /\
     ask llm_invoke query history max_iterations m = (Raise (MarkupError msg), None, m)) \/
  (markup_error ("Query: " +:+ query) = None /\
   exists messages m0 r m',
     ask_start query history m = (messages, m0) /\
     ask_loop llm_invoke (Z.to_nat max_iterations) messages m0 = (r, m') /\
     ask llm_invoke query history max_iterations m = (r, Some messages, m')).
Proof.
  unfold ask, log_panel, log.
  destruct (markup_error ("Query: " +:+ query)) as [msg | ]; [left; eauto | right].
  split; [reflexivity | ].
  destruct (ask_start query history m) as [messages m0] eqn:Hstart.
  destruct (ask_loop llm_invoke (Z.to_nat max_iterations) messages m0) as [r m'] eqn:Hloop.
  exists messages, m0, r, m'. repeat split; assumption.
Qed.

(** C4.  In the record of the model invocations of one call of [ask], the
    messages passed to an invocation are exactly the messages passed to the
    invocation before it, followed by its assistant message and by one
    tool-result message per tool-call request of that assistant message, each
    tagged with the identifier of its request, in the order of the requests,
    and nothing else; the first invocation reads the history followed by the
    user message. *)
Theorem ask_pairs_requests_and_results query history max_iterations (m : machine)
    outcome messages m' :
  ask llm_invoke query history max_iterations m = (outcome, messages, m') ->
  exists added,
    invocations m' = invocations m ++ added /\
    (forall input x, added !! 0%nat = Some (input, x) ->
       input = heap m !!! history ++ [HumanMessage query]) /\
    (forall i input1 r1 input2 x,
       added !! i = Some (input1, Ret r1) ->
       added !! S i = Some (input2, x) ->
       exists replies,
         input2 = input1 ++ AIMessage r1 :: replies /\
         Forall2 answers (tool_calls r1) replies).
Proof.
  destruct (ask_cases query history max_iterations m)
    as [(msg & _ & ->) | (_ & messages0 & m0 & r & m1 & Hstart & Hloop & ->)];
    intros Hask; inversion Hask; subst; clear Hask.
  - exists []. rewrite app_nil_r. repeat split; intros; discriminate.
  - apply ask_start_spec in Hstart as (_ & Hheap & Hinv & _).
    apply ask_loop_spec in Hloop as (_ & added & Hinv' & Hpaired & _).
    exists added. repeat split.
    + rewrite Hinv', Hinv. reflexivity.
    + intros input x Hfirst. rewrite <- Hheap.
      inversion Hpaired; subst; simpl in Hfirst; inversion Hfirst; reflexivity.
    + intros i input1 r1 input2 x. eapply paired_neighbours; eassumption.
Qed.

(** C10.  [ask] works on a copy: the private list, when the call gets as
    far as making it, is a new list object, and every list object that
    existed when [ask] was called, the caller's history among them, holds the
    same messages when [ask] returns or raises; a call that makes no private
    list changes nothing at all. *)
Theorem ask_keeps_history query history max_iterations (m : machine)
    outcome messages m' :
  is_Some (heap m !! history) ->
  ask llm_invoke query history max_iterations m = (outcome, messages, m') ->
  (forall l, messages = Some l -> heap m !! l = None) /\
  (messages = None -> m' = m) /\
  heap m' !! history = heap m !! history /\
  (forall l, is_Some (heap m !! l) -> heap m' !! l = heap m !! l).
Proof.
  intros Hhistory.
  destruct (ask_cases query history max_iterations m)
    as [(msg & _ & ->) | (_ & messages0 & m0 & r & m1 & Hstart & Hloop & ->)];
    intros Hask; inversion Hask; subst; clear Hask.
  - repeat split; auto. discriminate.
  - apply ask_start_spec in Hstart as (Hfresh & _ & _ & Hframe).
    apply ask_loop_spec in Hloop as (Hframe' & _).
    assert (Hold : forall l, is_Some (heap m !! l) -> heap m' !! l = heap m !! l).
    { intros l [old Hl].
      assert (l <> messages0) by congruence.
      rewrite Hframe', Hframe by assumption. reflexivity. }
    repeat split; auto; [ | discriminate].
    intros l Hl; inversion Hl; subst; assumption.
Qed.

Lemma after_passes_spec k n messages (m mk : machine) :
  after_passes llm_invoke k messages m = Some mk ->
  length (invocations mk) = (length (invocations m) + k)%nat /\
  ask_loop llm_invoke (k + n) messages m = ask_loop llm_invoke n messages mk.
Proof.
  revert m. induction k as [ | k IH]; intros m Hpasses; simpl in *.
  - inversion Hpasses; subst. split; [lia | reflexivity].
  - destruct (loop_body llm_invoke messages m) as [res m1 | m1] eqn:Hpass; [discriminate | ].
    apply loop_body_continue in Hpass as (r & replies & Hinv & _).
    destruct (IH m1 Hpasses) as [Hlen Hrun]. split; [ | assumption].
    rewrite Hlen, Hinv, length_app. simpl. lia.
Qed.

Lemma loop_body_answer messages (m : machine) r s :
  llm_invoke (llm m) (heap m !!! messages) = (Ret r, s) ->
  tool_calls r = [] ->
  exists m',
    loop_body llm_invoke messages m = Finished (Ret (content r)) m' /\
    length (invocations m') = S (length (invocations m)) /\
    heap m' !!! messages = heap m !!! messages ++ [AIMessage r].
Proof.
  intros Hinvoke Hnone. unfold loop_body, invoke_model. rewrite Hinvoke, Hnone.
  eexists. split; [reflexivity | ]. simpl. split.
  - rewrite length_app. simpl. lia.
  - apply lookup_total_list_append.
Qed.

(** The loop after as many passes as the ceiling allows. *)
Lemma ask_loop_exhausts remaining messages (m mk : machine) :
  after_passes llm_invoke remaining messages m = Some mk ->
  ask_loop llm_invoke remaining messages m
  = (Raise (RuntimeError MAX_ITERATIONS_MESSAGE), mk).
Proof.
  intros Hpasses.
  destruct (after_passes_spec remaining O messages m mk Hpasses) as [_ Hrun].
  rewrite Nat.add_0_r in Hrun. rewrite Hrun. reflexivity.
Qed.

(** C3, as the code has it.  For a request whose panel rich renders: when
    the loop gets through as many passes as the ceiling allows (on each of
    them the model returns a response with at least one tool-call request and
    every request is dispatched without an exception), [ask] has invoked the
    model exactly [max_iterations] times and raises the iteration-limit
    error, without another invocation; and when the loop gets through [k]
    passes, with [k] below the ceiling, and the next response of the model
    carries no tool-call request, [ask] returns the text of that response on
    that invocation, the [k+1]-th. *)
Theorem ask_iteration_ceiling query history max_iterations (m : machine) messages m0 :
  markup_error ("Query: " +:+ query) = None ->
  ask_start query history m = (messages, m0) ->
  (forall mk,
     after_passes llm_invoke (Z.to_nat max_iterations) messages m0 = Some mk ->
     ask llm_invoke query history max_iterations m
       = (Raise (RuntimeError MAX_ITERATIONS_MESSAGE), Some messages, mk) /\
     length (invocations mk) = (length (invocations m) + Z.to_nat max_iterations)%nat) /\
  (forall k mk r s,
     (k < Z.to_nat max_iterations)%nat ->
     after_passes llm_invoke k messages m0 = Some mk ->
     llm_invoke (llm mk) (heap mk !!! messages) = (Ret r, s) ->
     tool_calls r = [] ->
     exists m',
       ask llm_invoke query history max_iterations m
         = (Ret (content r), Some messages, m') /\
       length (invocations m') = (length (invocations m) + k + 1)%nat).
Proof.
  intros Hpanel Hstart. unfold ask, log_panel. rewrite (log_accepted _ Hpanel), Hstart.
  apply ask_start_spec in Hstart as (_ & _ & Hinv & _). split.
  - intros mk Hpasses. rewrite (ask_loop_exhausts _ _ _ _ Hpasses).
    split; [reflexivity | ].
    destruct (after_passes_spec _ O _ _ _ Hpasses) as [Hlen _]. rewrite Hlen, Hinv.
    reflexivity.
  - intros k mk r s Hk Hpasses Hinvoke Hnone.
    replace (Z.to_nat max_iterations)
      with (k + S (Z.to_nat max_iterations - S k))%nat by lia.
    destruct (after_passes_spec k (S (Z.to_nat max_iterations - S k))
                messages m0 mk Hpasses) as [Hlen ->].
    destruct (loop_body_answer messages mk r s Hinvoke Hnone) as (m' & Hpass & Hlen' & _).
    simpl. rewrite Hpass. exists m'. split; [reflexivity | ].
    rewrite Hlen', Hlen, Hinv. lia.
Qed.

(** The [for] loop: what it leaves of the world, and what it appends. *)
Lemma dispatch_calls_frame calls messages (m : machine) r m' :
  dispatch_calls calls messages m = (r, m') ->
  world_frame (env m) (env m') /\
  exists replies,
    heap m' !!! messages = heap m !!! messages ++ replies /\
    Forall from_turn replies.
Proof.
  revert m. induction calls as [ | tool_call calls IH]; intros m Hrun; simpl in Hrun.
  - inversion Hrun; subst. split; [apply world_frame_refl | ].
    exists []. rewrite app_nil_r. split; [reflexivity | constructor].
  - pose proof (call_tool_world_frame tool_call (env m)) as Hcall.
    pose proof (call_tool_answers tool_call (env m)) as Hanswer.
    destruct (call_tool tool_call (env m)) as [[reply | e] w].
    + apply IH in Hrun as (Hframe & replies & Hheap & Hturn). simpl in *.
      split; [eapply world_frame_trans; eassumption | ].
      exists (reply :: replies). split.
      * rewrite Hheap, lookup_total_list_append, <- app_assoc. reflexivity.
      * constructor; [ | assumption].
        destruct (Hanswer reply w eq_refl) as [text ->]. exact I.
    + inversion Hrun; subst. simpl in *. split; [assumption | ].
      exists []. rewrite app_nil_r. split; [reflexivity | constructor].
Qed.

(** One pass through the body of the loop, however it ends. *)
Lemma loop_body_frame messages (m : machine) :
  let after := match loop_body llm_invoke messages m with
               | Finished _ m' | Continue m' => m'
               end in
  world_frame (env m) (env after) /\
  (exists tail, heap after !!! messages = heap m !!! messages ++ tail /\
                Forall from_turn tail) /\
  (forall text m', loop_body llm_invoke messages m = Finished (Ret text) m' ->
     exists r, heap m' !!! messages = heap m !!! messages ++ [AIMessage r] /\
               content r = text /\ tool_calls r = []).
Proof.
  unfold loop_body, invoke_model. cbv zeta.
  destruct (llm_invoke (llm m) (heap m !!! messages)) as [[r | e] s].
  - destruct (tool_calls r) as [ | tool_call calls] eqn:Hcalls.
    + cbn. split; [apply world_frame_refl | ]. split.
      * exists [AIMessage r]. split; [apply lookup_total_list_append | ].
        constructor; [exact I | constructor].
      * intros text m' Hdone; inversion Hdone; subst. exists r.
        split; [apply lookup_total_list_append | auto].
    + match goal with
      | |- context [dispatch_calls ?cs ?l ?m0] =>
          destruct (dispatch_calls cs l m0) as [[u | e] m3] eqn:Hdispatch
      end.
      all: apply dispatch_calls_frame in Hdispatch as (Hframe & replies & Hheap & Hturn).
      all: cbn in Hframe, Hheap; rewrite lookup_total_list_append in Hheap.
      all: split; [exact Hframe | ].
      all: split; [ | discriminate].
      all: exists (AIMessage r :: replies).
      all: split; [rewrite Hheap, <- app_assoc; reflexivity | ].
      all: constructor; [exact I | assumption].
  - cbn. split; [apply world_frame_refl | ]. split; [ | discriminate].
    exists []. rewrite app_nil_r. split; [reflexivity | constructor].
Qed.

Lemma ask_loop_frame remaining messages (m : machine) r m' :
  ask_loop llm_invoke remaining messages m = (r, m') ->
  world_frame (env m) (env m') /\
  exists tail,
    heap m' !!! messages = heap m !!! messages ++ tail /\
    Forall from_turn tail /\
    (forall text, r = Ret text ->
       exists front resp, tail = front ++ [AIMessage resp] /\
                          content resp = text /\ tool_calls resp = []).
Proof.
  revert m. induction remaining as [ | remaining IH]; intros m Hrun; simpl in Hrun.
  - inversion Hrun; subst. split; [apply world_frame_refl | ].
    exists []. rewrite app_nil_r. repeat split; [constructor | discriminate].
  - pose proof (loop_body_frame messages m) as (Hframe & (tail & Hheap & Hturn) & Hdone).
    destruct (loop_body llm_invoke messages m) as [res m1 | m1].
    + inversion Hrun; subst. split; [assumption | ].
      exists tail. repeat split; try assumption.
      intros text ->. destruct (Hdone text m' eq_refl) as (resp & Hheap' & Hcontent & Hnone).
      exists [], resp. repeat split; try assumption.
      rewrite Hheap in Hheap'. apply app_inv_head in Hheap'. assumption.
    + apply IH in Hrun as (Hframe' & tail' & Hheap' & Hturn' & Hdone').
      split; [eapply world_frame_trans; eassumption | ].
      exists (tail ++ tail'). repeat split.
      * rewrite Hheap', Hheap, <- app_assoc. reflexivity.
      * apply Forall_app; auto.
      * intros text Hr. destruct (Hdone' text Hr) as (front & resp & -> & Hcontent & Hnone).
        exists (tail ++ front), resp. rewrite <- app_assoc. auto.
Qed.

(** What one call of [ask] does to the world and to the record of the
    invocations. *)
Lemma ask_effects query history max_iterations (m : machine) outcome messages m' :
  ask llm_invoke query history max_iterations m = (outcome, messages, m') ->
  world_frame (env m) (env m') /\
  (length (invocations m') <= length (invocations m) + Z.to_nat max_iterations)%nat.
Proof.
  destruct (ask_cases query history max_iterations m)
    as [(msg & _ & ->) | (_ & messages0 & m0 & r & m1 & Hstart & Hloop & ->)];
    intros Hask; inversion Hask; subst; clear Hask.
  - split; [apply world_frame_refl | lia].
  - split.
    + apply ask_loop_frame in Hloop as [Hframe _].
      unfold ask_start, list_copy in Hstart. inversion Hstart; subst. exact Hframe.
    + apply ask_start_spec in Hstart as (_ & _ & Hinv & _).
      apply ask_loop_spec in Hloop as (_ & added & Hinv' & _ & Hlen).
      rewrite Hinv', Hinv, length_app. lia.
Qed.

(** X3.  Whatever the model and the tools do, one call of [ask] invokes the
    model at most [max_iterations] times; with a ceiling of zero or less it
    invokes no model and touches nothing of the world, and raises the
    iteration-limit error, or the [MarkupError] of rich when the panel of the
    request is not rendered. *)
Theorem ask_invocations_bounded query history max_iterations (m : machine)
    outcome messages m' :
  ask llm_invoke query history max_iterations m = (outcome, messages, m') ->
  (length (invocations m') <= length (invocations m) + Z.to_nat max_iterations)%nat /\
  (max_iterations <= 0 ->
     outcome = match markup_error ("Query: " +:+ query) with
               | None => Raise (RuntimeError MAX_ITERATIONS_MESSAGE)
               | Some msg => Raise (MarkupError msg)
               end /\
     invocations m' = invocations m /\ env m' = env m /\ llm m' = llm m).
Proof.
  destruct (ask_cases query history max_iterations m)
    as [(msg & Hpanel & ->) | (Hpanel & messages0 & m0 & r & m1 & Hstart & Hloop & ->)];
    intros Hask; inversion Hask; subst; clear Hask; rewrite Hpanel.
  - split; [lia | auto].
  - split.
    + apply ask_start_spec in Hstart as (_ & _ & Hinv & _).
      apply ask_loop_spec in Hloop as (_ & added & Hinv' & _ & Hlen).
      rewrite Hinv', Hinv, length_app. lia.
    + intros Hzero. replace (Z.to_nat max_iterations) with O in Hloop by lia.
      simpl in Hloop. inversion Hloop; subst.
      unfold ask_start, list_copy in Hstart. inversion Hstart; subst. auto.
Qed.

(** X4.  A turn reads the configured database path and never sets it, and
    the engine calls it adds hold no commit and no rollback, whatever the
    model requests. *)
Theorem ask_world_frame query history max_iterations (m : machine)
    outcome messages m' :
  ask llm_invoke query history max_iterations m = (outcome, messages, m') ->
  DATABASE_PATH (env m') = DATABASE_PATH (env m) /\
  exists cs, calls_added (env m) (env m') cs /\
             Forall (fun call => call <> CallCommit /\ call <> CallRollback) cs.
Proof.
  destruct (ask_cases query history max_iterations m)
    as [(msg & _ & ->) | (_ & messages0 & m0 & r & m1 & Hstart & Hloop & ->)];
    intros Hask; inversion Hask; subst; clear Hask.
  - apply world_frame_refl.
  - apply ask_loop_frame in Hloop as [Hframe _].
    unfold ask_start, list_copy in Hstart. inversion Hstart; subst. exact Hframe.
Qed.

(** X5.  The private list of a turn starts with the history followed by
    the user message and goes on with assistant and tool-result messages
    only; when [ask] returns a text, there is a private list and its last
    message is the assistant message that carries this text and no tool-call
    request. *)
Theorem ask_private_list query history max_iterations (m : machine)
    outcome messages m' :
  ask llm_invoke query history max_iterations m = (outcome, messages, m') ->
  (forall text, outcome = Ret text -> is_Some messages) /\
  (forall l, messages = Some l ->
     exists tail,
       heap m' !!! l = heap m !!! history ++ HumanMessage query :: tail /\
       Forall from_turn tail /\
       (forall text, outcome = Ret text ->
          exists front resp, tail = front ++ [AIMessage resp] /\
                             content resp = text /\ tool_calls resp = [])).
Proof.
  destruct (ask_cases query history max_iterations m)
    as [(msg & _ & ->) | (_ & messages0 & m0 & r & m1 & Hstart & Hloop & ->)];
    intros Hask; inversion Hask; subst; clear Hask.
  - split; intros; discriminate.
  - split; [eauto | ]. intros l Hl; inversion Hl; subst; clear Hl.
    apply ask_start_spec in Hstart as (_ & Hheap & _ & _).
    apply ask_loop_frame in Hloop as (_ & tail & Hheap' & Hturn & Hdone).
    exists tail. repeat split; try assumption.
    rewrite Hheap', Hheap, <- app_assoc. reflexivity.
Qed.

(** X6.  An exception of the model ends the turn: for a request whose panel
    rich renders, when the loop has got through [k] passes below the ceiling
    and the next invocation of the model raises, [ask] raises the same
    exception after that invocation, and no tool runs after it. *)
Theorem ask_model_error_propagates query history max_iterations (m : machine)
    k messages m0 mk e s :
  markup_error ("Query: " +:+ query) = None ->
  ask_start query history m = (messages, m0) ->
  (k < Z.to_nat max_iterations)%nat ->
  after_passes llm_invoke k messages m0 = Some mk ->
  llm_invoke (llm mk) (heap mk !!! messages) = (Raise e, s) ->
  exists m',
    ask llm_invoke query history max_iterations m = (Raise e, Some messages, m') /\
    length (invocations m') = (length (invocations m) + k + 1)%nat /\
    env m' = env mk /\ heap m' = heap mk.
Proof.
  intros Hpanel Hstart Hk Hpasses Hinvoke.
  unfold ask, log_panel. rewrite (log_accepted _ Hpanel), Hstart.
  apply ask_start_spec in Hstart as (_ & _ & Hinv & _).
  replace (Z.to_nat max_iterations)
    with (k + S (Z.to_nat max_iterations - S k))%nat by lia.
  destruct (after_passes_spec k (S (Z.to_nat max_iterations - S k))
              messages m0 mk Hpasses) as [Hlen ->].
  simpl. unfold loop_body, invoke_model. rewrite Hinvoke.
  eexists. split; [reflexivity | ]. simpl. repeat split.
  rewrite length_app, Hlen, Hinv. simpl. lia.
Qed.

End AgentFacts.

(** ** Properties of session persistence *)

Section PersistenceFacts.
Context (SYSTEM_PROMPT : string).
Context {json_text : Type}.
Context (json_dumps : list serialized_message -> json_text).
Context (json_loads : json_text -> list serialized_message).
Context (current_time : string).

Local Abbreviation conversations := (conversations_db (json_text := json_text)).

Lemma chat_text_app (a b : list message) :
  chat_text (a ++ b) = chat_text a ++ chat_text b.
Proof.
  induction a as [ | msg a IH]; simpl; [reflexivity | ].
  destruct msg; simpl; rewrite IH; reflexivity.
Qed.

(** Reading back what [save_session] serialised appends the user and
    assistant turns, in order, to the history it starts from. *)
Lemma restore_serialize (history messages : list message) :
  chat_text (restore history (serialize messages)) = chat_text history ++ chat_text messages.
Proof.
  revert history. unfold serialize.
  induction messages as [ | msg messages IH]; intros history; simpl.
  - rewrite app_nil_r. reflexivity.
  - destruct msg as [text | text | r | text id]; simpl.
    + apply IH.
    + rewrite IH, chat_text_app, <- app_assoc. reflexivity.
    + rewrite IH, chat_text_app, <- app_assoc. reflexivity.
    + apply IH.
Qed.

Lemma find_after_insert (user : string) (n : Z) (new_row : session_row (json_text := json_text))
    (rows : list session_row) :
  Forall (fun r => row_session_id r < n) rows ->
  owned_by n user new_row = true ->
  find (owned_by n user) (rows ++ [new_row]) = Some new_row.
Proof.
  intros Hbelow Hnew. induction Hbelow as [ | r rows Hr Hrows IH]; simpl.
  - rewrite Hnew. reflexivity.
  - unfold owned_by at 1. replace (row_session_id r =? n) with false by lia. simpl. exact IH.
Qed.

Lemma find_after_update (user title : string) (sid : Z) (text : json_text)
    (rows : list session_row) :
  (exists r, In r rows /\ owned_by sid user r = true) ->
  exists r',
    find (owned_by sid user)
      (map (fun r =>
              if owned_by sid user r
              then {| row_session_id := row_session_id r;
                      row_user_id := row_user_id r;
                      row_title := title;
                      row_created_at := row_created_at r;
                      row_conversation_json := text |}
              else r) rows) = Some r' /\
    row_conversation_json r' = text.
Proof.
  intros (r & Hin & Howned). induction rows as [ | r0 rows IH]; [destruct Hin | ].
  simpl. destruct (owned_by sid user r0) eqn:Hr0.
  - unfold owned_by at 1. simpl. fold (owned_by sid user r0). rewrite Hr0. eauto.
  - rewrite Hr0. destruct Hin as [-> | Hin]; [congruence | ]. apply IH; assumption.
Qed.

Lemma too_long_false (bytes : Z) : bytes <= TEXT_LIMIT -> too_long bytes = false.
Proof. unfold too_long. intros H. apply Z.ltb_ge. assumption. Qed.

Lemma too_long_true (bytes : Z) : TEXT_LIMIT < bytes -> too_long bytes = true.
Proof. unfold too_long. intros H. apply Z.ltb_lt. assumption. Qed.

Lemma existsb_owned (sid : Z) (user : string) (rows : list session_row) :
  (exists r : session_row (json_text := json_text),
     In r rows /\ owned_by sid user r = true) ->
  existsb (owned_by sid user) rows = true.
Proof. intros (r & Hin & Hr). apply existsb_exists. eauto. Qed.

Lemma existsb_unowned (sid : Z) (user : string)
    (rows : list (session_row (json_text := json_text))) :
  (forall r, In r rows -> owned_by sid user r = false) ->
  existsb (owned_by sid user) rows = false.
Proof.
  intros Hnone. induction rows as [ | r rows IH]; simpl; [reflexivity | ].
  rewrite (Hnone r (or_introl eq_refl)). apply IH. intros r' Hr'. apply Hnone. now right.
Qed.

(** C9, as the code has it.  A guest's conversation is not stored:
    [save_session] returns no session id and leaves the table as it is, and
    [load_session] gives the fresh history whatever is asked for.  For a
    signed-in user with a user id, while the conversations database can be
    reached, saving a conversation as a new session, or over a session row
    that this user owns, and loading the session id that [save_session]
    returned gives a history with the same user and assistant turns, in the
    same order and with the same text, as long as the JSON text of the
    conversation (and the title, when a row is updated) fits a column of type
    [TEXT]; a conversation whose JSON text is longer is not stored,
    [save_session] returns no session id and the table is as it was.
    [json.loads] is taken to read back what [json.dumps] wrote, and the ids
    of the stored sessions to lie below the next AUTO_INCREMENT value. *)
Theorem save_load_round_trip (session_id : option Z) (title : string)
    (messages : list message) (st : session_state) (db : conversations) :
  (forall v, json_loads (json_dumps v) = v) ->
  (is_guest st = true ->
   save_session json_dumps current_time session_id title messages st db = (None, db) /\
   forall sid db', load_session SYSTEM_PROMPT json_loads sid st db'
                   = create_history SYSTEM_PROMPT) /\
  (forall user,
     is_guest st = false ->
     user_id st = Some user ->
     reachable db = true ->
     Forall (fun r => row_session_id r < auto_increment db) (sessions db) ->
     (forall sid, session_id = Some sid ->
        exists r, In r (sessions db) /\ owned_by sid user r = true) ->
     (json_length (serialize messages) <= TEXT_LIMIT ->
      (session_id <> None -> Z.of_nat (String.length title) <= TEXT_LIMIT) ->
      exists sid db',
        save_session json_dumps current_time session_id title messages st db
          = (Some sid, db') /\
        chat_text (load_session SYSTEM_PROMPT json_loads (Some sid) st db')
          = chat_text messages) /\
     (TEXT_LIMIT < json_length (serialize messages) ->
      save_session json_dumps current_time session_id title messages st db = (None, db))).
Proof.
  intros Hjson. split.
  - intros Hguest. unfold save_session, load_session. rewrite Hguest. auto.
  - intros user Hguest Huser Hreach Hbelow Hexists.
    unfold save_session, load_session. rewrite Hguest, Huser, Hreach. simpl. split.
    + intros Hfits Htitle. rewrite (too_long_false _ Hfits).
      destruct session_id as [sid | ].
      * rewrite (too_long_false _ (Htitle ltac:(discriminate))), andb_false_r.
        eexists _, _. split; [reflexivity | ]. simpl.
        destruct (find_after_update user title sid (json_dumps (serialize messages))
                    (sessions db) (Hexists sid eq_refl)) as (r' & -> & ->).
        rewrite Hjson. apply restore_serialize.
      * eexists _, _. split; [reflexivity | ]. simpl.
        rewrite find_after_insert.
        -- simpl. rewrite Hjson. apply restore_serialize.
        -- assumption.
        -- unfold owned_by. simpl. rewrite Z.eqb_refl, String.eqb_refl. reflexivity.
    + intros Hlong. rewrite (too_long_true _ Hlong).
      destruct session_id as [sid | ]; [ | reflexivity].
      rewrite (existsb_owned sid user _ (Hexists sid eq_refl)), orb_true_r. reflexivity.
Qed.

Lemma restore_shape (history : list message) (stored : list serialized_message) :
  exists rest, restore history stored = history ++ rest /\ Forall restored rest.
Proof.
  revert history. induction stored as [ | msg stored IH]; intros history; simpl.
  - exists []. rewrite app_nil_r. split; [reflexivity | constructor].
  - destruct (String.eqb (msg_type msg) "HumanMessage").
    + destruct (IH (history ++ [HumanMessage (msg_content msg)])) as (rest & -> & Hrest).
      exists (HumanMessage (msg_content msg) :: rest). rewrite <- app_assoc.
      split; [reflexivity | constructor; [exact I | assumption]].
    + destruct (String.eqb (msg_type msg) "AIMessage").
      * destruct (IH (history ++ [AIMessage {| content := msg_content msg;
                                                tool_calls := [] |}]))
          as (rest & -> & Hrest).
        eexists (_ :: rest). rewrite <- app_assoc.
        split; [reflexivity | constructor; [reflexivity | assumption]].
      * apply IH.
Qed.

(** X7.  Whatever is stored and whoever asks, the history that
    [load_session] returns starts with the system prompt and goes on with
    user messages and assistant messages without tool-call requests only: no
    second system message and no tool-result message comes back. *)
Theorem load_session_shape (session_id : option Z) (st : session_state)
    (db : conversations) :
  exists rest,
    load_session SYSTEM_PROMPT json_loads session_id st db
      = SystemMessage SYSTEM_PROMPT :: rest /\
    Forall restored rest.
Proof.
  assert (Hfresh : exists rest,
            create_history SYSTEM_PROMPT = SystemMessage SYSTEM_PROMPT :: rest /\
            Forall restored rest)
    by (exists []; split; [reflexivity | constructor]).
  unfold load_session.
  destruct (is_guest st); [assumption | ].
  destruct (user_id st) as [user | ]; [ | assumption].
  destruct (negb (reachable db)); [assumption | ].
  destruct session_id as [sid | ]; [ | assumption].
  destruct (find (owned_by sid user) (sessions db)) as [r | ]; [ | assumption].
  destruct (restore_shape (create_history SYSTEM_PROMPT)
              (json_loads (row_conversation_json r))) as (rest & -> & Hrest).
  exists rest. split; [reflexivity | assumption].
Qed.

Lemma owned_by_user (sid : Z) (user : string) (r : session_row (json_text := json_text)) :
  owned_by sid user r = true -> row_session_id r = sid /\ row_user_id r = user.
Proof.
  unfold owned_by. intros H. apply andb_prop in H as [Hid Huser].
  apply Z.eqb_eq in Hid. apply String.eqb_eq in Huser. auto.
Qed.

Lemma find_unchanged (f : session_row (json_text := json_text) -> bool)
    (g : session_row -> session_row) (rows : list session_row) :
  (forall r, f (g r) = f r) ->
  (forall r, f r = true -> g r = r) ->
  find f (map g rows) = find f rows.
Proof.
  intros Hf Hg. induction rows as [ | r rows IH]; simpl; [reflexivity | ].
  rewrite Hf. destruct (f r) eqn:Hr; [rewrite (Hg r Hr); reflexivity | exact IH].
Qed.

Lemma find_app_miss (f : session_row (json_text := json_text) -> bool)
    (rows : list session_row) (r : session_row) :
  f r = false -> find f (rows ++ [r]) = find f rows.
Proof.
  intros Hr. induction rows as [ | r0 rows IH]; simpl.
  - rewrite Hr. reflexivity.
  - destruct (f r0); [reflexivity | exact IH].
Qed.

Lemma find_filter_keep (f g : session_row (json_text := json_text) -> bool)
    (rows : list session_row) :
  (forall r, f r = true -> g r = true) ->
  find f (List.filter g rows) = find f rows.
Proof.
  intros Hfg. induction rows as [ | r rows IH]; simpl; [reflexivity | ].
  destruct (f r) eqn:Hr.
  - rewrite (Hfg r Hr). simpl. rewrite Hr. reflexivity.
  - destruct (g r); simpl; [rewrite Hr | ]; exact IH.
Qed.

Lemma find_filter_gone (f : session_row (json_text := json_text) -> bool)
    (rows : list session_row) :
  find f (List.filter (fun r => negb (f r)) rows) = None.
Proof.
  induction rows as [ | r rows IH]; simpl; [reflexivity | ].
  destruct (f r) eqn:Hr; simpl; [ | rewrite Hr]; exact IH.
Qed.

(** What [save_session] does to the table, for a signed-in user. *)
Lemma save_session_table (session_id : option Z) (title : string)
    (messages : list message) (st : session_state) (db : conversations)
    (sid : option Z) (db' : conversations) :
  save_session json_dumps current_time session_id title messages st db = (sid, db') ->
  reachable db' = reachable db /\
  (forall (user' : string) (sid' : Z),
     user_id st <> Some user' ->
     find (owned_by sid' user') (sessions db') = find (owned_by sid' user') (sessions db)).
Proof.
  unfold save_session.
  destruct (is_guest st); [intros H; inversion H; subst; auto | ].
  destruct (user_id st) as [user | ]; [ | intros H; inversion H; subst; auto].
  destruct (negb (reachable db)); [intros H; inversion H; subst; auto | ].
  destruct session_id as [old | ];
    match goal with
    | |- context [if ?b then (None, db) else _] =>
        destruct b; [intros H; inversion H; subst; auto | ]
    end;
    intros H; inversion H; subst; clear H; simpl;
    (split; [reflexivity | ]); intros user' sid' Hother.
  - apply find_unchanged.
    + intros r. destruct (owned_by old user r); reflexivity.
    + intros r Hr. destruct (owned_by old user r) eqn:Hold; [ | reflexivity].
      apply owned_by_user in Hr as [_ Hu]. apply owned_by_user in Hold as [_ Hu'].
      congruence.
  - apply find_app_miss. unfold owned_by. simpl.
    destruct (String.eqb user user') eqn:Heq; [ | apply andb_false_r].
    apply String.eqb_eq in Heq. congruence.
Qed.

(** X8.  Saving never changes what another user can load: after a
    [save_session] by one user, [load_session] of any session id by a user
    with a different user id returns what it returned before. *)
Theorem save_session_keeps_other_users (session_id : option Z) (title : string)
    (messages : list message) (st st' : session_state) (db : conversations)
    (sid : option Z) (db' : conversations) (session_id' : option Z) :
  save_session json_dumps current_time session_id title messages st db = (sid, db') ->
  user_id st' <> user_id st ->
  load_session SYSTEM_PROMPT json_loads session_id' st' db'
  = load_session SYSTEM_PROMPT json_loads session_id' st' db.
Proof.
  intros Hsave Hother. apply save_session_table in Hsave as [Hreach Hfind].
  unfold load_session. rewrite Hreach.
  destruct (is_guest st'); [reflexivity | ].
  destruct (user_id st') as [user' | ]; [ | reflexivity].
  destruct (negb (reachable db)); [reflexivity | ].
  destruct session_id' as [sid' | ]; [ | reflexivity].
  rewrite Hfind by congruence. reflexivity.
Qed.

Lemma map_unchanged {A} (g : A -> A) (l : list A) :
  (forall x, In x l -> g x = x) -> map g l = l.
Proof.
  induction l as [ | x l IH]; intros H; simpl; [reflexivity | ].
  rewrite (H x (or_introl eq_refl)), IH; [reflexivity | ].
  intros y Hy. apply H. right. assumption.
Qed.

Lemma find_none_forall {A} (f : A -> bool) (l : list A) :
  (forall x, In x l -> f x = false) -> find f l = None.
Proof.
  induction l as [ | x l IH]; intros H; simpl; [reflexivity | ].
  rewrite (H x (or_introl eq_refl)). apply IH. intros y Hy. apply H. right. assumption.
Qed.

(** X9.  Saving under a session id of which the user owns no row (the id
    of a deleted session, or of another user's session) returns that id and
    stores nothing: the table is as it was, and loading the id gives the
    fresh history. *)
Theorem save_to_unowned_session_is_lost (sid : Z) (title : string)
    (messages : list message) (st : session_state) (db : conversations) (user : string) :
  is_guest st = false ->
  user_id st = Some user ->
  reachable db = true ->
  (forall r, In r (sessions db) -> owned_by sid user r = false) ->
  save_session json_dumps current_time (Some sid) title messages st db = (Some sid, db) /\
  load_session SYSTEM_PROMPT json_loads (Some sid) st db = create_history SYSTEM_PROMPT.
Proof.
  intros Hguest Huser Hreach Hnone. unfold save_session, load_session.
  rewrite Hguest, Huser, Hreach. simpl. split.
  - rewrite (existsb_unowned sid user _ Hnone). simpl. rewrite map_unchanged.
    + destruct db; simpl in *; subst; reflexivity.
    + intros r Hr. rewrite (Hnone r Hr). reflexivity.
  - rewrite find_none_forall by assumption. reflexivity.
Qed.

(** X10.  [save_session] keeps the PRIMARY KEY of the [sessions] table: if
    no two rows share an id and all ids lie below the AUTO_INCREMENT counter,
    the same holds afterwards, and a session saved as new gets an id that no
    row had. *)
Theorem save_session_keeps_primary_key (session_id : option Z) (title : string)
    (messages : list message) (st : session_state) (db : conversations)
    (sid : option Z) (db' : conversations) :
  sessions_table_ok db ->
  save_session json_dumps current_time session_id title messages st db = (sid, db') ->
  sessions_table_ok db' /\
  (session_id = None -> forall new_id, sid = Some new_id ->
     ~ In new_id (map row_session_id (sessions db)) /\
     In new_id (map row_session_id (sessions db'))).
Proof.
  intros [Hnodup Hbelow]. unfold save_session.
  destruct (is_guest st);
    [intros H; inversion H; subst; split; [split; assumption | discriminate] | ].
  destruct (user_id st) as [user | ];
    [ | intros H; inversion H; subst; split; [split; assumption | discriminate]].
  destruct (negb (reachable db));
    [intros H; inversion H; subst; split; [split; assumption | discriminate] | ].
  assert (Hfresh : ~ In (auto_increment db) (map row_session_id (sessions db))).
  { intros Hin. apply in_map_iff in Hin as (r & Hid & Hr).
    rewrite Forall_forall in Hbelow. apply list_elem_of_In in Hr.
    specialize (Hbelow r Hr). lia. }
  destruct session_id as [old | ];
    match goal with
    | |- context [if ?b then (None, db) else _] =>
        destruct b;
          [intros H; inversion H; subst; split; [split; assumption | discriminate] | ]
    end;
    intros H; inversion H; subst; clear H.
  - split; [ | discriminate]. unfold sessions_table_ok. simpl. split.
    + rewrite map_map.
      erewrite map_ext; [exact Hnodup | ].
      intros r. destruct (owned_by old user r); reflexivity.
    + apply Forall_map. eapply Forall_impl; [exact Hbelow | ].
      intros r Hr. simpl. destruct (owned_by old user r); simpl; assumption.
  - split.
    + unfold sessions_table_ok. simpl. split.
      * rewrite map_app. simpl. apply NoDup_app. repeat split.
        -- assumption.
        -- intros x Hx Hx'. apply list_elem_of_In in Hx.
           apply list_elem_of_singleton in Hx'. subst. contradiction.
        -- apply NoDup_singleton.
      * apply Forall_app. split.
        -- eapply Forall_impl; [exact Hbelow | ]. intros r Hr. simpl in *. lia.
        -- constructor; [simpl; lia | constructor].
    + intros _ new_id Hnew. inversion Hnew; subst. split; [assumption | ].
      simpl. rewrite map_app. apply in_or_app. right. left. reflexivity.
Qed.

Lemma find_after_insert_gone (f : session_row (json_text := json_text) -> bool)
    (rows : list session_row) (r : session_row) :
  find f rows = None -> f r = true -> find f (rows ++ [r]) = Some r.
Proof.
  intros Hnone Hr. induction rows as [ | r0 rows IH]; simpl in *.
  - rewrite Hr. reflexivity.
  - destruct (f r0); [discriminate | apply IH; assumption].
Qed.

(** X11.  Saving a conversation as a new session and then saving another
    conversation under the returned id, both with a JSON text and a title
    that fit a column of type [TEXT], leaves one new row, and loading the id
    gives the user and assistant turns of the second conversation. *)
Theorem save_session_overwrites (title1 title2 : string)
    (messages1 messages2 : list message) (st : session_state) (db : conversations)
    (user : string) (sid1 sid2 : option Z) (db1 db2 : conversations) :
  (forall v, json_loads (json_dumps v) = v) ->
  is_guest st = false ->
  user_id st = Some user ->
  reachable db = true ->
  json_length (serialize messages1) <= TEXT_LIMIT ->
  json_length (serialize messages2) <= TEXT_LIMIT ->
  Z.of_nat (String.length title2) <= TEXT_LIMIT ->
  save_session json_dumps current_time None title1 messages1 st db = (sid1, db1) ->
  save_session json_dumps current_time sid1 title2 messages2 st db1 = (sid2, db2) ->
  sid1 = Some (auto_increment db) /\
  sid2 = sid1 /\
  length (sessions db2) = S (length (sessions db)) /\
  chat_text (load_session SYSTEM_PROMPT json_loads sid2 st db2) = chat_text messages2.
Proof.
  intros Hjson Hguest Huser Hreach Hfits1 Hfits2 Htitle. unfold save_session, load_session.
  rewrite Hguest, Huser, Hreach. simpl.
  rewrite (too_long_false _ Hfits1).
  intros H1; inversion H1; subst; clear H1. simpl. rewrite ?Hreach. simpl.
  rewrite (too_long_false _ Hfits2), (too_long_false _ Htitle), andb_false_r.
  intros H2; inversion H2; subst; clear H2. simpl. rewrite ?Hreach. simpl.
  split; [reflexivity | ]. split; [reflexivity | ]. split.
  - rewrite length_map, length_app. simpl. lia.
  - match goal with
    | |- context [find _ (map ?g ?rows)] =>
        destruct (find_after_update user title2 (auto_increment db)
                    (json_dumps (serialize messages2)) rows) as (r' & Hfind & Hjson')
    end.
    + eexists. split; [apply in_or_app; right; left; reflexivity | ].
      unfold owned_by. simpl. rewrite Z.eqb_refl, String.eqb_refl. reflexivity.
    + rewrite Hfind, Hjson', Hjson. apply restore_serialize.
Qed.

(** X12.  For a signed-in user, while the database can be reached,
    [delete_session] removes the session: loading its id afterwards gives the
    fresh history; every other stored session, of this user or of another,
    loads as before; and when the deleted session was the current one, the
    current session becomes a new, empty, stored session, while otherwise the
    state of the page is untouched. *)
Theorem delete_session_removes (session_id : Z) (st st' : chat_state)
    (db db' : conversations) (user : string) :
  (forall v, json_loads (json_dumps v) = v) ->
  is_guest (account st) = false ->
  user_id (account st) = Some user ->
  reachable db = true ->
  delete_session SYSTEM_PROMPT json_dumps current_time session_id st db = (st', db') ->
  load_session SYSTEM_PROMPT json_loads (Some session_id) (account st) db'
    = create_history SYSTEM_PROMPT /\
  (forall sid' visitor,
     sid' <> session_id \/ user_id visitor <> Some user ->
     sid' <> auto_increment db ->
     load_session SYSTEM_PROMPT json_loads (Some sid') visitor db'
     = load_session SYSTEM_PROMPT json_loads (Some sid') visitor db) /\
  (st_current_session_id st = Some (Some session_id) ->
     st_current_session_id st' = Some (Some (auto_increment db)) /\
     st_messages st' = Some (create_history SYSTEM_PROMPT) /\
     length (sessions db') = S (length (List.filter
                                          (fun r => negb (owned_by session_id user r))
                                          (sessions db)))) /\
  (st_current_session_id st <> Some (Some session_id) -> st' = st).
Proof.
  intros Hjson Hguest Huser Hreach. unfold delete_session.
  rewrite Hguest, Huser, Hreach. simpl.
  set (kept := List.filter (fun r => negb (owned_by session_id user r)) (sessions db)).
  assert (Hkeep : forall sid' user',
            sid' <> session_id \/ Some user' <> Some user ->
            find (owned_by sid' user') kept = find (owned_by sid' user') (sessions db)).
  { intros sid' user' Hother. apply find_filter_keep. intros r Hr.
    destruct (owned_by session_id user r) eqn:Hr'; [ | reflexivity].
    apply owned_by_user in Hr as [Hid Hu]. apply owned_by_user in Hr' as [Hid' Hu'].
    destruct Hother; congruence. }
  assert (Hgone : find (owned_by session_id user) kept = None)
    by apply find_filter_gone.
  assert (Hsame : st_current_session_id st <> Some (Some session_id) ->
            forall st0 db0,
              (st0, db0) = (st, {| reachable := true; sessions := kept;
                                   auto_increment := auto_increment db |}) ->
              (st', db') = (st0, db0) ->
              load_session SYSTEM_PROMPT json_loads (Some session_id) (account st) db'
                = create_history SYSTEM_PROMPT /\
              (forall sid' visitor,
                 sid' <> session_id \/ user_id visitor <> Some user ->
                 sid' <> auto_increment db ->
                 load_session SYSTEM_PROMPT json_loads (Some sid') visitor db'
                 = load_session SYSTEM_PROMPT json_loads (Some sid') visitor db) /\
              (st_current_session_id st = Some (Some session_id) ->
                 st_current_session_id st' = Some (Some (auto_increment db)) /\
                 st_messages st' = Some (create_history SYSTEM_PROMPT) /\
                 length (sessions db') = S (length kept)) /\
              (st_current_session_id st <> Some (Some session_id) -> st' = st)).
  { intros Hne st0 db0 H0 H'. inversion H0; subst. inversion H'; subst. clear H0 H'.
    unfold load_session. rewrite Hguest, Huser. simpl. rewrite Hgone.
    split; [reflexivity | ]. split; [ | split; [contradiction | reflexivity]].
    intros sid' visitor Hother _. rewrite Hreach.
    destruct (is_guest visitor); [reflexivity | ].
    destruct (user_id visitor) as [user' | ]; [ | reflexivity]. simpl.
    rewrite Hkeep; [reflexivity | ]. destruct Hother; [left | right]; congruence. }
  destruct (st_current_session_id st) as [[current | ] | ] eqn:Hcurrent.
  - destruct (current =? session_id) eqn:Hmatch.
    + apply Z.eqb_eq in Hmatch. subst current.
      unfold save_session. rewrite Hguest, Huser. simpl.
      intros H; inversion H; subst; clear H. simpl.
      unfold load_session. rewrite Hguest, Huser. simpl.
      split; [ | split; [ | split; [ | congruence]]].
      * destruct (find (owned_by session_id user) (kept ++ _)) as [r | ] eqn:Hfind;
          [ | reflexivity].
        destruct (owned_by session_id user
                    {| row_session_id := auto_increment db;
                       row_user_id := user;
                       row_title := "Chat@" +:+ current_time;
                       row_created_at := current_time;
                       row_conversation_json :=
                         json_dumps (serialize (create_history SYSTEM_PROMPT)) |})
          eqn:Hnew.
        -- rewrite (find_after_insert_gone _ _ _ Hgone Hnew) in Hfind.
           inversion Hfind; subst. simpl. rewrite Hjson. reflexivity.
        -- rewrite (find_app_miss _ _ _ Hnew), Hgone in Hfind. discriminate.
      * intros sid' visitor Hother Hfresh. rewrite Hreach.
        destruct (is_guest visitor); [reflexivity | ].
        destruct (user_id visitor) as [user' | ]; [ | reflexivity]. simpl.
        rewrite find_app_miss.
        -- rewrite Hkeep; [reflexivity | ]. destruct Hother; [left | right]; congruence.
        -- unfold owned_by. simpl.
           replace (auto_increment db =? sid') with false by lia. reflexivity.
      * intros _. split; [reflexivity | ]. split; [reflexivity | ].
        rewrite length_app. simpl. lia.
    + apply Z.eqb_neq in Hmatch. intros H. eapply Hsame; eauto; congruence.
  - intros H. eapply Hsame; eauto; discriminate.
  - intros H. eapply Hsame; eauto; discriminate.
Qed.

End PersistenceFacts.

(** ** Uploading a database *)

Section UploadFacts.
Context {E : Engine} {C : Console} {U : Unicode}.
Context (UPLOADED_DB_DIR : string) (path_join : string -> string -> string).

(** X13.  An upload on which the engine executes [SELECT 1] and commits
    becomes the active database: the file holds the uploaded content, the
    configured path points to it, no other file is touched, and from then on
    [execute_sql] runs its statement on a connection opened on the uploaded
    content: whatever the statement, when rich renders the panel and the
    engine hands out rows for the statement on that content, the tool returns
    these rows rendered. *)
Theorem upload_accepted (name : string) (content : database) (w : world)
    fetched c u c' :
  files w !! path_join UPLOADED_DB_DIR name <> Some Directory ->
  db_execute (db_open content) "SELECT 1" = (Ret fetched, c) ->
  db_commit c = (Ret u, c') ->
  exists w',
    save_uploaded_file UPLOADED_DB_DIR path_join name content w
      = (Accepted (path_join UPLOADED_DB_DIR name), w') /\
    DATABASE_PATH w' = Some (path_join UPLOADED_DB_DIR name) /\
    files w' !! path_join UPLOADED_DB_DIR name = Some (DbFile content) /\
    (forall q, q <> path_join UPLOADED_DB_DIR name -> files w' !! q = files w !! q) /\
    (forall reasoning sql_query rows c2,
       markup_error (tool_panel (ExecuteSqlArgs reasoning sql_query)) = None ->
       db_execute (db_open content) sql_query = (Ret (Ret rows), c2) ->
       (execute_sql reasoning sql_query w').1 = Ret (rows_str rows)).
Proof.
  intros Hfile Hexec Hcommit. unfold save_uploaded_file.
  destruct (files w !! path_join UPLOADED_DB_DIR name) as [[ | d] | ] eqn:Hold;
    [congruence | | ]; rewrite Hexec, Hcommit; eexists; (split; [reflexivity | ]);
    simpl; (split; [reflexivity | ]);
    (split; [apply lookup_insert_eq | ]);
    (split; [intros q Hq; apply lookup_insert_ne; congruence | ]);
    intros reasoning sql_query rows c2 Hpanel Hrun;
    apply (run_tool_rows (ExecuteSqlArgs reasoning sql_query) _
             (path_join UPLOADED_DB_DIR name) content rows c2);
    try assumption; try reflexivity; try discriminate;
    apply lookup_insert_eq.
Qed.

End UploadFacts.

(** ** User accounts *)

Lemma is_digit_pretty_N_char (y : N) : is_digit (pretty_N_char y) = true.
Proof. unfold pretty_N_char. repeat case_match; reflexivity. Qed.

Lemma value_pretty_N_char (y : N) :
  (y < 10)%N -> Z.of_N (N_of_ascii (pretty_N_char y) - 48) = Z.of_N y.
Proof.
  intros Hy.
  assert (y = 0 \/ y = 1 \/ y = 2 \/ y = 3 \/ y = 4 \/ y = 5 \/ y = 6 \/ y = 7
          \/ y = 8 \/ y = 9)%N as Hcases by lia.
  repeat (destruct Hcases as [-> | Hcases]; [reflexivity | ]). subst. reflexivity.
Qed.

(** The decimal rendering of a number is a run of digits. *)
Lemma span_digits_pretty_N_go (x : N) (s : string) :
  span_digits s = (s, EmptyString) ->
  span_digits (pretty_N_go x s) = (pretty_N_go x s, EmptyString).
Proof.
  revert s. induction (N.lt_wf_0 x) as [x _ IH]; intros s Hs.
  destruct (decide (x = 0)%N) as [-> | Hpos]; [rewrite pretty_N_go_0; assumption | ].
  rewrite pretty_N_go_step by lia. apply IH; [apply N.div_lt; lia | ].
  simpl. rewrite is_digit_pretty_N_char, Hs. reflexivity.
Qed.

(** Reading the decimal rendering of a number gives the number back. *)
Lemma digits_value_pretty_N_go (x : N) :
  exists k, forall acc s,
    digits_value acc (pretty_N_go x s) = digits_value (acc * k + Z.of_N x) s.
Proof.
  induction (N.lt_wf_0 x) as [x _ IH].
  destruct (decide (x = 0)%N) as [-> | Hpos].
  - exists 1. intros acc s. rewrite pretty_N_go_0. f_equal. lia.
  - destruct (IH (x `div` 10)%N) as [k Hk]; [apply N.div_lt; lia | ].
    exists (10 * k). intros acc s. rewrite pretty_N_go_step by lia. rewrite Hk.
    simpl. rewrite is_digit_pretty_N_char, value_pretty_N_char by (apply N.mod_lt; lia).
    f_equal. pose proof (N.div_mod x 10). lia.
Qed.

Lemma digits_value_nonneg (s : string) (acc n : Z) :
  0 <= acc -> digits_value acc s = Some n -> 0 <= n.
Proof.
  revert acc. induction s as [ | c s IH]; intros acc Hacc; simpl.
  - intros H; inversion H; subst; assumption.
  - destruct (is_digit c); [ | discriminate]. apply IH. lia.
Qed.

Lemma qm_number_nonneg (uid : string) (n : Z) : qm_number uid = Some n -> 0 <= n.
Proof.
  unfold qm_number. destruct (strip_prefix "QM" uid) as [rest | ]; [ | discriminate].
  destruct (span_digits rest) as [[ | c ds] after]; [discriminate | ].
  apply digits_value_nonneg. lia.
Qed.

(** The number of an id that [get_next_user_id] builds is read back by its
    own pattern. *)
Lemma qm_number_of_id (i : Z) :
  0 <= i -> qm_number ("QM" +:+ int_str i) = Some i.
Proof.
  intros Hi. destruct i as [ | p | p]; [reflexivity | | lia].
  unfold int_str, pretty, pretty_Z, pretty, pretty_positive, pretty, pretty_N.
  destruct (decide (N.pos p = 0)%N); [discriminate | ].
  unfold qm_number. simpl strip_prefix.
  change (EmptyString +:+ pretty_N_go (N.pos p) EmptyString)
    with (pretty_N_go (N.pos p) EmptyString).
  cbv beta iota.
  rewrite span_digits_pretty_N_go by reflexivity.
  destruct (digits_value_pretty_N_go (N.pos p)) as [k Hk].
  pose proof (Hk 0 EmptyString) as Hvalue. simpl in Hvalue.
  destruct (pretty_N_go (N.pos p) EmptyString) as [ | c ds] eqn:Htext.
  - simpl in Hvalue. inversion Hvalue.
  - exact Hvalue.
Qed.

Lemma in_numbers_In (i : Z) (numbers : list Z) :
  in_numbers i numbers = true <-> In i numbers.
Proof.
  unfold in_numbers. rewrite existsb_exists. split.
  - intros (x & Hx & Heq). apply Z.eqb_eq in Heq. subst. assumption.
  - intros Hin. exists i. split; [assumption | apply Z.eqb_refl].
Qed.

Lemma max_number_bound (numbers : list Z) (n : Z) :
  In n numbers -> n <= max_number numbers.
Proof.
  destruct numbers as [ | n0 rest]; [intros [] | ]. simpl.
  assert (Hfold : forall l a, a <= fold_left Z.max l a /\
                              forall x, In x l -> x <= fold_left Z.max l a).
  { induction l as [ | y l IH]; intros a; simpl.
    - split; [lia | intros x []].
    - destruct (IH (Z.max a y)) as [Hge Hall]. split; [lia | ].
      intros x [-> | Hx]; [lia | apply Hall; assumption]. }
  destruct (Hfold rest n0) as [Hge Hall].
  intros [-> | Hn]; [assumption | apply Hall; assumption].
Qed.

(** The first hit of a search through consecutive numbers. *)
Lemma find_seqZ (f : Z -> bool) (k : nat) (a : Z) :
  match find f (seqZ a (Z.of_nat k)) with
  | Some i => a <= i < a + Z.of_nat k /\ f i = true /\
              forall j, a <= j < i -> f j = false
  | None => forall j, a <= j < a + Z.of_nat k -> f j = false
  end.
Proof.
  revert a. induction k as [ | k IH]; intros a.
  - simpl. intros j Hj. lia.
  - rewrite seqZ_cons by lia. simpl.
    replace (Z.pred (Z.of_nat (S k))) with (Z.of_nat k) by lia.
    destruct (f a) eqn:Ha.
    + split; [lia | ]. split; [assumption | ]. intros j Hj. lia.
    + specialize (IH (Z.succ a)).
      destruct (find f (seqZ (Z.succ a) (Z.of_nat k))) as [i | ].
      * destruct IH as (Hrange & Hi & Hfirst). split; [lia | ]. split; [assumption | ].
        intros j Hj. destruct (decide (j = a)) as [-> | Hne]; [assumption | ].
        apply Hfirst. lia.
      * intros j Hj. destruct (decide (j = a)) as [-> | Hne]; [assumption | ].
        apply IH. lia.
Qed.

(** The choice of the next id, read as a number. *)
Lemma next_user_id_number (user_ids : list string) :
  exists i,
    next_user_id user_ids = "QM" +:+ int_str i /\
    1 <= i /\
    in_numbers i (qm_numbers user_ids) = false /\
    (forall j, 1 <= j < i -> in_numbers j (qm_numbers user_ids) = true).
Proof.
  unfold next_user_id. destruct user_ids as [ | uid user_ids].
  { exists 1. repeat split; try reflexivity; try lia. }
  destruct (qm_numbers (uid :: user_ids)) as [ | n numbers] eqn:Hnumbers.
  { exists 1. repeat split; try reflexivity; try lia. }
  assert (Hnonneg : forall x, In x (n :: numbers) -> 0 <= x).
  { intros x Hx. rewrite <- Hnumbers in Hx. apply list_elem_of_In in Hx.
    unfold qm_numbers in Hx. apply list_elem_of_omap in Hx as (id & _ & Hid).
    eapply qm_number_nonneg; eassumption. }
  set (all := n :: numbers) in *.
  assert (Hmax : 0 <= max_number all).
  { transitivity n; [apply Hnonneg; left; reflexivity | ].
    apply max_number_bound. left. reflexivity. }
  pose proof (find_seqZ (fun i => negb (in_numbers i all))
                (Z.to_nat (max_number all + 1)) 1) as Hfind.
  rewrite Z2Nat.id in Hfind by lia.
  destruct (find (fun i => negb (in_numbers i all)) (seqZ 1 (max_number all + 1)))
    as [i | ].
  - destruct Hfind as (Hrange & Hi & Hfirst). exists i.
    split; [reflexivity | ]. split; [lia | ].
    split; [apply negb_true_iff; assumption | ].
    intros j Hj. apply negb_false_iff. apply Hfirst. assumption.
  - exfalso. specialize (Hfind (max_number all + 1)).
    assert (Hin : in_numbers (max_number all + 1) all = true)
      by (apply negb_false_iff, Hfind; lia).
    apply in_numbers_In, max_number_bound in Hin. lia.
Qed.

Lemma next_user_id_fresh (user_ids : list string) :
  ~ In (next_user_id user_ids) user_ids.
Proof.
  destruct (next_user_id_number user_ids) as (i & -> & Hi & Hunused & _).
  intros Hin. apply not_true_iff_false in Hunused. apply Hunused.
  apply in_numbers_In, list_elem_of_In. unfold qm_numbers.
  apply list_elem_of_omap. exists ("QM" +:+ int_str i).
  split; [apply list_elem_of_In; assumption | apply qm_number_of_id; lia].
Qed.

(** X15.  While the users database can be reached, [get_next_user_id]
    returns [QM] followed by the least positive number that is not the number
    of a stored id, so that ids of deleted users are handed out again; and
    the id it returns is not one of the stored ids. *)
Theorem get_next_user_id_least_unused (db : users_db) :
  users_reachable db = true ->
  exists i,
    get_next_user_id db = DbOk ("QM" +:+ int_str i) /\
    1 <= i /\
    ~ In i (qm_numbers (map u_user_id (users db))) /\
    (forall j, 1 <= j < i -> In j (qm_numbers (map u_user_id (users db)))) /\
    ~ In ("QM" +:+ int_str i) (map u_user_id (users db)).
Proof.
  intros Hreach. unfold get_next_user_id. rewrite Hreach.
  pose proof (next_user_id_fresh (map u_user_id (users db))) as Hfresh.
  destruct (next_user_id_number (map u_user_id (users db)))
    as (i & Hid & Hi & Hunused & Hleast).
  exists i. rewrite Hid in *. split; [reflexivity | ]. split; [assumption | ].
  split; [ | split; [ | assumption]].
  - rewrite <- in_numbers_In. rewrite Hunused. discriminate.
  - intros j Hj. apply in_numbers_In. apply Hleast. assumption.
Qed.

Lemma user_id_number_injective (a b : Z) :
  0 <= a -> 0 <= b -> "QM" +:+ int_str a = "QM" +:+ int_str b -> a = b.
Proof.
  intros Ha Hb Heq. apply (f_equal qm_number) in Heq.
  rewrite !qm_number_of_id in Heq by assumption. congruence.
Qed.

Lemma In_remaining_ids (user id : string) (rows : list user_row) :
  In id (map u_user_id
           (List.filter (fun u => negb (String.eqb (u_user_id u) user)) rows)) <->
  In id (map u_user_id rows) /\ id <> user.
Proof.
  rewrite !in_map_iff. split.
  - intros (u & <- & Hu). apply filter_In in Hu as [Hin Hne].
    apply negb_true_iff, String.eqb_neq in Hne. split; [exists u; auto | assumption].
  - intros [(u & <- & Hin) Hne]. exists u. split; [reflexivity | ].
    apply filter_In. split; [assumption | ]. apply negb_true_iff, String.eqb_neq. assumption.
Qed.

Section AccountFacts.
Context (py_strip py_lower : string -> string).
Context (hashpw : string -> string -> string).
Context (conflicts : user_row -> list user_row -> bool).

(** X16.  A registration that is turned down, for whatever reason, leaves
    the users table as it was.  A registration that succeeds appends exactly
    one row: its id is the id of no stored row, so ids that were pairwise
    different stay so; it holds the stripped name, the lower-cased email and
    the hash of the password; and it happens only for a name that is not
    blank, an email with an at sign and a dot, and a password of at least 8
    characters with an upper case letter, a lower case letter, a digit and a
    special character. *)
Theorem register_user_outcome (name username email password salt : string)
    (db : users_db) :
  let '(ok, db') :=
    register_user py_strip py_lower hashpw conflicts name username email password salt db in
  if ok then
    exists new_id,
      users db' = users db ++ [{| u_user_id := new_id;
                                  u_name := py_strip name;
                                  u_username := username;
                                  u_email := py_lower email;
                                  u_password := hashpw password salt |}] /\
      ~ In new_id (map u_user_id (users db)) /\
      (NoDup (map u_user_id (users db)) -> NoDup (map u_user_id (users db'))) /\
      py_strip name <> EmptyString /\
      contains_char "@"%char email = true /\ contains_char "."%char email = true /\
      8 <= py_len password /\
      has_char is_upper password = true /\ has_char is_lower password = true /\
      has_char is_digit password = true /\ has_char is_special password = true
  else db' = db.
Proof.
  unfold register_user.
  destruct (negb (String.eqb (py_strip name) EmptyString)) eqn:Hname; [ | reflexivity].
  destruct (negb (String.eqb email EmptyString) && contains_char "@"%char email
            && contains_char "."%char email) eqn:Hemail; [ | reflexivity].
  destruct (8 <=? py_len password) eqn:Hlen; [ | reflexivity].
  destruct (has_char is_upper password) eqn:Hupper; [ | reflexivity].
  destruct (has_char is_lower password) eqn:Hlower; [ | reflexivity].
  destruct (has_char is_digit password) eqn:Hdigit; [ | reflexivity].
  destruct (has_char is_special password) eqn:Hspecial; [ | reflexivity].
  destruct (users_reachable db) eqn:Hreach; [ | reflexivity].
  unfold get_next_user_id. rewrite Hreach.
  destruct (conflicts _ (users db)); [reflexivity | ].
  pose proof (next_user_id_fresh (map u_user_id (users db))) as Hfresh.
  exists (next_user_id (map u_user_id (users db))). cbn [users].
  apply andb_true_iff in Hemail as [Hemail Hdot].
  apply andb_true_iff in Hemail as [_ Hat].
  apply negb_true_iff, String.eqb_neq in Hname. apply Z.leb_le in Hlen.
  repeat split; try assumption.
  intros Hnodup. rewrite map_app. cbn [map u_user_id].
  apply NoDup_app. repeat split.
  - assumption.
  - intros x Hx Hnew. apply list_elem_of_In in Hx.
    apply list_elem_of_In in Hnew as [<- | []]. contradiction.
  - apply NoDup_singleton.
Qed.

End AccountFacts.

(** X17.  [delete_user] is not atomic: when the users database can be
    reached and the conversations database cannot, it reports failure, yet
    the user's row is gone for good (the first transaction has been
    committed) while every session of the user is still stored. *)
Theorem delete_user_partial {json_text : Type} (user : string) (udb : users_db)
    (cdb : conversations_db (json_text := json_text)) :
  users_reachable udb = true ->
  reachable cdb = false ->
  exists udb',
    delete_user user udb cdb = (false, udb', cdb) /\
    ~ In user (map u_user_id (users udb')) /\
    (forall u, u_user_id u <> user -> In u (users udb') <-> In u (users udb)).
Proof.
  intros Husers Hsessions. unfold delete_user. rewrite Husers, Hsessions.
  eexists. split; [reflexivity | ]. cbn [users]. split.
  - intros Hin. apply In_remaining_ids in Hin as [_ Hne]. congruence.
  - intros u Hu. rewrite filter_In. split; [intros [Hin _]; assumption | ].
    intros Hin. split; [assumption | ]. apply negb_true_iff, String.eqb_neq. assumption.
Qed.

(** X18.  [delete_user] reports success exactly when both databases can be
    reached; then no row and no session of the user is left, the rows and
    sessions of the other users are all kept, and the next AUTO_INCREMENT
    value of [sessions] is as before. *)
Theorem delete_user_complete {json_text : Type} (user : string) (udb udb' : users_db)
    (cdb cdb' : conversations_db (json_text := json_text)) (ok : bool) :
  delete_user user udb cdb = (ok, udb', cdb') ->
  ok = users_reachable udb && reachable cdb /\
  (ok = true ->
     (forall u, In u (users udb') <-> In u (users udb) /\ u_user_id u <> user) /\
     (forall r, In r (sessions cdb') <-> In r (sessions cdb) /\ row_user_id r <> user) /\
     auto_increment cdb' = auto_increment cdb).
Proof.
  unfold delete_user. intros Hrun.
  destruct (users_reachable udb) eqn:Husers;
    [destruct (reachable cdb) eqn:Hsessions | ];
    inversion Hrun; subst; clear Hrun; (split; [reflexivity | ]); try discriminate.
  intros _. cbn [users sessions auto_increment]. repeat split.
  - apply filter_In in H as [Hin _]; assumption.
  - apply filter_In in H as [_ Hne]. apply negb_true_iff, String.eqb_neq in Hne. assumption.
  - intros [Hin Hne]. apply filter_In. split; [assumption | ].
    apply negb_true_iff, String.eqb_neq. assumption.
  - apply filter_In in H as [Hin _]; assumption.
  - apply filter_In in H as [_ Hne]. apply negb_true_iff, String.eqb_neq in Hne. assumption.
  - intros [Hin Hne]. apply filter_In. split; [assumption | ].
    apply negb_true_iff, String.eqb_neq. assumption.
Qed.

(** X19.  The id of a deleted user is handed out again.  When every stored
    id has the form that [get_next_user_id] builds ([QM] and a positive
    number) and the numbers below the one of the deleted user are all taken,
    then after [delete_user], whether it reported success or not,
    [get_next_user_id] returns the id of the deleted user. *)
Theorem deleted_user_id_is_reused {json_text : Type} (i : Z) (udb udb' : users_db)
    (cdb cdb' : conversations_db (json_text := json_text)) (ok : bool) :
  1 <= i ->
  Forall (fun id => exists n, 1 <= n /\ id = "QM" +:+ int_str n)
         (map u_user_id (users udb)) ->
  (forall j, 1 <= j < i -> In ("QM" +:+ int_str j) (map u_user_id (users udb))) ->
  users_reachable udb = true ->
  delete_user ("QM" +:+ int_str i) udb cdb = (ok, udb', cdb') ->
  get_next_user_id udb' = DbOk ("QM" +:+ int_str i).
Proof.
  intros Hi Hform Hbelow Hreach Hrun.
  set (user := "QM" +:+ int_str i) in *.
  assert (Hrows : users_reachable udb' = true /\
                  users udb' = List.filter (fun u => negb (String.eqb (u_user_id u) user))
                                 (users udb)).
  { unfold delete_user in Hrun. rewrite Hreach in Hrun.
    destruct (reachable cdb); inversion Hrun; subst; split; reflexivity. }
  destruct Hrows as [Hreach' Hrows].
  unfold get_next_user_id. rewrite Hreach'. f_equal.
  destruct (next_user_id_number (map u_user_id (users udb')))
    as (k & -> & Hk & Hunused & Hleast).
  rewrite Hrows in Hunused, Hleast.
  assert (Hfree : in_numbers i (qm_numbers (map u_user_id
              (List.filter (fun u => negb (String.eqb (u_user_id u) user)) (users udb))))
            = false).
  { apply not_true_iff_false. intros Hin.
    apply in_numbers_In, list_elem_of_In in Hin. unfold qm_numbers in Hin.
    apply list_elem_of_omap in Hin as (id & Hid & Hnumber).
    apply list_elem_of_In, In_remaining_ids in Hid as [Hid Hne].
    rewrite Forall_forall in Hform. apply list_elem_of_In, Hform in Hid as (n & Hn & ->).
    rewrite qm_number_of_id in Hnumber by lia. apply Hne. unfold user. congruence. }
  assert (Htaken : forall j, 1 <= j < i ->
            in_numbers j (qm_numbers (map u_user_id
              (List.filter (fun u => negb (String.eqb (u_user_id u) user)) (users udb))))
            = true).
  { intros j Hj. apply in_numbers_In, list_elem_of_In. unfold qm_numbers.
    apply list_elem_of_omap. exists ("QM" +:+ int_str j).
    split; [ | apply qm_number_of_id; lia].
    apply list_elem_of_In, In_remaining_ids. split; [apply Hbelow; assumption | ].
    intros Heq. apply user_id_number_injective in Heq; lia. }
  destruct (Z.lt_trichotomy k i) as [Hlt | [-> | Hgt]].
  - rewrite Htaken in Hunused by lia. discriminate.
  - reflexivity.
  - rewrite Hleast in Hfree by lia. discriminate.
Qed.

(** ** The command line *)

Section CommandLineFacts.
Context {E : Engine} {C : Console} {U : Unicode} {V : Validation}.
Context {Model : Type} (llm_invoke : Model -> list message -> result response * Model).
Context (SYSTEM_PROMPT : string).

Local Abbreviation machine := (machine (E := E) (Model := Model)).

(** Every invocation of a paired record reads the list it started with,
    followed by assistant and tool-result messages. *)
Lemma paired_inputs current added :
  paired current added ->
  Forall (fun call : list message * result response =>
            exists tail, fst call = current ++ tail /\ Forall from_turn tail) added.
Proof.
  induction 1 as [current | current x | current r replies rest Hreplies Hrest IH].
  - constructor.
  - constructor; [ | constructor]. exists []. rewrite app_nil_r. split; [reflexivity | constructor].
  - constructor.
    + exists []. rewrite app_nil_r. split; [reflexivity | constructor].
    + eapply Forall_impl; [exact IH | ]. intros call (tail & Hcall & Hturn).
      exists (AIMessage r :: replies ++ tail). split.
      * rewrite Hcall, <- app_assoc. reflexivity.
      * constructor; [exact I | ]. apply Forall_app. split; [ | assumption].
        clear -Hreplies. induction Hreplies as [ | tool_call reply calls replies [text ->] _ IH];
          constructor; [exact I | assumption].
Qed.

(** What one turn hands to the model, and what it leaves of the lists that
    existed before. *)
Lemma ask_inputs query history max_iterations (m : machine) outcome messages m' :
  ask llm_invoke query history max_iterations m = (outcome, messages, m') ->
  (forall l, is_Some (heap m !! l) -> heap m' !! l = heap m !! l) /\
  exists added,
    invocations m' = invocations m ++ added /\
    Forall (fun call : list message * result response =>
              exists tail, fst call = heap m !!! history ++ HumanMessage query :: tail /\
                           Forall from_turn tail) added.
Proof.
  destruct (ask_cases llm_invoke query history max_iterations m)
    as [(msg & _ & ->) | (_ & messages0 & m0 & r & m1 & Hstart & Hloop & ->)];
    intros Hask; inversion Hask; subst; clear Hask.
  { split; [reflexivity | ]. exists []. rewrite app_nil_r.
    split; [reflexivity | constructor]. }
  apply ask_start_spec in Hstart as (Hfresh & Hheap & Hinv & Hframe).
  apply ask_loop_spec in Hloop as (Hframe' & added & Hinv' & Hpaired & _).
  split.
  - intros l [old Hl]. assert (l <> messages0) by congruence.
    rewrite Hframe', Hframe by assumption. reflexivity.
  - exists added. split; [rewrite Hinv', Hinv; reflexivity | ].
    apply paired_inputs in Hpaired. eapply Forall_impl; [exact Hpaired | ].
    intros call (tail & Hcall & Hturn). exists tail.
    rewrite Hcall, Hheap, <- app_assoc. split; [reflexivity | assumption].
Qed.

Lemma main_loop_inputs inputs history (m : machine) e printed m' :
  is_Some (heap m !! history) ->
  main_loop llm_invoke inputs history m = (e, printed, m') ->
  heap m' !! history = heap m !! history /\
  exists added,
    invocations m' = invocations m ++ added /\
    Forall (fun call : list message * result response =>
              exists query tail,
                In query inputs /\
                fst call = heap m !!! history ++ HumanMessage query :: tail /\
                Forall from_turn tail) added.
Proof.
  revert m e printed m'.
  induction inputs as [ | query inputs IH]; intros m e printed m' Hhistory Hrun;
    simpl in Hrun.
  - inversion Hrun; subst. split; [reflexivity | ]. exists []. rewrite app_nil_r.
    split; [reflexivity | constructor].
  - destruct (is_exit_word query).
    { inversion Hrun; subst. split; [reflexivity | ]. exists []. rewrite app_nil_r.
      split; [reflexivity | constructor]. }
    destruct (ask llm_invoke query history 10 m) as [[r messages] m1] eqn:Hask.
    destruct (main_loop llm_invoke inputs history m1) as [[e0 printed0] m2] eqn:Hrest.
    inversion Hrun; subst; clear Hrun.
    apply ask_inputs in Hask as (Hkept & added & Hinv & Hadded).
    pose proof (Hkept history Hhistory) as Hsame.
    apply IH in Hrest as (Hsame' & added' & Hinv' & Hadded');
      [ | rewrite Hsame; assumption].
    split; [congruence | ].
    exists (added ++ added'). split; [rewrite Hinv', Hinv, app_assoc; reflexivity | ].
    apply Forall_app. split.
    + eapply Forall_impl; [exact Hadded | ]. intros call (tail & Hcall & Hturn).
      exists query, tail. repeat split; [left; reflexivity | assumption | assumption].
    + eapply Forall_impl; [exact Hadded' | ]. intros call (q & tail & Hq & Hcall & Hturn).
      exists q, tail. repeat split; [right; assumption | | assumption].
      rewrite Hcall. unfold lookup_total, map_lookup_total. rewrite Hsame. reflexivity.
Qed.

(** X20.  The command line keeps no memory of the conversation: its history
    is never extended, so every invocation of the model, in every turn, reads
    the system message, then the question of the turn that is running, then
    assistant and tool-result messages of that same turn; no question and no
    answer of an earlier turn is passed to the model again. *)
Theorem main_keeps_no_memory (argv inputs : list string) (m : machine) e printed m' :
  main llm_invoke SYSTEM_PROMPT argv inputs m = (e, printed, m') ->
  exists added,
    invocations m' = invocations m ++ added /\
    Forall (fun call : list message * result response =>
              exists query tail,
                In query inputs /\
                fst call = SystemMessage SYSTEM_PROMPT :: HumanMessage query :: tail /\
                Forall from_turn tail) added.
Proof.
  assert (Hnone : (e, printed, m') = (e, printed, m) ->
            exists added : list (list message * result response),
              invocations m = invocations m ++ added /\
              Forall (fun call : list message * result response =>
                exists query tail,
                  In query inputs /\
                  fst call = SystemMessage SYSTEM_PROMPT :: HumanMessage query :: tail /\
                  Forall from_turn tail) added).
  { intros _. exists []. rewrite app_nil_r. split; [reflexivity | constructor]. }
  unfold main. intros Hrun.
  destruct argv as [ | prog [ | path rest]];
    try (inversion Hrun; subst; apply Hnone; reflexivity).
  destruct (files (env m) !! path) as [entry | ];
    [ | inversion Hrun; subst; apply Hnone; reflexivity].
  clear Hnone. cbv zeta in Hrun.
  match type of Hrun with
  | context [main_loop _ _ ?h ?m1] =>
      destruct (main_loop llm_invoke inputs h m1) as [[e0 printed0] m2] eqn:Hloop
  end.
  inversion Hrun; subst; clear Hrun.
  apply main_loop_inputs in Hloop as (_ & added & Hinv & Hadded).
  - exists added. split; [exact Hinv | ].
    eapply Forall_impl; [exact Hadded | ]. intros call (q & tail & Hq & Hcall & Hturn).
    exists q, tail. repeat split; try assumption.
    rewrite Hcall. cbn [heap]. rewrite lookup_total_insert_eq. reflexivity.
  - cbn [heap]. rewrite lookup_insert_eq. eexists; reflexivity.
Qed.

Lemma main_loop_exit_word qs word rest history (m : machine) :
  Forall (fun q => is_exit_word q = false) qs ->
  is_exit_word word = true ->
  exists printed m',
    main_loop llm_invoke (qs ++ word :: rest) history m
      = (LoopLeft, printed ++ [PrintGoodbye], m') /\
    main_loop llm_invoke (qs ++ [word]) history m
      = (LoopLeft, printed ++ [PrintGoodbye], m') /\
    length printed = (2 * length qs)%nat /\
    (length (invocations m') <= length (invocations m) + 10 * length qs)%nat /\
    DATABASE_PATH (env m') = DATABASE_PATH (env m).
Proof.
  intros Hqs Hword. revert m.
  induction Hqs as [ | q qs Hq _ IH]; intros m; simpl.
  - rewrite Hword. exists [], m. repeat split. lia.
  - rewrite Hq.
    destruct (ask llm_invoke q history 10 m) as [[r messages] m1] eqn:Hask.
    destruct (IH m1) as (printed & m' & -> & -> & Hlen & Hcount & Hpath).
    destruct (ask_effects llm_invoke q history 10 m r messages m1 Hask)
      as [[Hpath' _] Hbound].
    change (Z.to_nat 10) with 10%nat in Hbound.
    eexists (PrintProcessing :: _ :: printed), m'. repeat split.
    + simpl. lia.
    + lia.
    + rewrite Hpath, Hpath'. reflexivity.
Qed.

(** X21.  The loop of the command line ends at the first line that is
    [exit] or [quit] in any letter case, and reads nothing after it; every
    line before it is answered with exactly two printed lines, the response
    or the error of its turn, so that no exception of a turn ends the loop;
    and the whole session invokes the model at most ten times per question. *)
Theorem main_ends_at_exit_word (prog path : string) (more qs rest : list string)
    (word : string) (m : machine) :
  is_Some (files (env m) !! path) ->
  Forall (fun q => is_exit_word q = false) qs ->
  is_exit_word word = true ->
  exists printed m',
    main llm_invoke SYSTEM_PROMPT (prog :: path :: more) (qs ++ word :: rest) m
      = (LoopLeft, PrintConnected path :: printed ++ [PrintGoodbye], m') /\
    main llm_invoke SYSTEM_PROMPT (prog :: path :: more) (qs ++ [word]) m
      = (LoopLeft, PrintConnected path :: printed ++ [PrintGoodbye], m') /\
    length printed = (2 * length qs)%nat /\
    (length (invocations m') <= length (invocations m) + 10 * length qs)%nat /\
    DATABASE_PATH (env m') = Some path.
Proof.
  intros [entry Hentry] Hqs Hword. unfold main. rewrite Hentry.
  match goal with
  | |- context [main_loop _ _ ?h ?m1] =>
      destruct (main_loop_exit_word qs word rest h m1 Hqs Hword)
        as (printed & m' & -> & -> & Hlen & Hcount & Hpath)
  end.
  exists printed, m'. repeat split; try assumption.
Qed.

End CommandLineFacts.

(** ** The tools on the reference engine *)

Lemma first_column_names (d : list master_entry) :
  first_column (map (fun e => [SqlText (m_name e)]) d)
  = Ret (map (fun e => SqlText (m_name e)) d).
Proof. induction d as [ | e d IH]; simpl; [ | rewrite IH]; reflexivity. Qed.

(** On the reference engine [list_tables] renders the names of the catalogue
    entries of type [table] that the [LIKE] pattern does not match. *)
Lemma list_tables_on_reference_engine {C : Console} {U : Unicode} reasoning
    (w : world (E := mini_sqlite)) p d :
  markup_error ("Reasoning: " +:+ reasoning) = None ->
  DATABASE_PATH w = Some p ->
  files w !! p = Some (DbFile (E := mini_sqlite) d) ->
  (list_tables reasoning w).1 =
    Ret (list_str (map (fun e => SqlText (m_name e))
                     (List.filter (fun e => String.eqb (m_type e) "table"
                                            && negb (sqlite_like "sqlite_%" (m_name e))) d))).
Proof.
  intros Hpanel Hpath Hfile. unfold list_tables, log_panel, log, with_sql_cursor.
  rewrite Hpanel, Hpath, Hfile.
  cbn [run_cursor db_execute db_open mini_sqlite in_transaction]. unfold mini_execute.
  rewrite String.eqb_refl. cbn [run_cursor]. unfold catalogue_rows.
  rewrite first_column_names. reflexivity.
Qed.

(** Whatever the engine, [sample_table] hands it the table name as it was
    given, unquoted, and turns an exception of the engine into an error
    text; rows come back one rendered tuple per line. *)
Lemma sample_table_statement {E : Engine} {C : Console} {U : Unicode}
    reasoning table_name row_sample_size (w : world) p d c :
  markup_error (tool_panel (SampleTableArgs reasoning table_name row_sample_size)) = None ->
  DATABASE_PATH w = Some p ->
  files w !! p = Some (DbFile d) ->
  (forall rows,
     db_execute (db_open d) (sample_sql table_name row_sample_size) = (Ret (Ret rows), c) ->
     (sample_table reasoning table_name row_sample_size w).1 = Ret (rows_str rows)) /\
  (forall msg,
     markup_error
       (tool_error_log (SampleTableArgs reasoning table_name row_sample_size) msg) = None ->
     db_execute (db_open d) (sample_sql table_name row_sample_size)
       = (Raise (SqliteError msg), c) ->
     (sample_table reasoning table_name row_sample_size w).1
       = Ret ("Error sampling table: " +:+ msg)).
Proof.
  intros Hpanel Hpath Hfile. apply log_accepted in Hpanel.
  split; [intros rows Hexec | intros msg Hline Hexec; apply log_accepted in Hline];
    unfold tool_error_log in *; simpl in *; unfold sample_table, log_panel, with_sql_cursor;
    rewrite Hpanel, Hpath, Hfile; simpl; rewrite Hexec; simpl; [reflexivity | ].
  unfold tool_failure. simpl. rewrite Hline. reflexivity.
Qed.

(** ** The statements at concrete inputs

    The examples run on the reference engine, console, tables and
    coercions. *)

(** A result is the triple of its parts. *)
Lemma outcome_eta {A B C : Type} (x : A * B * C) : x = (x.1.1, x.1.2, x.2).
Proof. destruct x as [[a b] c]. reflexivity. Qed.

Section Examples.
#[local] Existing Instance mini_sqlite.
#[local] Existing Instance mini_rich.
#[local] Existing Instance mini_unicode.
#[local] Existing Instance mini_validation.

(** A database with no user table gives the empty list literal. *)
Example list_tables_empty_database :
  (list_tables "which tables exist" empty_world).1 = Ret "[]".
Proof. vm_compute. reflexivity. Qed.

(** The underscore of the pattern stands for any one character. *)
Example like_underscore_is_a_wildcard :
  sqlite_like "sqlite_%" "sqlite3_import_log" = true /\
  sqlite_like "sqlite_%" "sqlite_sequence" = true /\
  sqlite_like "sqlite_%" "users" = false.
Proof. vm_compute. repeat split. Qed.

(** C7, at the failing input.  The database [shop] holds the user tables
    [users], [daily sales] and [sqlite3_import_log] and the internal table
    [sqlite_sequence]; [list_tables] returns the rendering of [users] and
    [daily sales] only: the user table whose name starts with [sqlite3] is
    left out with the internal one. *)
Theorem list_tables_omits_user_table :
  (list_tables "which tables exist" shop_world).1 = Ret "['users', 'daily sales']".
Proof. vm_compute. reflexivity. Qed.

(** Three rows asked of a table of one row: one line. *)
Example sample_table_one_row :
  (sample_table "look at the rows" "users" 3 shop_world).1 = Ret "(1, 'ann')".
Proof. vm_compute. reflexivity. Qed.

(** C8, at the failing input.  The table [daily sales] exists and has one
    row; asked for three of its rows, [sample_table] executes the statement
    with the name spliced in unquoted, which the engine reads as a table
    [daily] under the alias [sales], and returns an error text instead of the
    one rendered row. *)
Theorem sample_table_name_with_space :
  sample_sql "daily sales" 3 = "SELECT * FROM daily sales LIMIT 3;" /\
  (sample_table "look at the rows" "daily sales" 3 shop_world).1
    = Ret "Error sampling table: no such table: daily" /\
  sqlite_calls (sample_table "look at the rows" "daily sales" 3 shop_world).2
    = [CallConnect "data/shop.db"; CallCursor;
       CallExecute "SELECT * FROM daily sales LIMIT 3;";
       CallCursorClose; CallConnectionClose].
Proof. vm_compute. repeat split. Qed.

(** A session with [readonly = False] around a [DELETE]: the commit is
    logged and the file is left without the rows. *)
Lemma with_sql_cursor_contract_witness :
  DATABASE_PATH shop_world = Some "data/shop.db" /\
  files shop_world !! "data/shop.db" = Some (DbFile (E := mini_sqlite) shop) /\
  exists r w' r_body c cs tx c_end,
    with_sql_cursor false delete_users_block shop_world = (r, w') /\
    run_cursor delete_users_block (db_open shop) (Ret []) = (r_body, c, cs) /\
    sqlite_calls w' =
      sqlite_calls shop_world ++ [CallConnect "data/shop.db"; CallCursor] ++ cs ++ tx
                              ++ [CallCursorClose; CallConnectionClose] /\
    files w' !! "data/shop.db" = Some (DbFile (db_close c_end)) /\
    DATABASE_PATH w' = Some "data/shop.db" /\
    (false = true -> tx = [] /\ r = r_body /\ c_end = c) /\
    (false = false -> forall a, r_body = Ret a ->
       (exists u, db_commit c = (Ret u, c_end) /\ tx = [CallCommit] /\ r = Ret a) \/
       (exists e c', db_commit c = (Raise e, c') /\ c_end = db_rollback c' /\
                     tx = [CallCommit; CallRollback] /\ r = Raise e)) /\
    (false = false -> forall e, r_body = Raise e ->
       tx = [CallRollback] /\ r = Raise e /\ c_end = db_rollback c).
Proof.
  split; [reflexivity | ]. split; [reflexivity | ].
  apply (with_sql_cursor_contract false delete_users_block shop_world
           "data/shop.db" (DbFile (E := mini_sqlite) shop)).
  - reflexivity.
  - reflexivity.
Defined.

(** What the two kinds of session leave in the file: the [DELETE] of a
    session that commits is in the file, the [DELETE] of a read-only session
    is not. *)
Example commit_reaches_the_file :
  files (with_sql_cursor false delete_users_block shop_world).2 !! "data/shop.db"
    = Some (DbFile (E := mini_sqlite) shop_without_users) /\
  sqlite_calls (with_sql_cursor false delete_users_block shop_world).2
    = [CallConnect "data/shop.db"; CallCursor; CallExecute "DELETE FROM users;";
       CallCommit; CallCursorClose; CallConnectionClose] /\
  files (with_sql_cursor true delete_users_block shop_world).2 !! "data/shop.db"
    = Some (DbFile (E := mini_sqlite) shop) /\
  shop_without_users <> shop.
Proof. repeat split; try reflexivity. discriminate. Qed.

Lemma no_database_result_witness :
  no_database fresh_world "None" /\
  run_tool (ListTablesArgs "which tables exist") fresh_world = (Ret NO_DATABASE, fresh_world) /\
  run_tool (SampleTableArgs "look at the rows" "users" 3) fresh_world
    = (Ret NO_DATABASE, fresh_world) /\
  run_tool (DescribeTableArgs "look at the columns" "users") fresh_world
    = (Ret NO_DATABASE, fresh_world) /\
  run_tool count_users_args fresh_world = (Ret NO_DATABASE, fresh_world).
Proof.
  assert (Hno : no_database fresh_world "None") by (left; split; reflexivity).
  split; [exact Hno | ].
  split; [ | split; [ | split]].
  - apply (proj1 (no_database_result (ListTablesArgs "which tables exist")
                    fresh_world "None" Hno)); reflexivity.
  - apply (proj1 (no_database_result (SampleTableArgs "look at the rows" "users" 3)
                    fresh_world "None" Hno)); reflexivity.
  - apply (proj1 (no_database_result (DescribeTableArgs "look at the columns" "users")
                    fresh_world "None" Hno)); reflexivity.
  - apply (proj1 (no_database_result count_users_args fresh_world "None" Hno));
      reflexivity.
Defined.

(** C5, counterexample.  No database is configured, and the reasoning of
    the request holds a closing tag that closes nothing: the tool raises
    instead of returning the no-database text. *)
Lemma no_database_tool_raises :
  DATABASE_PATH fresh_world = None /\
  list_tables "look at [/every] table" fresh_world
  = (Raise (MarkupError
              "closing tag '[/every]' at position 19 doesn't match any open tag"),
     fresh_world).
Proof. split; reflexivity. Qed.

(** C1, counterexample.  [execute_sql] runs a [DELETE] that the engine
    executes without raising: the tool returns, the calls of the session go
    from [fetchall] to the two closes with no commit, and the file still
    holds the rows. *)
Lemma execute_sql_does_not_commit :
  (execute_sql "remove the users" "DELETE FROM users;" shop_world).1 = Ret EmptyString /\
  sqlite_calls (execute_sql "remove the users" "DELETE FROM users;" shop_world).2
    = [CallConnect "data/shop.db"; CallCursor;
       CallExecute "DELETE FROM users;"; CallFetchall;
       CallCursorClose; CallConnectionClose] /\
  ~ In CallCommit
      (sqlite_calls (execute_sql "remove the users" "DELETE FROM users;" shop_world).2) /\
  files (execute_sql "remove the users" "DELETE FROM users;" shop_world).2 !! "data/shop.db"
    = Some (DbFile (E := mini_sqlite) shop).
Proof.
  split; [reflexivity | ]. split; [reflexivity | ]. split; [ | reflexivity].
  intros H. vm_compute in H.
  repeat (destruct H as [H | H]; [discriminate H | ]). exact H.
Qed.

Lemma tools_never_commit_witness :
  markup_error (tool_panel count_users_args) = None /\
  DATABASE_PATH shop_world = Some "data/shop.db" /\
  files shop_world !! "data/shop.db" = Some (DbFile (E := mini_sqlite) shop) /\
  db_execute (db_open (Engine := mini_sqlite) shop) "SELECT * FROM users LIMIT 5;"
    = (Ret (Ret [[SqlInt 1; SqlText "ann"]]), db_open shop) /\
  (run_tool count_users_args shop_world).1 = Ret (rows_str [[SqlInt 1; SqlText "ann"]]) /\
  calls_added shop_world (run_tool count_users_args shop_world).2
    [CallConnect "data/shop.db"; CallCursor; CallExecute "SELECT * FROM users LIMIT 5;";
     CallFetchall; CallCursorClose; CallConnectionClose] /\
  files (run_tool count_users_args shop_world).2 !! "data/shop.db"
    = Some (DbFile (E := mini_sqlite) (db_close (Engine := mini_sqlite) (db_open (Engine := mini_sqlite) shop))).
Proof.
  split; [reflexivity | ]. split; [reflexivity | ]. split; [reflexivity | ].
  split; [reflexivity | ].
  apply (proj2 (tools_never_commit (E := mini_sqlite) count_users_args shop_world)
           "show the users" "SELECT * FROM users LIMIT 5;" "data/shop.db" shop
           [[SqlInt 1; SqlText "ann"]] (db_open (Engine := mini_sqlite) shop)).
  - reflexivity.
  - reflexivity.
  - reflexivity.
  - reflexivity.
  - reflexivity.
Defined.

(** C2, counterexample.  A request for a tool that is not registered: the
    dispatcher raises [KeyError] instead of returning a tool-result message. *)
Lemma call_tool_unknown_name_raises :
  call_tool (plot_call "call_7") shop_world = (Raise (KeyError "plot_chart"), shop_world).
Proof. reflexivity. Qed.

Lemma call_tool_result_witness :
  tools_by_name !! tc_name (list_tables_call "call_7") = Some list_tables_tool /\
  validate_args list_tables_tool (tc_args (list_tables_call "call_7"))
    = Ret (ListTablesArgs "see what is there") /\
  ((exists text w',
      run_tool (ListTablesArgs "see what is there") shop_world = (Ret text, w') /\
      call_tool (list_tables_call "call_7") shop_world
        = (Ret (ToolMessage text "call_7"), w')) \/
   (exists msg w',
      call_tool (list_tables_call "call_7") shop_world = (Raise (MarkupError msg), w') /\
      ((markup_error (tool_panel (ListTablesArgs "see what is there")) = Some msg /\
        w' = shop_world) \/
       (markup_error (tool_panel (ListTablesArgs "see what is there")) = None /\
        exists err,
          markup_error (failure_log (ListTablesArgs "see what is there") err)
            = Some msg)))).
Proof.
  split; [reflexivity | ]. split; [reflexivity | ].
  apply (proj2 (proj2 (call_tool_result (list_tables_call "call_7") shop_world))
           list_tables_tool (ListTablesArgs "see what is there")).
  - reflexivity.
  - reflexivity.
Defined.

(** What the dispatcher answers to that request, and to a request whose
    row count comes as a string of digits. *)
Example call_tool_on_the_shop :
  (call_tool (list_tables_call "call_7") shop_world).1
    = Ret (ToolMessage "['users', 'daily sales']" "call_7") /\
  (call_tool {| tc_name := "sample_table";
                tc_args := {[ "reasoning" := ArgStr "look at the rows";
                              "table_name" := ArgStr "users";
                              "row_sample_size" := ArgStr "3" ]};
                tc_id := "call_8" |} shop_world).1
    = Ret (ToolMessage "(1, 'ann')" "call_8").
Proof. split; vm_compute; reflexivity. Qed.

(** C3, counterexample.  The stub returns a tool-call response on every
    invocation, the ceiling is 10, and [ask] invokes the model once and fails
    with [KeyError], not with the iteration-limit error. *)
Lemma ask_unknown_tool_escapes :
  (forall s input, exists r,
     stub_always_plots s input = (Ret r, tt) /\ tool_calls r <> []) /\
  (ask stub_always_plots "plot the sales" 1%positive 10 (start_machine tt)).1.1
    = Raise (KeyError "plot_chart") /\
  length (invocations
            (ask stub_always_plots "plot the sales" 1%positive 10 (start_machine tt)).2)
    = 1%nat.
Proof.
  split.
  - intros s input. eexists. split; [reflexivity | discriminate].
  - vm_compute. split; reflexivity.
Qed.

(** A stub that always asks for [list_tables] under a ceiling of 2, and a stub
    that answers on its third invocation under a ceiling of 5. *)
Lemma ask_iteration_ceiling_witness :
  markup_error ("Query: " +:+ "which tables exist") = None /\
  (exists mk,
     after_passes stub_always_lists 2
       (ask_start "which tables exist" 1%positive (start_machine tt)).1
       (ask_start "which tables exist" 1%positive (start_machine tt)).2 = Some mk /\
     ask stub_always_lists "which tables exist" 1%positive 2 (start_machine tt)
       = (Raise (RuntimeError MAX_ITERATIONS_MESSAGE),
          Some (ask_start "which tables exist" 1%positive (start_machine tt)).1, mk) /\
     length (invocations mk) = 2%nat) /\
  (2 < Z.to_nat 5)%nat /\
  (exists m',
     ask stub_counts_down "which tables exist" 1%positive 5 (start_machine 2%nat)
       = (Ret "There is one table, users.",
          Some (ask_start "which tables exist" 1%positive (start_machine 2%nat)).1, m') /\
     length (invocations m') = 3%nat).
Proof.
  assert (Hpanel : markup_error ("Query: " +:+ "which tables exist") = None)
    by reflexivity.
  split; [exact Hpanel | ]. split.
  { pose (start := ask_start "which tables exist" 1%positive (start_machine tt)).
    assert (Hsome : is_Some (after_passes stub_always_lists 2 start.1 start.2))
      by (eexists; reflexivity).
    destruct Hsome as [mk Hpasses].
    exists mk. split; [exact Hpasses | ].
    exact (proj1 (ask_iteration_ceiling stub_always_lists "which tables exist" 1%positive 2
                    (start_machine tt) start.1 start.2 Hpanel eq_refl) mk Hpasses). }
  split; [vm_compute; lia | ].
  pose (start := ask_start "which tables exist" 1%positive (start_machine 2%nat)).
  pose (mk := default start.2 (after_passes stub_counts_down 2 start.1 start.2)).
  apply (proj2 (ask_iteration_ceiling stub_counts_down "which tables exist" 1%positive 5
                  (start_machine 2%nat) start.1 start.2 Hpanel eq_refl)
           2%nat mk
           {| content := "There is one table, users."; tool_calls := [] |} O).
  - vm_compute; lia.
  - reflexivity.
  - reflexivity.
  - reflexivity.
Defined.

(** The turn of a stub that asks for [list_tables] once and then answers. *)
Lemma ask_pairs_requests_and_results_witness :
  exists added,
    invocations (ask stub_counts_down "which tables exist" 1%positive 5
                   (start_machine 1%nat)).2
      = invocations (start_machine 1%nat) ++ added /\
    (forall input x, added !! 0%nat = Some (input, x) ->
       input = heap (start_machine 1%nat) !!! 1%positive
               ++ [HumanMessage "which tables exist"]) /\
    (forall i input1 r1 input2 x,
       added !! i = Some (input1, Ret r1) ->
       added !! S i = Some (input2, x) ->
       exists replies,
         input2 = input1 ++ AIMessage r1 :: replies /\
         Forall2 answers (tool_calls r1) replies).
Proof.
  apply (ask_pairs_requests_and_results stub_counts_down "which tables exist" 1%positive 5
           (start_machine 1%nat)
           (ask stub_counts_down "which tables exist" 1%positive 5 (start_machine 1%nat)).1.1
           (ask stub_counts_down "which tables exist" 1%positive 5 (start_machine 1%nat)).1.2
           (ask stub_counts_down "which tables exist" 1%positive 5 (start_machine 1%nat)).2).
  apply outcome_eta.
Defined.

(** What the model of that turn was given on its two invocations. *)
Example second_invocation_reads_the_reply :
  map fst (invocations (ask stub_counts_down "which tables exist" 1%positive 5
                          (start_machine 1%nat)).2)
  = [ [SystemMessage "You are QueryMind."; HumanMessage "which tables exist"];
      [SystemMessage "You are QueryMind."; HumanMessage "which tables exist";
       AIMessage {| content := EmptyString; tool_calls := [list_tables_call "call_1"] |};
       ToolMessage "['users', 'daily sales']" "call_1"] ].
Proof. reflexivity. Qed.

Lemma ask_keeps_history_witness :
  is_Some (heap (start_machine 1%nat) !! 1%positive) /\
  heap (ask stub_counts_down "which tables exist" 1%positive 5 (start_machine 1%nat)).2
    !! 1%positive
  = heap (start_machine 1%nat) !! 1%positive.
Proof.
  assert (Hhistory : is_Some (heap (start_machine 1%nat) !! 1%positive))
    by (eexists; reflexivity).
  split; [exact Hhistory | ].
  exact (proj1 (proj2 (proj2
           (ask_keeps_history stub_counts_down "which tables exist" 1%positive 5
              (start_machine 1%nat)
              (ask stub_counts_down "which tables exist" 1%positive 5
                 (start_machine 1%nat)).1.1
              (ask stub_counts_down "which tables exist" 1%positive 5
                 (start_machine 1%nat)).1.2
              (ask stub_counts_down "which tables exist" 1%positive 5
                 (start_machine 1%nat)).2
              Hhistory (outcome_eta _))))).
Defined.

(** After the turn the caller's list still holds the system message alone,
    and the private list holds the whole exchange; a request that rich does
    not render leaves no private list. *)
Example history_after_a_turn :
  heap (ask stub_counts_down "which tables exist" 1%positive 5 (start_machine 1%nat)).2
    !! 1%positive
  = Some [SystemMessage "You are QueryMind."] /\
  option_map
    (fun l => length (heap (ask stub_counts_down "which tables exist" 1%positive 5
                              (start_machine 1%nat)).2 !!! l))
    (ask stub_counts_down "which tables exist" 1%positive 5 (start_machine 1%nat)).1.2
  = Some 5%nat /\
  (ask stub_counts_down "which [/] tables exist" 1%positive 5 (start_machine 1%nat)).1
  = (Raise (MarkupError "closing tag '[/]' at position 13 has nothing to close"), None).
Proof. vm_compute. repeat split. Qed.

(** C9, counterexample.  A guest's conversation is not saved: [save_session]
    returns no session id, and loading gives back the fresh history, without
    the user and assistant turns. *)
Lemma guest_conversation_is_not_saved :
  (save_session (fun v => v) "01-01-24 [10:00]" None "Chat" short_conversation
     guest no_sessions).1 = None /\
  chat_text short_conversation
    = [(User, "How many users are there?"); (Assistant, "There is one user.")] /\
  chat_text
    (load_session "You are QueryMind." (fun v => v)
       (save_session (fun v => v) "01-01-24 [10:00]" None "Chat" short_conversation
          guest no_sessions).1
       guest
       (save_session (fun v => v) "01-01-24 [10:00]" None "Chat" short_conversation
          guest no_sessions).2)
    = [].
Proof. vm_compute. repeat split. Qed.

Lemma save_load_round_trip_witness :
  is_guest ann = false /\
  user_id ann = Some "QM1" /\
  reachable no_sessions = true /\
  json_length (serialize short_conversation) <= TEXT_LIMIT /\
  exists sid db',
    save_session (fun v => v) "01-01-24 [10:00]" None "Chat" short_conversation
      ann no_sessions = (Some sid, db') /\
    chat_text (load_session "You are QueryMind." (fun v => v) (Some sid) ann db')
      = chat_text short_conversation.
Proof.
  assert (Hfits : json_length (serialize short_conversation) <= TEXT_LIMIT)
    by (vm_compute; discriminate).
  repeat (split; [reflexivity | ]). split; [exact Hfits | ].
  apply (proj2 (save_load_round_trip "You are QueryMind." (fun v => v) (fun v => v)
                  "01-01-24 [10:00]" None "Chat" short_conversation ann no_sessions
                  (fun v => eq_refl))
           "QM1" eq_refl eq_refl eq_refl).
  - constructor.
  - discriminate.
  - exact Hfits.
  - intros Hnew. destruct (Hnew eq_refl).
Defined.

(** The length of the JSON text of that conversation, and of a text that
    does not fit. *)
Example json_length_of_a_conversation :
  json_length (serialize short_conversation) = 122 /\
  too_long (json_length (serialize short_conversation)) = false /\
  too_long 65536 = true.
Proof. vm_compute. repeat split. Qed.

(** Sampling the table [daily sales] of the shop: the engine rejects the
    statement and the tool reports it. *)
Lemma tool_reports_engine_error_witness :
  markup_error (tool_panel daily_sales_args) = None /\
  markup_error (tool_error_log daily_sales_args "no such table: daily") = None /\
  DATABASE_PATH shop_world = Some "data/shop.db" /\
  files shop_world !! "data/shop.db" = Some (DbFile (E := mini_sqlite) shop) /\
  db_execute (db_open (Engine := mini_sqlite) shop) (tool_statement daily_sales_args)
    = (Raise (SqliteError "no such table: daily"), db_open (Engine := mini_sqlite) shop) /\
  (run_tool daily_sales_args shop_world).1
    = Ret "Error sampling table: no such table: daily" /\
  calls_added shop_world (run_tool daily_sales_args shop_world).2
    [CallConnect "data/shop.db"; CallCursor; CallExecute "SELECT * FROM daily sales LIMIT 3;";
     CallCursorClose; CallConnectionClose].
Proof.
  assert (Hpanel : markup_error (tool_panel daily_sales_args) = None) by reflexivity.
  assert (Hline : markup_error (tool_error_log daily_sales_args "no such table: daily")
                  = None) by reflexivity.
  split; [exact Hpanel | ]. split; [exact Hline | ].
  split; [reflexivity | ]. split; [reflexivity | ]. split; [reflexivity | ].
  destruct (proj1 (tool_reports_engine_error (E := mini_sqlite) (C := mini_rich)
                     (U := mini_unicode) daily_sales_args shop_world
                     "data/shop.db" shop "no such table: daily"
                     (db_open (Engine := mini_sqlite) shop)
                     Hpanel Hline eq_refl eq_refl) eq_refl)
    as (Htext & Hcalls & _).
  split; [exact Htext | exact Hcalls].
Defined.

Lemma call_tool_without_database_witness :
  tools_by_name !! tc_name (list_tables_call "call_7") = Some list_tables_tool /\
  validate_args list_tables_tool (tc_args (list_tables_call "call_7"))
    = Ret (ListTablesArgs "see what is there") /\
  no_database fresh_world "None" /\
  call_tool (list_tables_call "call_7") fresh_world
    = (Ret (ToolMessage NO_DATABASE "call_7"), fresh_world).
Proof.
  assert (Hno : no_database fresh_world "None") by (left; split; reflexivity).
  split; [reflexivity | ]. split; [reflexivity | ]. split; [exact Hno | ].
  apply (call_tool_without_database (list_tables_call "call_7")
           fresh_world list_tables_tool (ListTablesArgs "see what is there") "None").
  - reflexivity.
  - reflexivity.
  - exact Hno.
  - reflexivity.
  - reflexivity.
Defined.

(** A stub that always asks for a tool, under a ceiling of 3. *)
Lemma ask_invocations_bounded_witness :
  (length (invocations
             (ask stub_always_lists "which tables exist" 1%positive 3 (start_machine tt)).2)
   <= length (invocations (start_machine tt)) + Z.to_nat 3)%nat.
Proof.
  refine (proj1 (ask_invocations_bounded stub_always_lists "which tables exist" 1%positive 3
                   (start_machine tt)
                   (ask stub_always_lists "which tables exist" 1%positive 3
                      (start_machine tt)).1.1
                   (ask stub_always_lists "which tables exist" 1%positive 3
                      (start_machine tt)).1.2
                   (ask stub_always_lists "which tables exist" 1%positive 3
                      (start_machine tt)).2
                   (outcome_eta _))).
Defined.

(** The turn of a stub that asks for [list_tables] once and then answers. *)
Lemma ask_world_frame_witness :
  DATABASE_PATH (env (ask stub_counts_down "which tables exist" 1%positive 5
                        (start_machine 1%nat)).2)
    = DATABASE_PATH (env (start_machine 1%nat)) /\
  exists cs,
    calls_added (env (start_machine 1%nat))
      (env (ask stub_counts_down "which tables exist" 1%positive 5
              (start_machine 1%nat)).2) cs /\
    Forall (fun call => call <> CallCommit /\ call <> CallRollback) cs.
Proof.
  exact (ask_world_frame stub_counts_down "which tables exist" 1%positive 5
           (start_machine 1%nat)
           (ask stub_counts_down "which tables exist" 1%positive 5
              (start_machine 1%nat)).1.1
           (ask stub_counts_down "which tables exist" 1%positive 5
              (start_machine 1%nat)).1.2
           (ask stub_counts_down "which tables exist" 1%positive 5
              (start_machine 1%nat)).2
           (outcome_eta _)).
Defined.

Lemma ask_private_list_witness :
  exists l tail,
    (ask stub_counts_down "which tables exist" 1%positive 5 (start_machine 1%nat)).1.2
      = Some l /\
    heap (ask stub_counts_down "which tables exist" 1%positive 5 (start_machine 1%nat)).2
      !!! l
    = heap (start_machine 1%nat) !!! 1%positive
      ++ HumanMessage "which tables exist" :: tail /\
    Forall from_turn tail.
Proof.
  assert (Hret : (ask stub_counts_down "which tables exist" 1%positive 5
                    (start_machine 1%nat)).1.1
                 = Ret "There is one table, users.") by reflexivity.
  destruct (ask_private_list stub_counts_down "which tables exist" 1%positive 5
              (start_machine 1%nat)
              (ask stub_counts_down "which tables exist" 1%positive 5
                 (start_machine 1%nat)).1.1
              (ask stub_counts_down "which tables exist" 1%positive 5
                 (start_machine 1%nat)).1.2
              (ask stub_counts_down "which tables exist" 1%positive 5
                 (start_machine 1%nat)).2
              (outcome_eta _)) as [Hsome Hlist].
  destruct (Hsome _ Hret) as [l Hl].
  destruct (Hlist l Hl) as (tail & Hheap & Hturn & _).
  exists l, tail. split; [exact Hl | ]. split; [exact Hheap | exact Hturn].
Defined.

(** A stub that asks for [list_tables] once and fails on its second
    invocation, under a ceiling of 5. *)
Lemma ask_model_error_propagates_witness :
  markup_error ("Query: " +:+ "which tables exist") = None /\
  (1 < Z.to_nat 5)%nat /\
  exists m',
    ask stub_fails_later "which tables exist" 1%positive 5 (start_machine 1%nat)
      = (Raise (ModelError "rate limit exceeded"),
         Some (ask_start "which tables exist" 1%positive (start_machine 1%nat)).1, m') /\
    length (invocations m') = 2%nat.
Proof.
  assert (Hpanel : markup_error ("Query: " +:+ "which tables exist") = None)
    by reflexivity.
  assert (Hbelow : (1 < Z.to_nat 5)%nat) by (vm_compute; lia).
  split; [exact Hpanel | ]. split; [exact Hbelow | ].
  pose (start := ask_start "which tables exist" 1%positive (start_machine 1%nat)).
  pose (mk := default start.2 (after_passes stub_fails_later 1 start.1 start.2)).
  destruct (ask_model_error_propagates stub_fails_later "which tables exist" 1%positive 5
              (start_machine 1%nat) 1%nat start.1 start.2 mk
              (ModelError "rate limit exceeded") O Hpanel eq_refl Hbelow eq_refl eq_refl)
    as (m' & Hask & Hlen & _).
  exists m'. split; [exact Hask | exact Hlen].
Defined.

(** The first user saves under the id of the second user's session; the
    second user loads that session as before. *)
Lemma save_session_keeps_other_users_witness :
  user_id bob <> user_id ann /\
  load_session "You are QueryMind." (fun v => v) (Some 2) bob
    (save_session (fun v => v) "02-01-24 [10:00]" (Some 2) "Mine now" short_conversation
       ann two_sessions).2
  = load_session "You are QueryMind." (fun v => v) (Some 2) bob two_sessions.
Proof.
  assert (Hother : user_id bob <> user_id ann) by discriminate.
  split; [exact Hother | ].
  apply (save_session_keeps_other_users "You are QueryMind." (fun v => v) (fun v => v)
           "02-01-24 [10:00]" (Some 2) "Mine now" short_conversation ann bob two_sessions
           (save_session (fun v => v) "02-01-24 [10:00]" (Some 2) "Mine now"
              short_conversation ann two_sessions).1
           (save_session (fun v => v) "02-01-24 [10:00]" (Some 2) "Mine now"
              short_conversation ann two_sessions).2
           (Some 2)).
  - apply surjective_pairing.
  - exact Hother.
Defined.

Lemma save_to_unowned_session_is_lost_witness :
  is_guest ann = false /\
  user_id ann = Some "QM1" /\
  reachable two_sessions = true /\
  save_session (fun v => v) "02-01-24 [10:00]" (Some 2) "Mine now" short_conversation
    ann two_sessions = (Some 2, two_sessions) /\
  load_session "You are QueryMind." (fun v => v) (Some 2) ann two_sessions
    = [SystemMessage "You are QueryMind."].
Proof.
  split; [reflexivity | ]. split; [reflexivity | ]. split; [reflexivity | ].
  apply (save_to_unowned_session_is_lost "You are QueryMind." (fun v => v) (fun v => v)
           "02-01-24 [10:00]" 2 "Mine now" short_conversation ann two_sessions "QM1").
  - reflexivity.
  - reflexivity.
  - reflexivity.
  - intros r [<- | [<- | []]]; reflexivity.
Defined.

Lemma two_sessions_ok : sessions_table_ok two_sessions.
Proof.
  split.
  - apply NoDup_cons. split; [ | apply NoDup_singleton].
    intros Hin. apply list_elem_of_In in Hin as [Hin | []]. discriminate Hin.
  - apply Forall_cons. split; [reflexivity | ].
    apply Forall_cons. split; [reflexivity | ]. apply Forall_nil. exact I.
Qed.

Lemma save_session_keeps_primary_key_witness :
  sessions_table_ok two_sessions /\
  sessions_table_ok
    (save_session (fun v => v) "02-01-24 [10:00]" None "Chat" short_conversation
       ann two_sessions).2.
Proof.
  split; [exact two_sessions_ok | ].
  refine (proj1 (save_session_keeps_primary_key (fun v => v) "02-01-24 [10:00]" None "Chat"
                   short_conversation ann two_sessions
                   (save_session (fun v => v) "02-01-24 [10:00]" None "Chat"
                      short_conversation ann two_sessions).1
                   (save_session (fun v => v) "02-01-24 [10:00]" None "Chat"
                      short_conversation ann two_sessions).2
                   two_sessions_ok (surjective_pairing _))).
Defined.

(** A conversation saved as new and then saved again with one more
    question. *)
Lemma save_session_overwrites_witness :
  let first := save_session (fun v => v) "02-01-24 [10:00]" None "Chat" short_conversation
                 ann two_sessions in
  let second := save_session (fun v => v) "02-01-24 [10:00]" first.1 "Chat"
                  (short_conversation ++ [HumanMessage "And how many sales?"])
                  ann first.2 in
  first.1 = Some 3 /\
  second.1 = first.1 /\
  length (sessions second.2) = 3%nat /\
  chat_text (load_session "You are QueryMind." (fun v => v) second.1 ann second.2)
    = chat_text (short_conversation ++ [HumanMessage "And how many sales?"]).
Proof.
  intros first second.
  apply (save_session_overwrites "You are QueryMind." (fun v => v) (fun v => v)
           "02-01-24 [10:00]" "Chat" "Chat" short_conversation
           (short_conversation ++ [HumanMessage "And how many sales?"])
           ann two_sessions "QM1" first.1 second.1 first.2 second.2).
  - reflexivity.
  - reflexivity.
  - reflexivity.
  - reflexivity.
  - vm_compute; discriminate.
  - vm_compute; discriminate.
  - vm_compute; discriminate.
  - apply surjective_pairing.
  - apply surjective_pairing.
Defined.

(** The first user deletes the session that her page shows. *)
Lemma delete_session_removes_witness :
  is_guest (account anns_page) = false /\
  user_id (account anns_page) = Some "QM1" /\
  reachable two_sessions = true /\
  let after := delete_session "You are QueryMind." (fun v => v) "02-01-24 [10:00]" 1
                 anns_page two_sessions in
  load_session "You are QueryMind." (fun v => v) (Some 1) ann after.2
    = [SystemMessage "You are QueryMind."] /\
  load_session "You are QueryMind." (fun v => v) (Some 2) bob after.2
    = load_session "You are QueryMind." (fun v => v) (Some 2) bob two_sessions /\
  st_current_session_id after.1 = Some (Some 3).
Proof.
  split; [reflexivity | ]. split; [reflexivity | ]. split; [reflexivity | ].
  intros after.
  destruct (delete_session_removes "You are QueryMind." (fun v => v) (fun v => v)
              "02-01-24 [10:00]" 1 anns_page after.1 two_sessions after.2 "QM1"
              (fun v => eq_refl) eq_refl eq_refl eq_refl (surjective_pairing _))
    as (Hgone & Hothers & Hcurrent & _).
  split; [exact Hgone | ]. split.
  - apply Hothers; [left; discriminate | discriminate].
  - exact (proj1 (Hcurrent eq_refl)).
Defined.

(** The shop is uploaded; the tools then run on it. *)
Lemma upload_accepted_witness :
  files upload_world !! join_with_slash "uploads" "shop.db" <> Some Directory /\
  exists w',
    save_uploaded_file "uploads" join_with_slash "shop.db" shop upload_world
      = (Accepted "uploads/shop.db", w') /\
    DATABASE_PATH w' = Some "uploads/shop.db" /\
    (execute_sql "show the users" "SELECT * FROM users LIMIT 5;" w').1
      = Ret "(1, 'ann')".
Proof.
  assert (Hfile : files upload_world !! join_with_slash "uploads" "shop.db"
                  <> Some Directory).
  { unfold upload_world. simpl. rewrite lookup_singleton_ne; discriminate. }
  split; [exact Hfile | ].
  destruct (upload_accepted (E := mini_sqlite) (C := mini_rich) (U := mini_unicode)
              "uploads" join_with_slash "shop.db" shop
              upload_world (Ret [[SqlInt 1]]) (db_open (Engine := mini_sqlite) shop) tt
              (db_open (Engine := mini_sqlite) shop) Hfile eq_refl eq_refl)
    as (w' & Hsave & Hpath & _ & _ & Htool).
  exists w'. split; [exact Hsave | ]. split; [exact Hpath | ].
  apply (Htool "show the users" "SELECT * FROM users LIMIT 5;"
           [[SqlInt 1; SqlText "ann"]] (db_open (Engine := mini_sqlite) shop));
    reflexivity.
Defined.

(** With the ids [QM1], [QM2] and [QM4] stored, the next id is [QM3]. *)
Lemma get_next_user_id_least_unused_witness :
  users_reachable registered_users = true /\
  exists i,
    get_next_user_id registered_users = DbOk ("QM" +:+ int_str i) /\
    1 <= i /\
    ~ In ("QM" +:+ int_str i) (map u_user_id (users registered_users)).
Proof.
  split; [reflexivity | ].
  destruct (get_next_user_id_least_unused registered_users eq_refl)
    as (i & Hid & Hi & _ & _ & Hfresh).
  exists i. split; [exact Hid | ]. split; [exact Hi | exact Hfresh].
Defined.

Example next_id_fills_the_gap : get_next_user_id registered_users = DbOk "QM3".
Proof. vm_compute. reflexivity. Qed.

(** The second user's account is deleted while the conversations database
    is down: the row is gone, the session stays. *)
Lemma delete_user_partial_witness :
  users_reachable registered_users = true /\
  reachable two_sessions_down = false /\
  exists udb',
    delete_user "QM2" registered_users two_sessions_down = (false, udb', two_sessions_down) /\
    ~ In "QM2" (map u_user_id (users udb')) /\
    In "QM2" (map row_user_id (sessions two_sessions_down)).
Proof.
  split; [reflexivity | ]. split; [reflexivity | ].
  destruct (delete_user_partial "QM2" registered_users two_sessions_down eq_refl eq_refl)
    as (udb' & Hrun & Hgone & _).
  exists udb'. split; [exact Hrun | ]. split; [exact Hgone | ].
  right. left. reflexivity.
Defined.

Lemma delete_user_complete_witness :
  (delete_user "QM2" registered_users two_sessions).1.1 = true /\
  map u_user_id (users (delete_user "QM2" registered_users two_sessions).1.2)
    = ["QM1"; "QM4"] /\
  forall r, In r (sessions (delete_user "QM2" registered_users two_sessions).2) <->
            In r (sessions two_sessions) /\ row_user_id r <> "QM2".
Proof.
  destruct (delete_user_complete "QM2" registered_users
              (delete_user "QM2" registered_users two_sessions).1.2
              two_sessions
              (delete_user "QM2" registered_users two_sessions).2
              (delete_user "QM2" registered_users two_sessions).1.1 (outcome_eta _))
    as (Hok & Hrows).
  split; [exact Hok | ]. split; [reflexivity | ].
  exact (proj1 (proj2 (Hrows eq_refl))).
Defined.

(** After the deletion of [QM2] the next account gets the id [QM2], the user
    id of the session that the deletion left behind. *)
Lemma deleted_user_id_is_reused_witness :
  1 <= 2 /\
  users_reachable registered_users = true /\
  get_next_user_id (delete_user "QM2" registered_users two_sessions_down).1.2 = DbOk "QM2" /\
  map row_user_id (sessions (delete_user "QM2" registered_users two_sessions_down).2)
  = ["QM1"; "QM2"].
Proof.
  assert (Hpos : 1 <= 2) by lia.
  split; [exact Hpos | ]. split; [reflexivity | ]. split; [ | reflexivity].
  apply (deleted_user_id_is_reused 2 registered_users
           (delete_user "QM2" registered_users two_sessions_down).1.2
           two_sessions_down
           (delete_user "QM2" registered_users two_sessions_down).2
           (delete_user "QM2" registered_users two_sessions_down).1.1 Hpos).
  - apply Forall_cons. split; [exists 1; split; [lia | reflexivity] | ].
    apply Forall_cons. split; [exists 2; split; [lia | reflexivity] | ].
    apply Forall_cons. split; [exists 4; split; [lia | reflexivity] | ].
    apply Forall_nil. exact I.
  - intros j Hj. assert (j = 1) as -> by lia. left. reflexivity.
  - reflexivity.
  - apply outcome_eta.
Defined.

(** A session of the command line: one question, then [Exit]. *)
Lemma main_keeps_no_memory_witness :
  exists added,
    invocations (main stub_counts_down "You are QueryMind." cli_argv cli_lines
                   (start_machine 1%nat)).2
      = invocations (start_machine 1%nat) ++ added /\
    Forall (fun call : list message * result response =>
              exists query tail,
                In query cli_lines /\
                fst call = SystemMessage "You are QueryMind." :: HumanMessage query :: tail /\
                Forall from_turn tail) added.
Proof.
  apply (main_keeps_no_memory stub_counts_down "You are QueryMind." cli_argv cli_lines
           (start_machine 1%nat)
           (main stub_counts_down "You are QueryMind." cli_argv cli_lines
              (start_machine 1%nat)).1.1
           (main stub_counts_down "You are QueryMind." cli_argv cli_lines
              (start_machine 1%nat)).1.2
           (main stub_counts_down "You are QueryMind." cli_argv cli_lines
              (start_machine 1%nat)).2).
  apply outcome_eta.
Defined.

Lemma main_ends_at_exit_word_witness :
  is_Some (files (env (start_machine 1%nat)) !! "data/shop.db") /\
  is_exit_word "which tables exist" = false /\
  is_exit_word "Exit" = true /\
  exists printed m',
    main stub_counts_down "You are QueryMind." cli_argv cli_lines (start_machine 1%nat)
      = (LoopLeft, PrintConnected "data/shop.db" :: printed ++ [PrintGoodbye], m') /\
    length printed = 2%nat /\
    DATABASE_PATH (env m') = Some "data/shop.db".
Proof.
  assert (Hfile : is_Some (files (env (start_machine 1%nat)) !! "data/shop.db"))
    by (eexists; reflexivity).
  assert (Hlines : Forall (fun q => is_exit_word q = false) ["which tables exist"])
    by (apply Forall_cons; split; [reflexivity | apply Forall_nil; exact I]).
  split; [exact Hfile | ]. split; [reflexivity | ]. split; [reflexivity | ].
  destruct (main_ends_at_exit_word stub_counts_down "You are QueryMind."
              "main.py" "data/shop.db" [] ["which tables exist"] ["never read"] "Exit"
              (start_machine 1%nat) Hfile Hlines eq_refl)
    as (printed & m' & Hrun & _ & Hlen & _ & Hpath).
  exists printed, m'. split; [exact Hrun | ]. split; [exact Hlen | exact Hpath].
Defined.

(** What that session prints, and what a session prints whose question rich
    does not render: the error of the turn, and the loop goes on. *)
Example cli_session_output :
  (main stub_counts_down "You are QueryMind." cli_argv cli_lines (start_machine 1%nat)).1
  = (LoopLeft,
     [PrintConnected "data/shop.db"; PrintProcessing;
      PrintResponse "There is one table, users."; PrintGoodbye]) /\
  (main stub_counts_down "You are QueryMind." cli_argv ["show [/] all"; "quit"]
     (start_machine 1%nat)).1
  = (LoopLeft,
     [PrintConnected "data/shop.db"; PrintProcessing;
      PrintError "closing tag '[/]' at position 12 has nothing to close"; PrintGoodbye]).
Proof. split; reflexivity. Qed.

End Examples.
